(* ===== verification/_CoqProject ===== *)
-Q . S2P
Prelude.v
PyStr.v
Utf8.v
Regex.v
Patterns.v
Effects.v
Command.v
Payload.v
Monitor.v
Stream.v
Json.v
Discovery.v
Config.v
System.v
