(* ===== verification/Prelude.v ===== *)
(** * A verification development of the X10mqtt gateway (src/x10mqtt.py)

    The program is one Python script that bridges an X10 home-automation
    bus, reached through the [heyu] command-line controller, and an MQTT
    broker reached through the paho client.  Its parts and how they meet:

    - configuration (lines 28-101) reads the environment once, at import
      time, into module globals: [broker], [port], [mqttuser],
      [mqttpass], [cmdtopic], [stattopic], [discoveryhouses],
      [discoverytopic], [cm17]; a missing host or port prints a message
      and calls [exit(1)];
    - [on_message] (lines 199-219) is the paho callback for a command
      message: it decodes the payload's bytes as UTF-8 (paho decodes the
      topic), upper-cases the text, takes the last segment of the topic,
      upper-cased, as the housecode, checks both against [ON]/[OFF] and the
      regular expression [^[A-P][0-9]+$], and calls [execute];
    - [execute] (lines 110-124) runs [heyu <action> <housecode>] (with the
      CM17 action vocabulary [fon]/[foff] when [cm17] is set), logs a
      non-zero exit code, and always publishes the commanded state,
      retained, to [stattopic/<housecode>];
    - [monitor] (lines 133-141) is a generator over the lines that
      [heyu monitor] prints; when the process ends it waits for the exit
      code and, on a non-zero one, tries to raise;
    - the main loop (lines 281-287) searches each monitor line with two
      regular expressions (lines 274-275), an address line (captures a
      housecode) and a function line (captures [On]/[Off]); [rcviaddr]
      (lines 155-158) stores the housecode in the global [rcvihc],
      [rcvifunc] (lines 169-174) publishes the function for the stored
      housecode and clears it;
    - [on_connect] (lines 180-193) subscribes to [cmdtopic/+] and calls
      [ha_discovery_announce] (lines 225-234) for every configured house
      letter and unit 1..16, which publishes a retained JSON discovery
      record;
    - the main program (lines 243-267) sets the credentials, connects
      ([exit(1)] on failure) and starts paho's network thread, then runs
      the main loop, whose first iteration spawns [heyu monitor].
    The paho callbacks run on the client's network thread from
    [client.loop_start()] on, the spawn and the monitor loop on the main
    thread; they share the client (its [publish]) and nothing else:
    [rcvihc] is touched only by the main thread.

    The library, in dependency order (the _CoqProject file):
    - [Prelude] (this file): the [py_scope] notation [+++] for Python's
      [+] on [str], the generic string and list lemmas, the hint databases
      [pystr] (rewriting) and [x10] (resolution) and the shared tactics.
    - [PyStr]: the Python [str] operations the script calls ([upper],
      [lower], [split], indexing the last element, [str] of an integer,
      [in] over a string of letters) and the housecode grammar
      [[A-P][0-9]+] as a boolean function; round trips and injectivity of
      the decimal printer.
    - [Utf8] (Module [Utf8]): Python's strict UTF-8 codec on code points,
      [bytes.decode('utf-8')] with [None] for [UnicodeDecodeError] and
      [str.encode('utf-8')] for what [print] and [publish] write; the
      lemmas [Payload] uses (decoding an encoding, ASCII bytes).
    - [Regex] (Module [Regex]): a backtracking matcher with Python's [re]
      semantics for the constructs of the script's three patterns
      (literals, classes, [.] excluding newline, greedy [*] and [+] over a
      class, ordered alternation, one capturing group, [^] and Python's
      [$], which also matches before a final newline), [re.match] and
      [re.search]; a reference enumeration of all matches and a
      declarative relation [matches]: the matcher returns the first
      match of the enumeration, the enumeration is exactly the relation,
      and [re.match]/[re.search] are sound, complete and leftmost.
    - [Patterns] (Module [Patterns]): [hcpattern], [rercviaddr],
      [rercvifunc] as regexes; what [hcpattern] accepts and what the two
      monitor patterns capture.
    - [Effects] (Module [Effects]): the observable effects (prints,
      publishes, subscriptions, [heyu] runs, client calls) as an event
      trace, the global [rcvihc], the configuration record and the state
      monad [PY] threading them; [runs_to], its composition laws, and
      locality (an operation's effect depends on [rcvihc] only).
    - [Command] (Module [Command]): [execute] and [on_message], with their
      effects on every branch.
    - [Payload] (Module [Payload]): [on_message] from the message's
      bytes: the decoding of payload and topic, [str.upper] on any code
      point through Unicode's case table (a Section variable), the checks
      on text and [execute]; an undecodable message raises before any
      effect, an [OSError] of [subprocess.run] leaves it after the log
      lines with nothing published, whatever the bytes only checked
      commands reach [heyu] and only their states are published, and
      Unicode's case mapping lets non-ASCII payloads and housecodes in;
      a lemma ([ascii_message]) shows that on ASCII bytes the handler is
      [Command.on_message], so [Command]'s theorems are about the real
      callback on such messages.
    - [Monitor] (Module [Monitor]): [rcviaddr], [rcvifunc], the per-line
      step and the loop, written against a typeclass [LineRecognizer]
      whose instance [heyu_lines] is the two patterns; the design's
      two-state automaton (WAIT_ADDRESS / HAVE_ADDRESS) as the abstract
      specification, the refinement theorem, the invariant on [rcvihc],
      and the [monitor] generator with its end.
    - [Stream] (Module [Stream]): the generator [monitor()]: the
      universal-newline translation of [heyu monitor]'s output, [readline]
      and the [iter(readline, "")] loop with explicit fuel; the loop ends
      within one call more than the output has characters; the lines put
      back together are the translated output, and lines written with
      [\n], [\r\n] or [\r] endings come back as written.
    - [Json] (Module [Json]): [json.dumps] of a flat dictionary of
      strings.
    - [Discovery] (Module [Discovery]): [repr]/[str] of the dictionary,
      [ha_discovery_announce] and [on_connect]; 16 retained records per
      letter on distinct topics, exactly one per letter and unit 1..16,
      idempotent across reconnections.
    - [Config] (Module [Config]): Python's [int()], the environment as a
      partial map and the configuration code, with its exits; each
      house letter of [DISCOVERY_HOUSECODES] counted as often as given.
    - [System] (Module [System]): the main program, the network thread's
      callbacks (messages as bytes, through [Payload]) and the monitor loop
      as a step relation [sys_step] over the global state and the phase of
      the main thread, the spawn of [heyu monitor] a step of its own with
      the network thread live before and after it; the invariant of
      every reachable state and the shape of every effect in its trace,
      the equivalence of any interleaving of the two threads with the
      monitor running alone (the trace is an order-preserving shuffle of
      the two threads' effects), and the start-up's exits, including a
      [heyu monitor] that cannot be started, after which only callbacks
      act.

    Findings the theorems show: [hcpattern]'s [$] accepts a housecode
    followed by a newline, which then reaches [heyu] and the state topic
    ([Command]); a payload that is not UTF-8 makes [on_message] raise
    [UnicodeDecodeError] into paho's loop instead of being logged and
    dropped, a [heyu] that cannot be started makes [subprocess.run] raise
    [OSError] out of [on_message] with no state published and no error
    logged, and [str.upper]'s Unicode case mapping accepts the payload
    [oﬀ] (with the ligature U+FB00) as [OFF] and the segment [ı1] (dotless
    i) as housecode [I1] ([Payload]); the two monitor patterns can match the same line
    ([Patterns]); a non-zero exit of [heyu monitor] raises [NameError]
    because [cmd] is undefined at line 140, and an exit with 0 ends the
    program quietly ([Monitor]); [on_connect] subscribes and announces
    even on a non-zero result code ([Discovery]); repeated letters of
    [DISCOVERY_HOUSECODES] are announced as often as given ([Config]); the
    credentials need both user and password, where the comment says
    either, and a [heyu monitor] that cannot be started ends the main
    thread while the network thread may already have subscribed,
    announced and run commands ([System]); [MQTT_PORT] is not
    range-checked ([Config]).

    Modelling choices that hold throughout:
    - outside [Payload], a Python [str] is a Stdlib [string]: each
      character is one 8-bit [ascii] value, read as the code point
      U+0000..U+00FF, with ASCII case maps, which is what Python does for
      code points below 128; [Payload] takes text as a list of code points
      with Unicode's case mapping, and shows that on ASCII input the two
      models agree (so the [string] model is exact for ASCII messages);
      [PyStr.py_upper] is ASCII-only, which is Python's [str.upper] on
      ASCII text: [Config]'s count of house letters is stated for ASCII
      settings for that reason;
    - Unicode's upper-case table is data of the Unicode database, not code
      of the script: [Payload] takes it as a Section variable [upper_cp],
      and its theorems hold for every table that maps the ASCII letters as
      ASCII does, the property [ascii_upper_ok] checks on the 128 ASCII
      code points; the finding uses two entries of the real table;
    - subprocess exit codes, MQTT result codes and the port are [Z]:
      Python integers are unbounded, and the codes are only compared with
      0 and printed;
    - the environment's answers (the exit code of a [heyu] run, or the
      [OSError] [subprocess.run] raises when [heyu] cannot be started; the
      lines of [heyu monitor]; whether [Popen] starts it; the outcome of
      [client.connect]; the callbacks the network thread delivers) are
      explicit arguments or choices of the step relation, so every
      theorem holds for every answer the environment can give;
    - the callbacks, the spawn and the monitor steps are atomic steps of
      [System]; the callbacks neither read nor write [rcvihc], so a finer
      interleaving of the two threads only reorders the trace; the network
      thread may act in every phase after [client.loop_start()], also
      after the main thread has ended (the interpreter stops that daemon
      thread at some point the model does not fix), and a monitor line
      may come at any time, so the invariants cover more runs than the
      program has;
    - fuel appears once: the [iter(readline, "")] loop of [Stream] is
      given one unit more than the output has characters, and a lemma
      ([iter_readline_enough]) shows it always reaches the end within it
      (each call consumes at least one character).  Everything
      else is structurally recursive (the regex matcher recurses on the
      pattern and, inside a greedy loop, on the remaining input).

    Not modelled: paho's network machinery (connection, retries, the
    network thread itself; a publish is the event it records), the wire
    behaviour of the X10 bus and of [heyu], the chunking of the pipe of
    [heyu monitor] (its whole output is one string; the newline
    translation is the same either way), and the decoding of that output
    in the locale's encoding: the pipe is read in chunks whose size
    decides how many lines are yielded before an undecodable byte raises,
    so the monitor's lines are taken after decoding, one character per
    code point below 256.  What paho does
    with an exception a callback
    raises depends on its version (the script does not pin it): [System]
    lets later callbacks run after one, which covers a paho that logs the
    exception as well as one whose network thread ends. *)

From Stdlib Require Export String Ascii List ZArith Lia Bool.
From Stdlib Require Permutation.
Export ListNotations.

Declare Scope py_scope.
Delimit Scope py_scope with py.

(** Python's [+] on [str]. *)
Notation "a +++ b" := (String.append a b) (at level 60, right associativity) : py_scope.

Open Scope py_scope.

Create Rewrite HintDb pystr.
Create HintDb x10.

(** ** Generic lemmas on strings *)

Lemma append_empty_r (s : string) : s +++ EmptyString = s.
Proof. induction s as [|c s IH]; simpl; [reflexivity | now rewrite IH]. Qed.

Lemma append_assoc (a b c : string) : (a +++ b) +++ c = a +++ (b +++ c).
Proof. induction a as [|x a IH]; simpl; [reflexivity | now rewrite IH]. Qed.

Lemma length_append (a b : string) :
  String.length (a +++ b) = String.length a + String.length b.
Proof. induction a as [|x a IH]; simpl; [reflexivity | now rewrite IH]. Qed.

Lemma append_cancel_l (p a b : string) : p +++ a = p +++ b -> a = b.
Proof. induction p as [|x p IH]; simpl; [easy | intros H; inversion H; auto]. Qed.

Lemma append_cancel_r (a b s : string) : a +++ s = b +++ s -> a = b.
Proof.
  revert b. induction a as [|x a IH]; intros [|y b] H; simpl in *; auto.
  - apply (f_equal String.length) in H. simpl in H.
    rewrite length_append in H. lia.
  - apply (f_equal String.length) in H. simpl in H.
    rewrite length_append in H. lia.
  - inversion H; subst. f_equal. auto.
Qed.

Lemma string_eqb_refl (s : string) : String.eqb s s = true.
Proof. apply String.eqb_refl. Qed.

#[export] Hint Rewrite append_empty_r append_assoc length_append string_eqb_refl : pystr.
#[export] Hint Resolve append_cancel_l append_cancel_r : x10.

(** ** Shared tactics *)

(** Case analysis on a boolean string, character or integer comparison,
    turning it into the propositional (in)equality. *)
Ltac case_eqb :=
  match goal with
  | |- context [String.eqb ?a ?b] =>
      destruct (String.eqb_spec a b); subst; try discriminate
  | |- context [Ascii.eqb ?a ?b] =>
      destruct (Ascii.eqb_spec a b); subst; try discriminate
  | |- context [Z.eqb ?a ?b] =>
      destruct (Z.eqb_spec a b); subst; try discriminate
  end.

(** Settle every integer comparison of the goal that [lia] decides from
    the context. *)
Ltac zdecide :=
  repeat match goal with
  | |- context [Z.leb ?a ?b] =>
      first [rewrite (proj2 (Z.leb_le a b)) by lia | rewrite (proj2 (Z.leb_gt a b)) by lia]
  | |- context [Z.eqb ?a ?b] =>
      first [rewrite (proj2 (Z.eqb_eq a b)) by lia | rewrite (proj2 (Z.eqb_neq a b)) by lia]
  end.

(** Invert an equation between constructor applications and substitute. *)
Ltac inv H := inversion H; subst; clear H.

#[export] Hint Rewrite filter_app : pystr.

(** ** Generic lemmas on lists *)

Lemma NoDup_list_prod {A B} (l1 : list A) (l2 : list B) :
  NoDup l1 -> NoDup l2 -> NoDup (list_prod l1 l2).
Proof.
  intros H1 H2. induction H1 as [|x l1 Hx H1 IH]; simpl; [constructor|].
  apply NoDup_app; [apply NoDup_map_NoDup_ForallPairs; [intros a b _ _ [= ->]; reflexivity | exact H2]
                   | exact IH |].
  intros [a b] Hin Hin'. apply in_map_iff in Hin as (y & [= <- <-] & _).
  apply in_prod_iff in Hin' as [Hx' _]. contradiction.
Qed.

(** [l] interleaves [l1] and [l2]: it takes their elements in their own
    orders. *)
Inductive shuffle {A} : list A -> list A -> list A -> Prop :=
| shuffle_nil : shuffle [] [] []
| shuffle_left x l1 l2 l : shuffle l1 l2 l -> shuffle (x :: l1) l2 (x :: l)
| shuffle_right x l1 l2 l : shuffle l1 l2 l -> shuffle l1 (x :: l2) (x :: l).

#[export] Hint Constructors shuffle : x10.

Lemma shuffle_app_left {A} (a l1 l2 l : list A) : shuffle l1 l2 l -> shuffle (a ++ l1) l2 (a ++ l).
Proof. induction a; simpl; auto with x10. Qed.

Lemma shuffle_app_right {A} (a l1 l2 l : list A) : shuffle l1 l2 l -> shuffle l1 (a ++ l2) (a ++ l).
Proof. induction a; simpl; auto with x10. Qed.

Lemma shuffle_perm {A} (l1 l2 l : list A) : shuffle l1 l2 l -> Permutation.Permutation l (l1 ++ l2).
Proof.
  induction 1; simpl; [constructor | now constructor |].
  apply Permutation.perm_trans with (x :: l1 ++ l2); [now constructor | apply Permutation.Permutation_middle].
Qed.
