(* ===== verification/PyStr.v ===== *)
(** * PyStr: the Python [str] operations of src/x10mqtt.py

    [str.upper], [str.lower] (as ASCII case maps), [str.split] on a
    one-character separator, [sep.join], indexing the last element of a
    list ([l[len(l)-1]]), [str()] of an [int], membership of a one-letter
    string in a string of letters, and the housecode grammar [[A-P][0-9]+]
    of the design as a boolean function.  The lemmas are the ones the
    components use: the case maps distribute over [+], [join] inverts
    [split], the last segment of [prefix + "/" + h] is [h], and [str()] is
    injective with only digits in its output. *)

From S2P Require Import Prelude.
From Stdlib Require Import DecimalString DecimalNat DecimalZ.

(** ** Characters *)

Definition in_range (lo hi : nat) (c : ascii) : bool :=
  (lo <=? nat_of_ascii c) && (nat_of_ascii c <=? hi).

Definition is_ascii_upper : ascii -> bool := in_range 65 90.
Definition is_ascii_lower : ascii -> bool := in_range 97 122.

(** [is_house]: the class [[A-P]]; [is_digit]: the class [[0-9]]. *)
Definition is_house : ascii -> bool := in_range 65 80.
Definition is_digit : ascii -> bool := in_range 48 57.

Definition char_lower (c : ascii) : ascii :=
  if is_ascii_upper c then ascii_of_nat (nat_of_ascii c + 32) else c.

Definition char_upper (c : ascii) : ascii :=
  if is_ascii_lower c then ascii_of_nat (nat_of_ascii c - 32) else c.

(** ** Strings *)

Fixpoint smap (f : ascii -> ascii) (s : string) : string :=
  match s with
  | EmptyString => EmptyString
  | String c s' => String (f c) (smap f s')
  end.

(** [s.lower()] and [s.upper()]. *)
Definition py_lower (s : string) : string := smap char_lower s.
Definition py_upper (s : string) : string := smap char_upper s.

(** [s.split(sep)] for a one-character separator: the pieces between
    separators, always at least one ([""] for the empty string). *)
Fixpoint py_split (sep : ascii) (s : string) : list string :=
  match s with
  | EmptyString => [EmptyString]
  | String c s' =>
      let r := py_split sep s' in
      if Ascii.eqb c sep then EmptyString :: r
      else match r with
           | [] => [String c EmptyString]
           | h :: t => String c h :: t
           end
  end.

(** [sep.join(l)]. *)
Definition py_join (sep : ascii) (l : list string) : string :=
  String.concat (String sep EmptyString) l.

(** [l[len(l)-1]]: the last element.  The script applies it to the
    result of [split] only, which is never empty ([py_split_nonempty]). *)
Definition py_last (l : list string) : string :=
  nth (length l - 1) l EmptyString.

(** [str(n)] for a non-negative [int] (a unit number). *)
Definition py_str_nat (n : nat) : string :=
  NilEmpty.string_of_uint (Nat.to_uint n).

(** [str(z)] for any [int] (an exit or result code). *)
Definition py_str_Z (z : Z) : string :=
  NilEmpty.string_of_int (Z.to_int z).

(** [c in s] where [c] is a one-character string. *)
Definition py_char_in (c : ascii) (s : string) : bool :=
  existsb (Ascii.eqb c) (list_ascii_of_string s).

Fixpoint all_chars (p : ascii -> bool) (s : string) : bool :=
  match s with
  | EmptyString => true
  | String c s' => p c && all_chars p s'
  end.

(** The housecode grammar [[A-P][0-9]+] of the design (spec, section 3). *)
Definition is_hc (s : string) : bool :=
  match s with
  | String c (String d r) => is_house c && is_digit d && all_chars is_digit r
  | _ => false
  end.

(** ** Case maps *)

Lemma smap_append f (a b : string) : smap f (a +++ b) = smap f a +++ smap f b.
Proof. induction a as [|c a IH]; simpl; [reflexivity | now rewrite IH]. Qed.

Lemma py_lower_append (a b : string) : py_lower (a +++ b) = py_lower a +++ py_lower b.
Proof. apply smap_append. Qed.

Lemma py_upper_append (a b : string) : py_upper (a +++ b) = py_upper a +++ py_upper b.
Proof. apply smap_append. Qed.

#[export] Hint Rewrite py_lower_append py_upper_append : pystr.

Lemma smap_ext_in (f g : ascii -> ascii) (p : ascii -> bool) (s : string) :
  all_chars p s = true -> (forall c, p c = true -> f c = g c) -> smap f s = smap g s.
Proof.
  intros Hs Hfg. induction s as [|c s IH]; simpl in *; [reflexivity|].
  apply andb_prop in Hs as [Hc Hs]. now rewrite Hfg, IH.
Qed.

Lemma all_chars_smap (p : ascii -> bool) f (s : string) :
  all_chars (fun c => p (f c)) s = all_chars p (smap f s).
Proof. induction s as [|c s IH]; simpl; [reflexivity | now rewrite IH]. Qed.

Lemma all_chars_append (p : ascii -> bool) (a b : string) :
  all_chars p (a +++ b) = all_chars p a && all_chars p b.
Proof. induction a as [|c a IH]; simpl; [reflexivity | now rewrite IH, andb_assoc]. Qed.

Lemma all_chars_impl (p q : ascii -> bool) (s : string) :
  (forall c, p c = true -> q c = true) -> all_chars p s = true -> all_chars q s = true.
Proof.
  intros Hpq. induction s as [|c s IH]; simpl; [easy|].
  intros H. apply andb_prop in H as [Hc Hs]. now rewrite Hpq, IH.
Qed.

(** Characters are finite: a property of every character is checked by
    enumerating the 256 of them. *)
Lemma ascii_forall (P : ascii -> bool) :
  forallb P (map ascii_of_nat (seq 0 256)) = true -> forall c, P c = true.
Proof.
  intros H c. rewrite forallb_forall in H. apply H.
  rewrite <- (ascii_nat_embedding c). apply in_map, in_seq.
  pose proof (nat_ascii_bounded c). lia.
Qed.

(** [ascii_forall] specialised to an implication, the usual shape. *)
Lemma ascii_forall_impl (p q : ascii -> bool) :
  forallb (fun c => implb (p c) (q c)) (map ascii_of_nat (seq 0 256)) = true ->
  forall c, p c = true -> q c = true.
Proof.
  intros H c Hp. pose proof (ascii_forall _ H c) as Hc. simpl in Hc. now rewrite Hp in Hc.
Qed.

Lemma char_upper_digit c : is_digit c = true -> char_upper c = c.
Proof.
  intros H. apply Ascii.eqb_eq. revert c H.
  apply (ascii_forall_impl is_digit (fun c => Ascii.eqb (char_upper c) c)). vm_compute. reflexivity.
Qed.

Lemma smap_id_on (p : ascii -> bool) f (s : string) :
  all_chars p s = true -> (forall c, p c = true -> f c = c) -> smap f s = s.
Proof.
  intros Hs Hf. induction s as [|c s IH]; simpl in *; [reflexivity|].
  apply andb_prop in Hs as [Hc Hs]. now rewrite Hf, IH.
Qed.

Lemma hc_chars (s : string) :
  is_hc s = true -> all_chars (fun c => is_house c || is_digit c) s = true.
Proof.
  destruct s as [|c [|d r]]; try discriminate. simpl.
  intros H. apply andb_prop in H as [H Hr]. apply andb_prop in H as [Hc Hd].
  rewrite Hc, Hd, orb_true_r. simpl. apply (all_chars_impl is_digit); [|exact Hr].
  intros x ->. apply orb_true_r.
Qed.

(** An upper-case housecode is left unchanged by [upper()]. *)
Lemma py_upper_hc (s : string) : is_hc s = true -> py_upper s = s.
Proof.
  intros H. apply (smap_id_on _ _ _ (hc_chars s H)). intros c Hc. apply Ascii.eqb_eq.
  revert c Hc. apply (ascii_forall_impl (fun c => is_house c || is_digit c)
                       (fun c => Ascii.eqb (char_upper c) c)).
  vm_compute. reflexivity.
Qed.

Lemma smap_smap f g (s : string) : smap f (smap g s) = smap (fun c => f (g c)) s.
Proof. induction s as [|c s IH]; simpl; [reflexivity | now rewrite IH]. Qed.

(** [s.upper().upper() == s.upper()]. *)
Lemma py_upper_idem (s : string) : py_upper (py_upper s) = py_upper s.
Proof.
  unfold py_upper. rewrite smap_smap.
  apply (smap_ext_in _ _ (fun _ => true)); [induction s; simpl; auto|].
  intros c _. apply Ascii.eqb_eq. revert c.
  apply (ascii_forall (fun c => Ascii.eqb (char_upper (char_upper c)) (char_upper c))).
  vm_compute. reflexivity.
Qed.

Lemma char_lower_house c : is_house c = true -> nat_of_ascii (char_lower c) = nat_of_ascii c + 32.
Proof.
  intros H. apply Nat.eqb_eq. revert c H.
  apply (ascii_forall_impl is_house (fun c => Nat.eqb (nat_of_ascii (char_lower c)) (nat_of_ascii c + 32))).
  vm_compute. reflexivity.
Qed.

(** [lower()] is injective on the house letters A..P. *)
Lemma char_lower_house_inj c c' :
  is_house c = true -> is_house c' = true -> char_lower c = char_lower c' -> c = c'.
Proof.
  intros Hc Hc' E. apply (f_equal nat_of_ascii) in E. rewrite !char_lower_house in E by assumption.
  rewrite <- (ascii_nat_embedding c), <- (ascii_nat_embedding c'). f_equal. lia.
Qed.

(** [upper()] of a character is the house letter [h] exactly when the
    character is [h] or its lower case. *)
Lemma char_upper_house c h :
  is_house h = true -> Ascii.eqb (char_upper c) h = Ascii.eqb c h || Ascii.eqb c (char_lower h).
Proof.
  intros Hh. apply Bool.eqb_prop. revert c. apply ascii_forall. revert h Hh.
  apply (ascii_forall_impl is_house
           (fun h => forallb (fun c => Bool.eqb (Ascii.eqb (char_upper c) h)
                                              (Ascii.eqb c h || Ascii.eqb c (char_lower h)))
                             (map ascii_of_nat (seq 0 256)))).
  vm_compute. reflexivity.
Qed.

(** ** [split], [join] and the last segment *)

Lemma py_split_nonempty sep (s : string) : py_split sep s <> [].
Proof.
  destruct s as [|c s]; simpl; [discriminate|].
  destruct (Ascii.eqb c sep); [discriminate|]. destruct (py_split sep s); discriminate.
Qed.

(** The pieces of [a + sep + b] are the pieces of [a] followed by those of [b]. *)
Lemma py_split_sep sep (a b : string) :
  py_split sep (a +++ String sep b) = py_split sep a ++ py_split sep b.
Proof.
  induction a as [|c a IH]; simpl.
  - now rewrite Ascii.eqb_refl.
  - rewrite IH. destruct (Ascii.eqb c sep); [reflexivity|].
    destruct (py_split sep a) as [|h t] eqn:E; [now destruct (py_split_nonempty sep a) | reflexivity].
Qed.

(** A string without the separator is one piece. *)
Lemma py_split_no_sep sep (s : string) :
  all_chars (fun c => negb (Ascii.eqb c sep)) s = true -> py_split sep s = [s].
Proof.
  induction s as [|c s IH]; simpl; [reflexivity|].
  intros H. apply andb_prop in H as [Hc Hs]. apply negb_true_iff in Hc.
  now rewrite Hc, IH.
Qed.

(** [sep.join(s.split(sep)) == s]. *)
Lemma py_join_split sep (s : string) : py_join sep (py_split sep s) = s.
Proof.
  unfold py_join. induction s as [|c s IH]; simpl; [reflexivity|].
  destruct (py_split sep s) as [|h t] eqn:E; [now destruct (py_split_nonempty sep s)|].
  destruct (Ascii.eqb_spec c sep) as [->|Hne]; simpl in *.
  - now rewrite IH.
  - destruct t; simpl in *; now rewrite IH.
Qed.

Lemma py_last_app (l1 l2 : list string) : l2 <> [] -> py_last (l1 ++ l2) = py_last l2.
Proof.
  intros Hne. unfold py_last. rewrite length_app, app_nth2 by (destruct l2; simpl in *; [easy | lia]).
  f_equal. destruct l2; [easy|]. simpl. lia.
Qed.

(** The last segment of [prefix + "/" + h], for [h] without a separator,
    is [h]: the housecode extraction of [on_message]. *)
Lemma py_last_split_suffix sep (p h : string) :
  all_chars (fun c => negb (Ascii.eqb c sep)) h = true ->
  py_last (py_split sep (p +++ String sep h)) = h.
Proof.
  intros Hh. rewrite py_split_sep, py_last_app by apply py_split_nonempty.
  now rewrite py_split_no_sep.
Qed.

(** ** [str()] of integers *)

Lemma string_of_uint_digits (d : Decimal.uint) :
  all_chars is_digit (NilEmpty.string_of_uint d) = true.
Proof. induction d; simpl; auto. Qed.

Lemma to_uint_not_nil (n : nat) : Nat.to_uint n <> Decimal.Nil.
Proof.
  intros H. pose proof (Unsigned.of_to n) as E. rewrite H in E. simpl in E. subst n.
  discriminate H.
Qed.

(** [str(n)] is a non-empty string of digits. *)
Lemma py_str_nat_digits (n : nat) :
  all_chars is_digit (py_str_nat n) = true /\ py_str_nat n <> EmptyString.
Proof.
  split; [apply string_of_uint_digits|]. unfold py_str_nat.
  pose proof (to_uint_not_nil n). destruct (Nat.to_uint n); simpl; congruence.
Qed.

Lemma py_str_nat_inj (n m : nat) : py_str_nat n = py_str_nat m -> n = m.
Proof.
  unfold py_str_nat. intros H. apply (f_equal NilEmpty.uint_of_string) in H.
  rewrite !NilEmpty.usu in H. injection H as H. now apply Unsigned.to_uint_inj.
Qed.

Lemma py_str_Z_inj (a b : Z) : py_str_Z a = py_str_Z b -> a = b.
Proof.
  unfold py_str_Z. intros H. apply (f_equal NilEmpty.int_of_string) in H.
  rewrite !NilEmpty.isi in H. injection H as H.
  rewrite <- (DecimalZ.of_to a), <- (DecimalZ.of_to b). now f_equal.
Qed.
