(* ===== verification/Utf8.v ===== *)
(** * Utf8: [bytes.decode('utf-8')] and [str.encode('utf-8')]

    [on_message] (src/x10mqtt.py line 205) decodes [message.payload], a
    [bytes] object, with [decode('utf-8')]; paho decodes [message.topic]
    the same way (line 206), and [print] and [client.publish] encode text
    back to UTF-8 on the way out.  This file holds Python's strict UTF-8
    codec on code points: the decoder accepts exactly the well-formed byte
    sequences (shortest form, no surrogates, nothing above U+10FFFF) and
    raises [UnicodeDecodeError], here [None], on any other; the encoder is
    what [print] and [client.publish] write.  The lemmas the handler's
    theorems use: decoding an encoding gives the text back, and ASCII
    bytes decode to themselves; the examples show the three ways a byte
    string is rejected (overlong form, surrogate, truncation). *)

From S2P Require Import Prelude.
From Stdlib Require Import Strings.Byte.
Open Scope string_scope.
Open Scope list_scope.
Open Scope py_scope.

Module Utf8.
Open Scope Z_scope.

(** ** Bytes and code points *)

(** A byte of a [bytes] object and its value 0..255. *)
Definition byte_val (b : byte) : Z := Z.of_N (Byte.to_N b).

Definition byte_of_val (z : Z) : byte :=
  match Byte.of_N (Z.to_N z) with Some b => b | None => x00 end.

Definition within (lo hi b : Z) : bool := (lo <=? b) && (b <=? hi).

(** A continuation byte [10xxxxxx]. *)
Definition cont (b : Z) : bool := within 0x80 0xBF b.

(** The second byte of a three-byte sequence: [E0] needs [A0..BF] (no
    overlong form), [ED] needs [80..9F] (no surrogate), the others a
    continuation byte. *)
Definition second3_ok (b0 b1 : Z) : bool :=
  if b0 =? 0xE0 then within 0xA0 0xBF b1
  else if b0 =? 0xED then within 0x80 0x9F b1
  else cont b1.

(** The second byte of a four-byte sequence: [F0] needs [90..BF] (no
    overlong form), [F4] needs [80..8F] (nothing above U+10FFFF). *)
Definition second4_ok (b0 b1 : Z) : bool :=
  if b0 =? 0xF0 then within 0x90 0xBF b1
  else if b0 =? 0xF4 then within 0x80 0x8F b1
  else cont b1.

(** A Unicode scalar value: a code point that is not a surrogate, the
    characters a decoded [str] can hold. *)
Definition scalar (c : Z) : bool :=
  within 0 0x10FFFF c && negb (within 0xD800 0xDFFF c).

(** ** The decoder *)

(** The strict decoder on byte values; [None] is [UnicodeDecodeError]. *)
Fixpoint decode (bs : list Z) : option (list Z) :=
  match bs with
  | [] => Some []
  | b0 :: r =>
      if b0 <=? 0x7F then option_map (cons b0) (decode r)
      else if within 0xC2 0xDF b0 then
        match r with
        | b1 :: r1 =>
            if cont b1
            then option_map (cons ((b0 - 0xC0) * 64 + (b1 - 0x80))) (decode r1)
            else None
        | _ => None
        end
      else if within 0xE0 0xEF b0 then
        match r with
        | b1 :: b2 :: r2 =>
            if second3_ok b0 b1 && cont b2
            then option_map (cons ((b0 - 0xE0) * 4096 + (b1 - 0x80) * 64 + (b2 - 0x80)))
                   (decode r2)
            else None
        | _ => None
        end
      else if within 0xF0 0xF4 b0 then
        match r with
        | b1 :: b2 :: b3 :: r3 =>
            if second4_ok b0 b1 && cont b2 && cont b3
            then option_map (cons ((b0 - 0xF0) * 262144 + (b1 - 0x80) * 4096
                                   + (b2 - 0x80) * 64 + (b3 - 0x80)))
                   (decode r3)
            else None
        | _ => None
        end
      else None
  end.

(** [payload.decode('utf-8')]. *)
Definition utf8_decode (payload : list byte) : option (list Z) :=
  decode (map byte_val payload).

(** ** The encoder *)

(** The UTF-8 form of one scalar value. *)
Definition encode_char (c : Z) : list Z :=
  if c <=? 0x7F then [c]
  else if c <=? 0x7FF then [0xC0 + c / 64; 0x80 + c mod 64]
  else if c <=? 0xFFFF then
    [0xE0 + c / 64 / 64; 0x80 + (c / 64) mod 64; 0x80 + c mod 64]
  else [0xF0 + c / 64 / 64 / 64; 0x80 + (c / 64 / 64) mod 64;
        0x80 + (c / 64) mod 64; 0x80 + c mod 64].

Definition encode (t : list Z) : list Z := flat_map encode_char t.

(** [text.encode('utf-8')]. *)
Definition utf8_encode (t : list Z) : list byte := map byte_of_val (encode t).

(** ** The decoder on each form of sequence *)

Lemma within_intro lo hi b : lo <= b <= hi -> within lo hi b = true.
Proof. intros H. unfold within. apply andb_true_iff. rewrite !Z.leb_le. lia. Qed.

Lemma within_elim lo hi b : within lo hi b = true -> lo <= b <= hi.
Proof. unfold within. rewrite andb_true_iff, !Z.leb_le. lia. Qed.

Lemma second3_intro b0 b1 :
  0x80 <= b1 <= 0xBF -> (b0 = 0xE0 -> 0xA0 <= b1) -> (b0 = 0xED -> b1 <= 0x9F) ->
  second3_ok b0 b1 = true.
Proof.
  intros H1 H2 H3. unfold second3_ok, cont.
  destruct (Z.eqb_spec b0 0xE0); [|destruct (Z.eqb_spec b0 0xED)]; apply within_intro; lia.
Qed.

Lemma second4_intro b0 b1 :
  0x80 <= b1 <= 0xBF -> (b0 = 0xF0 -> 0x90 <= b1) -> (b0 = 0xF4 -> b1 <= 0x8F) ->
  second4_ok b0 b1 = true.
Proof.
  intros H1 H2 H3. unfold second4_ok, cont.
  destruct (Z.eqb_spec b0 0xF0); [|destruct (Z.eqb_spec b0 0xF4)]; apply within_intro; lia.
Qed.

#[local] Hint Resolve within_intro second3_intro second4_intro : x10.

Lemma decode_1 b0 r :
  0 <= b0 <= 0x7F -> decode (b0 :: r) = option_map (cons b0) (decode r).
Proof. intros H. simpl. now rewrite (proj2 (Z.leb_le _ _)) by lia. Qed.

Lemma decode_2 b0 b1 r :
  0xC2 <= b0 <= 0xDF -> 0x80 <= b1 <= 0xBF ->
  decode (b0 :: b1 :: r) = option_map (cons ((b0 - 0xC0) * 64 + (b1 - 0x80))) (decode r).
Proof. intros H0 H1. cbn [decode]. unfold cont, within. zdecide. reflexivity. Qed.

Lemma decode_3 b0 b1 b2 r :
  0xE0 <= b0 <= 0xEF -> second3_ok b0 b1 = true -> 0x80 <= b2 <= 0xBF ->
  decode (b0 :: b1 :: b2 :: r) =
  option_map (cons ((b0 - 0xE0) * 4096 + (b1 - 0x80) * 64 + (b2 - 0x80))) (decode r).
Proof. intros H0 H1 H2. cbn [decode]. unfold cont, within. zdecide. cbn [andb]. now rewrite H1. Qed.

Lemma decode_4 b0 b1 b2 b3 r :
  0xF0 <= b0 <= 0xF4 -> second4_ok b0 b1 = true -> 0x80 <= b2 <= 0xBF -> 0x80 <= b3 <= 0xBF ->
  decode (b0 :: b1 :: b2 :: b3 :: r) =
  option_map (cons ((b0 - 0xF0) * 262144 + (b1 - 0x80) * 4096 + (b2 - 0x80) * 64 + (b3 - 0x80)))
    (decode r).
Proof.
  intros H0 H1 H2 H3. cbn [decode]. unfold cont, within. zdecide. cbn [andb]. now rewrite H1.
Qed.

(** ** Decoding an encoding *)

(** The base-64 digits of a code point, as [encode_char] takes them. *)
Lemma digits64 c : 0 <= c ->
  c = 64 * (c / 64) + c mod 64 /\ 0 <= c mod 64 < 64 /\ 0 <= c / 64.
Proof. intros H. split; [apply Z.div_mod; lia|]. split; [apply Z.mod_pos_bound; lia|].
  apply Z.div_pos; lia. Qed.

Ltac digits c :=
  let q := fresh "q" in let d := fresh "d" in
  destruct (digits64 c) as (? & ? & ?); [lia|];
  set (q := c / 64) in *; set (d := c mod 64) in *; clearbody q d.

Lemma scalar_elim c : scalar c = true -> 0 <= c <= 0x10FFFF /\ ~ (0xD800 <= c <= 0xDFFF).
Proof.
  unfold scalar. rewrite andb_true_iff, negb_true_iff. intros [H1 H2].
  apply within_elim in H1. split; [exact H1|]. intros H. now rewrite within_intro in H2.
Qed.

Lemma encode_char_decode c r :
  scalar c = true -> decode (encode_char c ++ r) = option_map (cons c) (decode r).
Proof.
  intros H. apply scalar_elim in H. unfold encode_char.
  destruct (Z.leb_spec c 0x7F); [now apply decode_1|].
  destruct (Z.leb_spec c 0x7FF); [|destruct (Z.leb_spec c 0xFFFF)]; cbn [app]; digits c.
  - rewrite decode_2 by lia. do 3 f_equal. lia.
  - digits q. rewrite decode_3 by (lia || apply second3_intro; lia). do 3 f_equal. lia.
  - digits q. digits q0. rewrite decode_4 by (lia || apply second4_intro; lia).
    do 3 f_equal. lia.
Qed.

Lemma decode_encode t :
  Forall (fun c => scalar c = true) t -> decode (encode t) = Some t.
Proof.
  induction 1 as [|c t Hc _ IH]; [reflexivity|].
  unfold encode. cbn [flat_map]. fold (encode t).
  now rewrite encode_char_decode, IH.
Qed.

(** ** Bytes *)

Lemma byte_of_val_val b : byte_of_val (byte_val b) = b.
Proof. unfold byte_of_val, byte_val. now rewrite N2Z.id, Byte.of_to_N. Qed.

Lemma byte_val_of_val z : 0 <= z <= 255 -> byte_val (byte_of_val z) = z.
Proof.
  intros H. unfold byte_of_val, byte_val.
  destruct (Byte.of_N (Z.to_N z)) as [b|] eqn:E.
  - apply Byte.to_of_N in E. rewrite E. lia.
  - apply Byte.of_N_None_iff in E. lia.
Qed.

Lemma encode_char_bytes c :
  scalar c = true -> Forall (fun b => 0 <= b <= 255) (encode_char c).
Proof.
  intros H. apply scalar_elim in H. unfold encode_char.
  destruct (Z.leb_spec c 0x7F); [|destruct (Z.leb_spec c 0x7FF);
    [|destruct (Z.leb_spec c 0xFFFF)]];
    repeat constructor; Z.div_mod_to_equations; lia.
Qed.

Lemma map_byte_val_of_val zs :
  Forall (fun b => 0 <= b <= 255) zs -> map byte_val (map byte_of_val zs) = zs.
Proof.
  induction 1; [reflexivity|]. simpl. now rewrite byte_val_of_val, IHForall.
Qed.

(** ASCII bytes decode to themselves. *)
Lemma decode_ascii bs : Forall (fun b => 0 <= b <= 0x7F) bs -> decode bs = Some bs.
Proof. induction 1; [reflexivity|]. rewrite decode_1 by lia. now rewrite IHForall. Qed.

(** ** The codec *)

Lemma encode_bytes t :
  Forall (fun c => scalar c = true) t -> Forall (fun b => 0 <= b <= 255) (encode t).
Proof.
  induction 1 as [|c t Hc _ IH]; [constructor|].
  unfold encode. cbn [flat_map]. fold (encode t). apply Forall_app. split; [|exact IH].
  now apply encode_char_bytes.
Qed.

Lemma decode_utf8_encode t :
  Forall (fun c => scalar c = true) t -> utf8_decode (utf8_encode t) = Some t.
Proof.
  intros H. unfold utf8_decode, utf8_encode. rewrite map_byte_val_of_val by now apply encode_bytes.
  now apply decode_encode.
Qed.

(** ** Examples *)

(** The overlong form [C0 AF] of ["/"], a lone surrogate and a truncated
    sequence raise [UnicodeDecodeError]. *)
Example decode_overlong : utf8_decode [xc0; xaf] = None.
Proof. reflexivity. Qed.

Example decode_surrogate : utf8_decode [xed; xa0; x80] = None.
Proof. reflexivity. Qed.

Example decode_truncated : utf8_decode [x6f; xef; xac] = None.
Proof. reflexivity. Qed.

End Utf8.
