(* ===== verification/Regex.v ===== *)
(** * Regex: Python [re] matching for the constructs of the script's patterns

    The script compiles three patterns (src/x10mqtt.py lines 214, 274 and
    275) and calls [re.match] and [re.search] on them.  This file gives
    Python's backtracking semantics for the constructs they use:
    literals, the classes [[A-P]] and [[0-9]], [.] (any character but
    a newline), greedy [X*] and [X+] over a class, ordered alternation
    [(?:a|b)], one capturing group, [^] and [$] (which, without
    MULTILINE, matches at the end and before a final newline).

    - [all_matches] is the reference semantics: every way the pattern can
      match at a position, in the order Python's backtracking tries them
      (left alternative first, longest repetition first);
    - [bt] is the matcher as an engine runs it: continuation passing,
      stopping at the first continuation that succeeds;
    - [matches] is a declarative relation: which substrings a pattern
      accepts at a position and what the group captures.
    [bt] returns the first success of the continuation over
    [all_matches], and [all_matches] enumerates exactly the [matches]
    derivations.  Soundness and completeness of [re.match] and
    [re.search], and that [re.search] finds the leftmost match, follow. *)

From S2P Require Import Prelude PyStr.
Open Scope string_scope.
Open Scope list_scope.
Open Scope py_scope.

Module Regex.

(** ** Syntax *)

Inductive cclass :=
| CAny                      (** [.]: any character but ["\n"] *)
| CChar (c : ascii)         (** a literal character *)
| CRange (lo hi : ascii).   (** [[lo-hi]] *)

Inductive regex :=
| REps                      (** the empty pattern *)
| RClass (k : cclass)       (** one character of a class *)
| RSeq (r1 r2 : regex)      (** [r1r2] *)
| RAlt (r1 r2 : regex)      (** [r1|r2], [r1] tried first *)
| RStar (k : cclass)        (** [k*], greedy *)
| RGroup (r : regex)        (** [(r)], the capturing group *)
| RBol                      (** [^] *)
| REol.                     (** [$] *)

Definition newline : ascii := "010"%char.

Definition cc_matches (k : cclass) (c : ascii) : bool :=
  match k with
  | CAny => negb (Ascii.eqb c newline)
  | CChar x => Ascii.eqb c x
  | CRange lo hi => in_range (nat_of_ascii lo) (nat_of_ascii hi) c
  end.

(** Python's [$] without MULTILINE: at the end of the string, or before a
    newline that ends it. *)
Definition eol_ok (s : string) : bool :=
  match s with
  | EmptyString => true
  | String c EmptyString => Ascii.eqb c newline
  | _ => false
  end.

(** [X+] is [XX*], with the same greedy order. *)
Definition RPlus (k : cclass) : regex := RSeq (RClass k) (RStar k).

(** A literal string. *)
Fixpoint lit (s : string) : regex :=
  match s with
  | EmptyString => REps
  | String c s' => RSeq (RClass (CChar c)) (lit s')
  end.

(** [(?:a|b|...)] over literal words, leftmost first. *)
Fixpoint alts (ws : list string) : regex :=
  match ws with
  | [] => RClass (CRange "001"%char "000"%char)   (* matches nothing *)
  | [w] => lit w
  | w :: ws' => RAlt (lit w) (alts ws')
  end.

(** ** The state of a match

    A match in progress is at a position [pos] of the subject, has the
    input [s] still to read, and holds the group slot [g].  The text a
    group captures is the part of its starting input consumed by it. *)

Definition consumed (s0 : string) (n : nat) : string := String.substring 0 n s0.

Definition mstate : Type := (nat * string * option string)%type.

(** ** Reference semantics: all matches, in backtracking order *)

Fixpoint star_all (k : cclass) (pos : nat) (s : string) (g : option string) : list mstate :=
  match s with
  | String c s' =>
      if cc_matches k c then star_all k (S pos) s' g ++ [(pos, s, g)] else [(pos, s, g)]
  | EmptyString => [(pos, s, g)]
  end.

Fixpoint all_matches (r : regex) (pos : nat) (s : string) (g : option string) : list mstate :=
  match r with
  | REps => [(pos, s, g)]
  | RClass k =>
      match s with
      | String c s' => if cc_matches k c then [(S pos, s', g)] else []
      | EmptyString => []
      end
  | RSeq r1 r2 =>
      flat_map (fun '(p, s', g') => all_matches r2 p s' g') (all_matches r1 pos s g)
  | RAlt r1 r2 => all_matches r1 pos s g ++ all_matches r2 pos s g
  | RStar k => star_all k pos s g
  | RGroup r =>
      map (fun '(p, s', _) => (p, s', Some (consumed s (p - pos)))) (all_matches r pos s g)
  | RBol => if Nat.eqb pos 0 then [(pos, s, g)] else []
  | REol => if eol_ok s then [(pos, s, g)] else []
  end.

(** ** The backtracking matcher *)

Section Matcher.
Context {R : Type}.

Fixpoint star (k : cclass) (pos : nat) (s : string) (g : option string)
    (kont : nat -> string -> option string -> option R) : option R :=
  match s with
  | String c s' =>
      if cc_matches k c then
        match star k (S pos) s' g kont with
        | Some x => Some x
        | None => kont pos s g
        end
      else kont pos s g
  | EmptyString => kont pos s g
  end.

Fixpoint bt (r : regex) (pos : nat) (s : string) (g : option string)
    (kont : nat -> string -> option string -> option R) : option R :=
  match r with
  | REps => kont pos s g
  | RClass k =>
      match s with
      | String c s' => if cc_matches k c then kont (S pos) s' g else None
      | EmptyString => None
      end
  | RSeq r1 r2 => bt r1 pos s g (fun p s' g' => bt r2 p s' g' kont)
  | RAlt r1 r2 =>
      match bt r1 pos s g kont with
      | Some x => Some x
      | None => bt r2 pos s g kont
      end
  | RStar k => star k pos s g kont
  | RGroup r => bt r pos s g (fun p s' _ => kont p s' (Some (consumed s (p - pos))))
  | RBol => if Nat.eqb pos 0 then kont pos s g else None
  | REol => if eol_ok s then kont pos s g else None
  end.

(** The first success of a continuation over a list of candidates. *)
Fixpoint first_some {A} (f : A -> option R) (l : list A) : option R :=
  match l with
  | [] => None
  | x :: l' => match f x with Some y => Some y | None => first_some f l' end
  end.

End Matcher.

(** The continuation of a top-level match: accept wherever the pattern ends. *)
Definition accept (p : nat) (_ : string) (g : option string) : option (nat * option string) :=
  Some (p, g).

(** [re.match(p, s)]: the end of the match and the group, if [p] matches
    a prefix of [s]. *)
Definition py_match (r : regex) (s : string) : option (nat * option string) :=
  bt r 0 s None accept.

(** [re.search(p, s)]: the first position where [p] matches, tried from
    the left, with the end of the match and the group. *)
Fixpoint search_from (r : regex) (pos : nat) (s : string) : option (nat * nat * option string) :=
  match bt r pos s None accept with
  | Some (e, g) => Some (pos, e, g)
  | None =>
      match s with
      | EmptyString => None
      | String _ s' => search_from r (S pos) s'
      end
  end.

Definition py_search (r : regex) (s : string) : option (nat * nat * option string) :=
  search_from r 0 s.

(** [m.group(1)] of a successful search, when the group took part. *)
Definition search_group (r : regex) (s : string) : option string :=
  match py_search r s with
  | Some (_, _, g) => g
  | None => None
  end.

(** ** The matcher runs the reference semantics *)

Definition apply3 {R} (kont : nat -> string -> option string -> option R) (m : mstate) : option R :=
  let '(p, s, g) := m in kont p s g.

Section FirstSome.
Context {A B R : Type}.

Lemma first_some_app {C} (f : C -> option R) (l1 l2 : list C) :
  first_some f (l1 ++ l2) =
  match first_some f l1 with Some y => Some y | None => first_some f l2 end.
Proof.
  induction l1 as [|x l1 IH]; simpl; [reflexivity|].
  destruct (f x); [reflexivity | apply IH].
Qed.

Lemma first_some_ext (f g : A -> option R) (l : list A) :
  (forall x, f x = g x) -> first_some f l = first_some g l.
Proof. intros H. induction l as [|x l IH]; simpl; [reflexivity | now rewrite H, IH]. Qed.

Lemma first_some_flat_map (f : B -> option R) (h : A -> list B) (l : list A) :
  first_some f (flat_map h l) = first_some (fun x => first_some f (h x)) l.
Proof.
  induction l as [|x l IH]; [reflexivity|].
  cbn [flat_map]. rewrite first_some_app, IH. reflexivity.
Qed.

Lemma first_some_map (f : B -> option R) (h : A -> B) (l : list A) :
  first_some f (map h l) = first_some (fun x => f (h x)) l.
Proof. induction l as [|x l IH]; simpl; [reflexivity | now rewrite IH]. Qed.

(** With a continuation that always succeeds, the first candidate wins. *)
Lemma first_some_total (h : A -> R) (l : list A) :
  first_some (fun x => Some (h x)) l = option_map h (hd_error l).
Proof. destruct l; reflexivity. Qed.

Lemma first_some_In (f : A -> option R) (l : list A) (y : R) :
  first_some f l = Some y -> exists x, In x l /\ f x = Some y.
Proof.
  induction l as [|x l IH]; simpl; [discriminate|].
  destruct (f x) eqn:E; [intros [= <-]; eauto|].
  intros H. destruct (IH H) as (x' & Hin & Hx'). eauto.
Qed.

Lemma first_some_None (f : A -> option R) (l : list A) (x : A) :
  first_some f l = None -> In x l -> f x = None.
Proof.
  induction l as [|y l IH]; simpl; [easy|].
  destruct (f y) eqn:E; [discriminate|]. intros H [<-|Hin]; auto.
Qed.

End FirstSome.

Lemma star_first_success {R} k pos s g (kont : nat -> string -> option string -> option R) :
  star k pos s g kont = first_some (apply3 kont) (star_all k pos s g).
Proof.
  revert pos. induction s as [|c s IH]; intros pos; simpl; [now destruct (kont pos "" g)|].
  destruct (cc_matches k c).
  - rewrite first_some_app, <- IH. simpl. now destruct (kont pos (String c s) g).
  - simpl. now destruct (kont pos (String c s) g).
Qed.

(** The engine's continuation-passing matcher returns the first candidate,
    in backtracking order, that its continuation accepts. *)
Theorem bt_reference {R} (r : regex) pos s g (kont : nat -> string -> option string -> option R) :
  bt r pos s g kont = first_some (apply3 kont) (all_matches r pos s g).
Proof.
  revert pos s g kont. induction r as [| k | r1 IH1 r2 IH2 | r1 IH1 r2 IH2 | k | r IH | |];
    intros pos s g kont; simpl.
  - now destruct (kont pos s g).
  - destruct s as [|c s']; [reflexivity|]. destruct (cc_matches k c); simpl; [|reflexivity].
    now destruct (kont (S pos) s' g).
  - rewrite IH1, first_some_flat_map. apply first_some_ext. intros [[p s'] g']. apply IH2.
  - rewrite IH1, IH2, first_some_app. reflexivity.
  - apply star_first_success.
  - rewrite IH, first_some_map. apply first_some_ext. now intros [[p s'] g'].
  - destruct (Nat.eqb pos 0); simpl; [now destruct (kont pos s g) | reflexivity].
  - destruct (eol_ok s); simpl; [now destruct (kont pos s g) | reflexivity].
Qed.

(** ** What a pattern matches, declaratively

    [matches r pos w rest g g'] holds when [r], started at position [pos]
    with [w +++ rest] still to read and group slot [g], can consume
    exactly [w], leaving the slot [g']. *)

Inductive matches : regex -> nat -> string -> string -> option string -> option string -> Prop :=
| m_eps pos rest g : matches REps pos "" rest g g
| m_class k c pos rest g :
    cc_matches k c = true -> matches (RClass k) pos (String c "") rest g g
| m_seq r1 r2 pos w1 w2 rest g g1 g2 :
    matches r1 pos w1 (w2 +++ rest) g g1 ->
    matches r2 (pos + String.length w1) w2 rest g1 g2 ->
    matches (RSeq r1 r2) pos (w1 +++ w2) rest g g2
| m_alt_l r1 r2 pos w rest g g' :
    matches r1 pos w rest g g' -> matches (RAlt r1 r2) pos w rest g g'
| m_alt_r r1 r2 pos w rest g g' :
    matches r2 pos w rest g g' -> matches (RAlt r1 r2) pos w rest g g'
| m_star_nil k pos rest g : matches (RStar k) pos "" rest g g
| m_star_cons k c w pos rest g :
    cc_matches k c = true -> matches (RStar k) (S pos) w rest g g ->
    matches (RStar k) pos (String c w) rest g g
| m_group r pos w rest g g' :
    matches r pos w rest g g' -> matches (RGroup r) pos w rest g (Some w)
| m_bol rest g : matches RBol 0 "" rest g g
| m_eol pos rest g : eol_ok rest = true -> matches REol pos "" rest g g.

#[export] Hint Constructors matches : x10.

Lemma consumed_prefix (w rest : string) : consumed (w +++ rest) (String.length w) = w.
Proof.
  unfold consumed. induction w as [|c w IH]; simpl; [now destruct rest | now rewrite IH].
Qed.

(** Close [exists w, s = w +++ rest /\ p = pos + |w| /\ matches ..] with
    the empty match. *)
Local Ltac empty_match :=
  exists ""; simpl; split; [reflexivity | split; [lia | eauto with x10]].

Lemma star_all_iff k pos s g p rest g' :
  In (p, rest, g') (star_all k pos s g) <->
  exists w, s = w +++ rest /\ p = pos + String.length w /\ matches (RStar k) pos w rest g g'.
Proof.
  revert pos. induction s as [|c s IH]; intros pos; simpl.
  - split.
    + intros [[= <- <- <-]|[]]. empty_match.
    + intros (w & Hw & -> & Hm). destruct w; [|discriminate]. inv Hm. simpl in *. subst.
      left. now rewrite Nat.add_0_r.
  - destruct (cc_matches k c) eqn:Hc.
    + rewrite in_app_iff, IH. simpl. split.
      * intros [(w & -> & -> & Hm) | [[= <- <- <-]|[]]].
        -- exists (String c w). assert (g' = g) by (inversion Hm; auto). subst.
           simpl. repeat split; [lia | eauto with x10].
        -- empty_match.
      * intros (w & Hw & -> & Hm). inv Hm.
        -- right. left. simpl in *. subst. now rewrite Nat.add_0_r.
        -- left. injection Hw as -> ->. exists w0. simpl. repeat split; auto; lia.
    + simpl. split.
      * intros [[= <- <- <-]|[]]. empty_match.
      * intros (w & Hw & -> & Hm). inv Hm.
        -- simpl in *. subst. left. now rewrite Nat.add_0_r.
        -- injection Hw as -> ->. congruence.
Qed.

Lemma matches_seq_split r1 r2 pos s p rest g g' :
  (exists w, s = w +++ rest /\ p = pos + String.length w /\ matches (RSeq r1 r2) pos w rest g g') <->
  exists p1 s1 g1,
    (exists w1, s = w1 +++ s1 /\ p1 = pos + String.length w1 /\ matches r1 pos w1 s1 g g1) /\
    (exists w2, s1 = w2 +++ rest /\ p = p1 + String.length w2 /\ matches r2 p1 w2 rest g1 g').
Proof.
  split.
  - intros (w & -> & -> & Hm). inv Hm.
    exists (pos + String.length w1), (w2 +++ rest), g1. split.
    + exists w1. rewrite append_assoc. auto.
    + exists w2. rewrite length_append. repeat split; auto. lia.
  - intros (p1 & s1 & g1 & (w1 & -> & -> & H1) & (w2 & -> & -> & H2)).
    exists (w1 +++ w2). rewrite append_assoc, length_append.
    repeat split; [lia | eauto with x10].
Qed.

(** The reference enumeration lists exactly the declarative matches. *)
Theorem all_matches_correct r pos s g p rest g' :
  In (p, rest, g') (all_matches r pos s g) <->
  exists w, s = w +++ rest /\ p = pos + String.length w /\ matches r pos w rest g g'.
Proof.
  revert pos s g p rest g'.
  induction r as [| k | r1 IH1 r2 IH2 | r1 IH1 r2 IH2 | k | r IH | |];
    intros pos s g p rest g'; simpl.
  - split.
    + intros [[= <- <- <-]|[]]. empty_match.
    + intros (w & -> & -> & Hm). inv Hm. left. simpl. now rewrite Nat.add_0_r.
  - split.
    + destruct s as [|c s']; [easy|]. destruct (cc_matches k c) eqn:Hc; [|easy].
      intros [[= <- <- <-]|[]]. exists (String c ""). simpl. repeat split; [lia | eauto with x10].
    + intros (w & -> & -> & Hm). inversion Hm as [| ? ? ? ? ? Hc | | | | | | | |]; subst.
      simpl. rewrite Hc. left. f_equal. f_equal. lia.
  - rewrite matches_seq_split, in_flat_map. split.
    + intros ([[p1 s1] g1] & H1 & H2). apply IH1 in H1. apply IH2 in H2. eauto.
    + intros (p1 & s1 & g1 & H1 & H2). apply IH1 in H1. apply IH2 in H2. eauto.
  - rewrite in_app_iff, IH1, IH2. split.
    + intros [(w & ? & ? & ?)|(w & ? & ? & ?)]; eauto with x10.
    + intros (w & ? & ? & Hm). inv Hm; eauto.
  - apply star_all_iff.
  - rewrite in_map_iff. split.
    + intros ([[p1 s1] g1] & [= <- <- <-] & Hin). apply IH in Hin as (w & -> & -> & Hm).
      exists w. rewrite Nat.add_comm, Nat.add_sub, consumed_prefix. eauto with x10.
    + intros (w & -> & -> & Hm). inv Hm. exists (pos + String.length w, rest, g'0).
      rewrite Nat.add_comm, Nat.add_sub, consumed_prefix, IH.
      split; [reflexivity | exists w; repeat split; auto; lia].
  - destruct (Nat.eqb_spec pos 0) as [->|Hne]; split.
    + intros [[= <- <- <-]|[]]. empty_match.
    + intros (w & -> & -> & Hm). inv Hm. left. reflexivity.
    + easy.
    + intros (w & -> & -> & Hm). now inv Hm.
  - destruct (eol_ok s) eqn:He; split.
    + intros [[= <- <- <-]|[]]. empty_match.
    + intros (w & -> & -> & Hm). inv Hm. left. simpl. now rewrite Nat.add_0_r.
    + easy.
    + intros (w & -> & -> & Hm). inv Hm. simpl in He. congruence.
Qed.

(** The reference enumeration lists exactly the matches of the
    declarative semantics [matches]. *)
Theorem all_matches_iff r pos s g p rest g' :
  In (p, rest, g') (all_matches r pos s g) <->
  exists w, s = w +++ rest /\ p = pos + String.length w /\ matches r pos w rest g g'.
Proof. apply all_matches_correct. Qed.

(** ** [re.match] and [re.search] *)

Lemma bt_accept_first r pos s :
  bt r pos s None accept =
  option_map (fun '(p, _, g) => (p, g)) (hd_error (all_matches r pos s None)).
Proof.
  rewrite bt_reference. destruct (all_matches r pos s None) as [|[[p s'] g] l]; reflexivity.
Qed.

Lemma bt_accept_some r pos s e g :
  bt r pos s None accept = Some (e, g) ->
  exists w rest, s = w +++ rest /\ e = pos + String.length w /\ matches r pos w rest None g.
Proof.
  rewrite bt_accept_first. destruct (all_matches r pos s None) as [|[[p rest] g'] l] eqn:E;
    [discriminate|].
  intros [= -> ->]. assert (Hin : In (e, rest, g) (all_matches r pos s None)) by (rewrite E; now left).
  apply all_matches_correct in Hin as (w & ? & ? & ?). eauto.
Qed.

Lemma bt_accept_none r pos s :
  bt r pos s None accept = None ->
  forall w rest g, s = w +++ rest -> ~ matches r pos w rest None g.
Proof.
  rewrite bt_accept_first. destruct (all_matches r pos s None) as [|m l] eqn:E; [|discriminate].
  intros _ w rest g -> Hm.
  assert (Hin : In (pos + String.length w, rest, g) (all_matches r pos (w +++ rest) None))
    by (apply all_matches_correct; eauto).
  now rewrite E in Hin.
Qed.

(** [re.match] returns the first match in backtracking order. *)
Lemma py_match_first r s :
  py_match r s = option_map (fun '(p, _, g) => (p, g)) (hd_error (all_matches r 0 s None)).
Proof. apply bt_accept_first. Qed.

(** [re.match] is sound: what it returns is a match of a prefix. *)
Theorem match_sound r s e g :
  py_match r s = Some (e, g) ->
  exists w rest, s = w +++ rest /\ e = String.length w /\ matches r 0 w rest None g.
Proof. apply bt_accept_some. Qed.

(** [re.match] is sound: what it returns is a match of a prefix of the
    string, of the length it reports. *)
Theorem py_match_sound r s e g :
  py_match r s = Some (e, g) ->
  exists w rest, s = w +++ rest /\ e = String.length w /\ matches r 0 w rest None g.
Proof. apply match_sound. Qed.

(** [re.match] is complete: if some prefix matches, it returns a match. *)
Theorem match_complete r w rest g :
  matches r 0 w rest None g -> py_match r (w +++ rest) <> None.
Proof.
  intros Hm Hnone. exact (bt_accept_none r 0 (w +++ rest) Hnone w rest g eq_refl Hm).
Qed.

Lemma search_from_step r pos s :
  search_from r pos s =
  match bt r pos s None accept with
  | Some (e, g) => Some (pos, e, g)
  | None => match s with EmptyString => None | String _ s' => search_from r (S pos) s' end
  end.
Proof. destruct s; reflexivity. Qed.

(** [re.search] is sound and leftmost: it returns a match starting at
    [i], and no match starts before [i]. *)
Theorem search_leftmost r s : forall pos i e g,
  search_from r pos s = Some (i, e, g) ->
  exists pre w rest,
    s = pre +++ w +++ rest /\ i = pos + String.length pre /\ e = i + String.length w /\
    matches r i w rest None g /\
    (forall pre' w' rest' g', String.length pre' < String.length pre ->
       s = pre' +++ w' +++ rest' -> ~ matches r (pos + String.length pre') w' rest' None g').
Proof.
  induction s as [|c s IH]; intros pos i e g; rewrite search_from_step.
  - destruct (bt r pos "" None accept) as [[e' g']|] eqn:E; [|discriminate].
    intros [= <- <- <-]. apply bt_accept_some in E as (w & rest & Hs & -> & Hm).
    exists "", w, rest. simpl. repeat split; auto; lia.
  - destruct (bt r pos (String c s) None accept) as [[e' g']|] eqn:E.
    + intros [= <- <- <-]. apply bt_accept_some in E as (w & rest & Hs & -> & Hm).
      exists "", w, rest. simpl. repeat split; auto; lia.
    + intros H. destruct (IH _ _ _ _ H) as (pre & w & rest & -> & -> & -> & Hm & Hleft).
      exists (String c pre), w, rest. simpl. repeat split; auto; try lia.
      intros [|c' pre'] w' rest' g' Hlt Hs; simpl in *.
      * rewrite Nat.add_0_r. exact (bt_accept_none r pos _ E w' rest' g' Hs).
      * injection Hs as -> Hs. rewrite <- Nat.add_succ_comm.
        apply (Hleft pre' w' rest' g'); [lia | exact Hs].
Qed.

(** [re.search] is sound and leftmost: it returns a match starting at the
    position it reports, and no match starts earlier. *)
Theorem search_from_sound r s : forall pos i e g,
  search_from r pos s = Some (i, e, g) ->
  exists pre w rest,
    s = pre +++ w +++ rest /\ i = pos + String.length pre /\ e = i + String.length w /\
    matches r i w rest None g /\
    (forall pre' w' rest' g', String.length pre' < String.length pre ->
       s = pre' +++ w' +++ rest' -> ~ matches r (pos + String.length pre') w' rest' None g').
Proof. apply search_leftmost. Qed.

(** [re.search] is complete: if a match starts somewhere, it finds one. *)
Theorem search_from_complete r s : forall pos pre w rest g,
  s = pre +++ w +++ rest -> matches r (pos + String.length pre) w rest None g ->
  search_from r pos s <> None.
Proof.
  induction s as [|c s IH]; intros pos pre w rest g Hs Hm; rewrite search_from_step;
    destruct (bt r pos _ None accept) as [[e' g']|] eqn:E; try discriminate; intros Hn.
  - destruct pre; [|discriminate]. simpl in *. rewrite Nat.add_0_r in Hm.
    exact (bt_accept_none r pos _ E w rest g Hs Hm).
  - destruct pre as [|c' pre]; simpl in *.
    + rewrite Nat.add_0_r in Hm. exact (bt_accept_none r pos _ E w rest g Hs Hm).
    + injection Hs as -> Hs. apply (IH (S pos) pre w rest g Hs); [|exact Hn].
      now rewrite Nat.add_succ_comm.
Qed.

(** ** Derived constructs *)

Lemma lit_matches (l : string) pos rest g : matches (lit l) pos l rest g g.
Proof.
  revert pos. induction l as [|c l IH]; intros pos; simpl; [constructor|].
  change (String c l) with (String c "" +++ l).
  econstructor; [constructor; apply Ascii.eqb_refl | apply IH].
Qed.

Lemma lit_inv (l : string) pos w rest g g' :
  matches (lit l) pos w rest g g' -> w = l /\ g' = g.
Proof.
  revert pos w rest g g'. induction l as [|c l IH]; intros pos w rest g g' Hm; simpl in Hm.
  - now inv Hm.
  - inversion Hm as [| | ? ? ? w1 w2 ? ? g1 ? H1 H2 | | | | | | |]; subst.
    apply IH in H2 as [-> ->].
    inversion H1 as [| ? c' ? ? ? Hc | | | | | | | |]; subst.
    apply Ascii.eqb_eq in Hc. now subst.
Qed.

Lemma alts_inv (ws : list string) pos w rest g g' :
  matches (alts ws) pos w rest g g' -> In w ws /\ g' = g.
Proof.
  induction ws as [|w0 [|w1 ws] IH]; intros Hm; simpl in *.
  - inversion Hm as [| ? ? ? ? ? Hc | | | | | | | |]; subst.
    unfold cc_matches, in_range in Hc. apply andb_prop in Hc as [H1 H2].
    apply Nat.leb_le in H1. apply Nat.leb_le in H2.
    change (nat_of_ascii "001"%char) with 1 in H1. change (nat_of_ascii "000"%char) with 0 in H2. lia.
  - apply lit_inv in Hm as [-> ->]. auto.
  - inv Hm.
    + apply lit_inv in H6 as [-> ->]. auto.
    + destruct (IH H6) as [Hin ->]. auto.
Qed.

Lemma alts_matches (ws : list string) w pos rest g :
  In w ws -> matches (alts ws) pos w rest g g.
Proof.
  induction ws as [|w0 [|w1 ws] IH]; intros Hin; simpl in *.
  - easy.
  - destruct Hin as [<-|[]]. apply lit_matches.
  - destruct Hin as [<-|Hin]; [apply m_alt_l, lit_matches | apply m_alt_r, IH, Hin].
Qed.

Lemma star_inv k pos w rest g g' :
  matches (RStar k) pos w rest g g' -> all_chars (cc_matches k) w = true /\ g' = g.
Proof.
  intros Hm. remember (RStar k) as r eqn:Er. induction Hm; try discriminate; injection Er as ->.
  - auto.
  - destruct (IHHm eq_refl) as [Hw _]. simpl. now rewrite H, Hw.
Qed.

Lemma star_matches k pos w rest g :
  all_chars (cc_matches k) w = true -> matches (RStar k) pos w rest g g.
Proof.
  revert pos. induction w as [|c w IH]; intros pos Hw; simpl in *; [constructor|].
  apply andb_prop in Hw as [Hc Hw]. constructor; auto.
Qed.

Lemma plus_matches k pos c w rest g :
  cc_matches k c = true -> all_chars (cc_matches k) w = true ->
  matches (RPlus k) pos (String c w) rest g g.
Proof.
  intros Hc Hw. change (String c w) with (String c "" +++ w).
  econstructor; [constructor; exact Hc | apply star_matches, Hw].
Qed.

Lemma plus_inv k pos w rest g g' :
  matches (RPlus k) pos w rest g g' ->
  exists c w', w = String c w' /\ cc_matches k c = true /\
               all_chars (cc_matches k) w' = true /\ g' = g.
Proof.
  intros Hm. inversion Hm as [| | ? ? ? w1 w2 ? ? g1 ? H1 H2 | | | | | | |]; subst.
  inversion H1 as [| ? c ? ? ? Hc | | | | | | | |]; subst.
  apply star_inv in H2 as [Hw ->]. exists c, w2. auto.
Qed.

(** ** What the group slot holds after a match

    [groups_in P r] says that every group of [r] captures only text with
    property [P].  After any match the slot then holds its initial value
    or a capture with [P]; and it is filled whenever [r] must pass through a
    group. *)

Fixpoint groups_in (P : string -> Prop) (r : regex) : Prop :=
  match r with
  | RSeq r1 r2 | RAlt r1 r2 => groups_in P r1 /\ groups_in P r2
  | RGroup b => groups_in P b /\ forall pos w rest g g', matches b pos w rest g g' -> P w
  | _ => True
  end.

Lemma matches_slot P r pos w rest g g' :
  matches r pos w rest g g' -> groups_in P r ->
  g' = g \/ exists x, g' = Some x /\ P x.
Proof.
  induction 1; simpl; intros HP; auto.
  - destruct HP as [HP1 HP2]. destruct (IHmatches2 HP2) as [->|?]; auto.
  - destruct HP as [HP1 _]. auto.
  - destruct HP as [_ HP2]. auto.
  - destruct HP as [_ HP]. right. exists w. eauto.
Qed.

(** Patterns that must pass through a group. *)
Fixpoint must_capture (r : regex) : bool :=
  match r with
  | RSeq r1 r2 => must_capture r1 || must_capture r2
  | RAlt r1 r2 => must_capture r1 && must_capture r2
  | RGroup _ => true
  | _ => false
  end.

Lemma matches_slot_kept r pos w rest g g' :
  matches r pos w rest g g' -> g <> None -> g' <> None.
Proof. induction 1; auto; discriminate. Qed.

Lemma matches_captures r pos w rest g g' :
  matches r pos w rest g g' -> must_capture r = true -> g' <> None.
Proof.
  induction 1; simpl; try discriminate; intros Hc.
  - apply orb_prop in Hc as [Hc|Hc]; [|auto].
    exact (matches_slot_kept _ _ _ _ _ _ H0 (IHmatches1 Hc)).
  - apply andb_prop in Hc as [Hc _]. auto.
  - apply andb_prop in Hc as [_ Hc]. auto.
Qed.

Lemma seq_inv r1 r2 pos w rest g g' :
  matches (RSeq r1 r2) pos w rest g g' ->
  exists w1 w2 g1, w = w1 +++ w2 /\ matches r1 pos w1 (w2 +++ rest) g g1 /\
                   matches r2 (pos + String.length w1) w2 rest g1 g'.
Proof. intros Hm. inv Hm. eauto 6. Qed.

(** [m_seq] with the split of the matched text as an equation. *)
Lemma m_seq_eq r1 r2 pos w w1 w2 rest g g1 g2 :
  matches r1 pos w1 (w2 +++ rest) g g1 ->
  matches r2 (pos + String.length w1) w2 rest g1 g2 ->
  w = w1 +++ w2 -> matches (RSeq r1 r2) pos w rest g g2.
Proof. intros H1 H2 ->. econstructor; eauto. Qed.

Lemma eol_ok_iff s : eol_ok s = true <-> s = "" \/ s = String newline "".
Proof.
  destruct s as [|c [|c' s]]; simpl; split; auto; try discriminate.
  - intros H. apply Ascii.eqb_eq in H. subst. auto.
  - intros [H|H]; [discriminate|]. injection H as ->. apply Ascii.eqb_refl.
  - intros [H|H]; discriminate.
Qed.

(** ** Instances on a literal pattern *)

Lemma py_match_sound_witness :
  exists w rest, "On :" = w +++ rest /\ 2 = String.length w /\ matches (lit "On") 0 w rest None None.
Proof. apply py_match_sound. vm_compute. reflexivity. Defined.

Lemma search_from_sound_witness :
  exists pre w rest,
    "x On" = pre +++ w +++ rest /\ 2 = 0 + String.length pre /\ 4 = 2 + String.length w /\
    matches (lit "On") 2 w rest None None /\
    (forall pre' w' rest' g', String.length pre' < String.length pre ->
       "x On" = pre' +++ w' +++ rest' -> ~ matches (lit "On") (0 + String.length pre') w' rest' None g').
Proof. apply search_from_sound. vm_compute. reflexivity. Defined.

Lemma search_from_complete_witness : search_from (lit "On") 0 "x On" <> None.
Proof. apply (search_from_complete (lit "On") "x On" 0 "x " "On" "" None); [reflexivity | apply lit_matches]. Defined.

End Regex.
