(* ===== verification/Patterns.v ===== *)
(** * Patterns: the three regular expressions of src/x10mqtt.py

    - [hcpattern] is [^[A-P][0-9]+$] (line 214), matched with
      [re.match] against the housecode of a command topic;
    - [rercviaddr] is [(?:rcvi|rcvt|sndc|snds|sndm|sndt) addr unit.+hu
      ([A-P][0-9]+)] (line 274) and [rercvifunc] is
      [(?:rcvi|rcvt|sndc|snds|sndm|sndt) func.*(On|Off) :] (line 275),
      searched in every line of [heyu monitor].
    The theorems: [hcpattern] accepts exactly the housecodes of the grammar
    [[A-P][0-9]+], and also each of them followed by one newline (Python's
    [$]); a successful search with [rercviaddr] always captures a
    housecode of the grammar, one with [rercvifunc] always captures [On] or
    [Off].  An example shows that a single line can match both patterns. *)

From S2P Require Import Prelude PyStr Regex.
Open Scope string_scope.
Open Scope list_scope.
Open Scope py_scope.

Module Patterns.
Import Regex.

(** [[A-P][0-9]+] *)
Definition hc_body : regex := RSeq (RClass (CRange "A" "P")) (RPlus (CRange "0" "9")).

(** [hcpattern = re.compile("^[A-P][0-9]+$")] *)
Definition hcpattern : regex := RSeq RBol (RSeq hc_body REol).

(** The six monitor prefixes of [(?:rcvi|rcvt|sndc|snds|sndm|sndt)]. *)
Definition heyu_prefixes : list string := ["rcvi"; "rcvt"; "sndc"; "snds"; "sndm"; "sndt"].

(** [rercviaddr = re.compile(r"(?:rcvi|...|sndt) addr unit.+hu ([A-P][0-9]+)")] *)
Definition rercviaddr : regex :=
  RSeq (alts heyu_prefixes)
    (RSeq (lit " addr unit")
       (RSeq (RPlus CAny) (RSeq (lit "hu ") (RGroup hc_body)))).

(** [rercvifunc = re.compile(r"(?:rcvi|...|sndt) func.*(On|Off) :")] *)
Definition rercvifunc : regex :=
  RSeq (alts heyu_prefixes)
    (RSeq (lit " func")
       (RSeq (RStar CAny) (RSeq (RGroup (RAlt (lit "On") (lit "Off"))) (lit " :")))).

(** [hcpattern.match(hc)] as the truth value the [if] of line 215 tests. *)
Definition hc_matches (hc : string) : bool :=
  match py_match hcpattern hc with Some _ => true | None => false end.

(** ** The housecode pattern *)

Lemma hc_body_iff pos w rest g g' :
  matches hc_body pos w rest g g' <-> is_hc w = true /\ g' = g.
Proof.
  split.
  - intros Hm. apply seq_inv in Hm as (w1 & w2 & g1 & -> & H1 & H2).
    inversion H1 as [| ? c ? ? ? Hc | | | | | | | |]; subst.
    apply plus_inv in H2 as (d & w' & -> & Hd & Hw & ->). simpl.
    change (cc_matches (CRange "A" "P") c) with (is_house c) in Hc.
    change (cc_matches (CRange "0" "9") d) with (is_digit d) in Hd.
    change (all_chars (cc_matches (CRange "0" "9")) w') with (all_chars is_digit w') in Hw.
    now rewrite Hc, Hd, Hw.
  - intros [Hw ->]. destruct w as [|c [|d w']]; try discriminate. simpl in Hw.
    apply andb_prop in Hw as [Hw Hr]. apply andb_prop in Hw as [Hc Hd].
    change (String c (String d w')) with (String c "" +++ String d w').
    econstructor; [constructor; exact Hc | apply plus_matches; assumption].
Qed.

(** [hcpattern.match(hc)] succeeds exactly on the housecodes of the
    grammar [[A-P][0-9]+] and on each of them followed by one newline:
    Python's [$] also matches before a newline that ends the string. *)
Theorem hcpattern_accepts (hc : string) :
  hc_matches hc = true <->
  is_hc hc = true \/ exists h, hc = h +++ String newline "" /\ is_hc h = true.
Proof.
  unfold hc_matches. split.
  - destruct (py_match hcpattern hc) as [[e g]|] eqn:E; [|discriminate]. intros _.
    apply match_sound in E as (w & rest & -> & _ & Hm).
    apply seq_inv in Hm as (w0 & w1 & g0 & -> & H0 & H1). inv H0.
    apply seq_inv in H1 as (h & w2 & g2 & -> & Hh & He).
    inversion He as [| | | | | | | | | ? ? ? Heol]; subst.
    apply hc_body_iff in Hh as [Hh _].
    apply eol_ok_iff in Heol as [-> | ->]; simpl; rewrite !append_empty_r; eauto.
  - intros Hhc.
    assert (Hm : exists h rest, hc = h +++ rest /\ is_hc h = true /\ eol_ok rest = true)
      by (destruct Hhc as [H | (h & -> & H)];
          [exists hc, ""; rewrite append_empty_r | exists h, (String newline "")];
          repeat split; auto; apply Ascii.eqb_refl).
    destruct Hm as (h & rest & -> & Hh & Hrest).
    destruct (py_match hcpattern (h +++ rest)) eqn:E; [reflexivity|].
    exfalso. refine (match_complete hcpattern h rest None _ E).
    apply (m_seq_eq _ _ _ _ "" h _ _ None); [constructor | | reflexivity].
    apply (m_seq_eq _ _ _ _ h "" _ _ None); [ | constructor; exact Hrest | now rewrite append_empty_r].
    apply hc_body_iff. auto.
Qed.

(** C4: [hcpattern.match(hc)] succeeds exactly on the housecodes of the
    grammar [[A-P][0-9]+] and on each of them followed by one newline:
    Python's [$] also matches before a final newline. *)
Theorem hc_matches_iff (hc : string) :
  hc_matches hc = true <->
  is_hc hc = true \/ exists h, hc = h +++ String newline "" /\ is_hc h = true.
Proof. apply hcpattern_accepts. Qed.

(** ** The monitor patterns *)

(** The function words the group of [rercvifunc] can capture. *)
Definition is_func_word (w : string) : Prop := w = "On" \/ w = "Off".

Lemma rercviaddr_groups : groups_in (fun h => is_hc h = true) rercviaddr.
Proof.
  simpl. repeat split. intros pos w rest g g' Hm. now apply hc_body_iff in Hm.
Qed.

Lemma rercvifunc_groups : groups_in is_func_word rercvifunc.
Proof.
  simpl. repeat split. intros pos w rest g g' Hm. unfold is_func_word.
  inversion Hm as [| | | ? ? ? ? ? ? ? H | ? ? ? ? ? ? ? H | | | | |]; subst;
    [left; exact (proj1 (lit_inv "On" _ _ _ _ _ H)) | right; exact (proj1 (lit_inv "Off" _ _ _ _ _ H))].
Qed.

(** A search that succeeds has passed through the pattern's group, with
    a capture of the property the group guarantees. *)
Lemma search_capture (P : string -> Prop) r line i e g :
  groups_in P r -> must_capture r = true ->
  py_search r line = Some (i, e, g) -> exists h, g = Some h /\ P h.
Proof.
  intros HP Hc Hs. apply search_leftmost in Hs as (pre & w & rest & _ & _ & _ & Hm & _).
  destruct (matches_slot P _ _ _ _ _ _ Hm HP) as [->|Hx]; [|exact Hx].
  now destruct (matches_captures _ _ _ _ _ _ Hm Hc).
Qed.

(** Whenever [rercviaddr.search(line)] succeeds, [group(1)] is a housecode
    of the grammar [[A-P][0-9]+] (never [None], and no trailing newline). *)
Theorem addr_capture_hc line i e g :
  py_search rercviaddr line = Some (i, e, g) -> exists h, g = Some h /\ is_hc h = true.
Proof. apply search_capture; [apply rercviaddr_groups | reflexivity]. Qed.

(** C24: Whenever [rercviaddr.search(line)] succeeds, [group(1)] is a housecode
    of the grammar [[A-P][0-9]+]: never [None] and no trailing newline. *)
Theorem rercviaddr_captures_hc line i e g :
  py_search rercviaddr line = Some (i, e, g) -> exists h, g = Some h /\ is_hc h = true.
Proof. apply addr_capture_hc. Qed.

(** Whenever [rercvifunc.search(line)] succeeds, [group(1)] is [On] or [Off]. *)
Theorem func_capture_word line i e g :
  py_search rercvifunc line = Some (i, e, g) -> exists f, g = Some f /\ is_func_word f.
Proof. apply search_capture; [apply rercvifunc_groups | reflexivity]. Qed.

(** C25: Whenever [rercvifunc.search(line)] succeeds, [group(1)] is [On] or [Off]. *)
Theorem rercvifunc_captures_func line i e g :
  py_search rercvifunc line = Some (i, e, g) -> exists f, g = Some f /\ is_func_word f.
Proof. apply func_capture_word. Qed.

(** ** Lines of [heyu monitor]

    The two shapes of the heyu release notes: an address line and the
    function line that follows it. *)

Definition sample_addr_line : string :=
  "01/12 15:16:52  rcvi addr unit       1 : hu A1  (_no_alias_)" +++ String newline "".
Definition sample_func_line : string :=
  "01/12 15:16:52  rcvi func          On : hc A" +++ String newline "".

Example sample_addr_line_search :
  search_group rercviaddr sample_addr_line = Some "A1" /\
  py_search rercvifunc sample_addr_line = None.
Proof. vm_compute. split; reflexivity. Qed.

Example sample_func_line_search :
  py_search rercviaddr sample_func_line = None /\
  search_group rercvifunc sample_func_line = Some "On".
Proof. vm_compute. split; reflexivity. Qed.

(** The greedy [.+] makes [rercviaddr] capture the last [hu] token of a
    line that has two. *)
Example addr_search_last_token :
  search_group rercviaddr "sndc addr unit 1 : hu A1, hu B12" = Some "B12".
Proof. vm_compute. reflexivity. Qed.

(** The two monitor patterns are not disjoint: one line matches both, and
    the main loop then runs [rcviaddr] and [rcvifunc] on it, in that
    order. *)
Example monitor_patterns_overlap :
  exists line, search_group rercviaddr line = Some "B2" /\ search_group rercvifunc line = Some "Off".
Proof. exists "sndc addr unit 1 : hu B2 sndc func Off :". vm_compute. split; reflexivity. Qed.

(** ** The captures on the sample lines *)

Lemma rercviaddr_captures_hc_witness :
  py_search rercviaddr sample_addr_line = Some (16, 46, Some "A1") /\
  exists h, Some "A1" = Some h /\ is_hc h = true.
Proof.
  split; [vm_compute; reflexivity|].
  apply (rercviaddr_captures_hc sample_addr_line 16 46). vm_compute. reflexivity.
Defined.

Lemma rercvifunc_captures_func_witness :
  py_search rercvifunc sample_func_line = Some (16, 39, Some "On") /\
  exists f, Some "On" = Some f /\ is_func_word f.
Proof.
  split; [vm_compute; reflexivity|].
  apply (rercvifunc_captures_func sample_func_line 16 39). vm_compute. reflexivity.
Defined.

End Patterns.
