(* ===== verification/Effects.v ===== *)
(** * Effects: what the script does to the world, and its global state

    The script's observable effects are the lines it prints, the calls it
    makes on the paho client ([publish], [subscribe], [username_pw_set],
    [connect], [loop_start]) and the [heyu]
    processes it starts ([subprocess.run], [subprocess.Popen]).  They are
    recorded, in order, as a trace of [event]s.  The one mutable global is
    [rcvihc] (line 52).  The configuration globals (lines 28-101) are read
    only after start-up and form the record [config].

    [PY] is a state monad over [state] = the global plus the trace; its
    operations append one event each.  [runs_to m st x g evs] says that [m]
    run from [st] returns [x], leaves the global at [g] and appends exactly
    [evs] to the trace; the lemmas compose it along [bind] and [for_each]
    and state the monad laws.  [published] projects the publishes out of a
    list of events. *)

From S2P Require Import Prelude PyStr.
Open Scope string_scope.
Open Scope list_scope.
Open Scope py_scope.

Module Effects.

(** ** Events *)

Inductive event :=
| EvPrint (msg : string)                          (** [print(msg)] *)
| EvPublish (topic payload : string) (retain : bool)  (** [client.publish(topic, payload, retain=..)] *)
| EvSubscribe (topic : string)                    (** [client.subscribe(topic)] *)
| EvRun (argv : list string) (returncode : Z)     (** [subprocess.run(argv)] and the code it returned *)
| EvSpawn (argv : list string)                    (** [subprocess.Popen(argv, ...)] *)
| EvCredentials (user pass : string)               (** [client.username_pw_set(user, pass)] *)
| EvConnect (host : string) (port : Z)            (** [client.connect(host, port)] *)
| EvLoopStart.                                     (** [client.loop_start()] *)

(** ** State *)

Record state := mkState {
  rcvihc : string;         (** the housecode stored by [rcviaddr] *)
  trace : list event       (** every effect so far, oldest first *)
}.

(** ** Configuration (lines 28-101) *)

Record config := mkConfig {
  broker : string;
  port : Z;
  mqttuser : string;
  mqttpass : string;
  cmdtopic : string;
  stattopic : string;
  discoveryhouses : list ascii;
  discoverytopic : string;
  cm17 : bool
}.

(** A configuration with the defaults of lines 61-101 (no discovery
    houses, CM11 mode) and a local broker: the one the examples run with. *)
Definition sample_config : config :=
  mkConfig "localhost" 1883 "" "" "x10/cmd" "x10/stat" [] "homeassistant" false.

(** The state at start-up: [rcvihc = ""] (line 52), nothing done yet. *)
Definition init_state : state := {| rcvihc := ""; trace := [] |}.

(** ** State and monad *)

Definition PY (A : Type) : Type := state -> A * state.

Definition ret {A} (x : A) : PY A := fun st => (x, st).

Definition bind {A B} (m : PY A) (k : A -> PY B) : PY B :=
  fun st => let '(x, st') := m st in k x st'.

Declare Scope monad_scope.
Delimit Scope monad_scope with monad.
Notation "x <- m ;; k" := (bind m (fun x => k))
  (at level 61, m at next level, right associativity) : monad_scope.
Notation "m ;; k" := (bind m (fun _ => k))
  (at level 61, right associativity) : monad_scope.
Open Scope monad_scope.

Definition emit (e : event) : PY unit :=
  fun st => (tt, {| rcvihc := rcvihc st; trace := trace st ++ [e] |}).

Definition print (msg : string) : PY unit := emit (EvPrint msg).
Definition publish (topic payload : string) (retain : bool) : PY unit :=
  emit (EvPublish topic payload retain).
Definition subscribe (topic : string) : PY unit := emit (EvSubscribe topic).

(** [subprocess.run(argv).returncode]: the code [rc] is the environment's
    answer. *)
Definition run (argv : list string) (rc : Z) : PY Z := emit (EvRun argv rc) ;; ret rc.

Definition get_rcvihc : PY string := fun st => (rcvihc st, st).
Definition set_rcvihc (hc : string) : PY unit :=
  fun st => (tt, {| rcvihc := hc; trace := trace st |}).

(** [for x in l: f(x)] *)
Fixpoint for_each {A} (f : A -> PY unit) (l : list A) : PY unit :=
  match l with
  | [] => ret tt
  | x :: l' => f x ;; for_each f l'
  end.

(** ** Running a program *)

(** [m] appends [evs] to the trace and leaves the global at [g']. *)
Definition runs_to {A} (m : PY A) (st : state) (x : A) (g' : string) (evs : list event) : Prop :=
  m st = (x, {| rcvihc := g'; trace := trace st ++ evs |}).

(** ** Laws *)

Lemma bind_ret_l {A B} (x : A) (k : A -> PY B) st : bind (ret x) k st = k x st.
Proof. reflexivity. Qed.

Lemma bind_ret_r {A} (m : PY A) st : bind m ret st = m st.
Proof. unfold bind, ret. now destruct (m st). Qed.

Lemma bind_assoc {A B C} (m : PY A) (k : A -> PY B) (h : B -> PY C) st :
  bind (bind m k) h st = bind m (fun x => bind (k x) h) st.
Proof. unfold bind. now destruct (m st). Qed.

Lemma runs_to_ret {A} (x : A) st : runs_to (ret x) st x (rcvihc st) [].
Proof. unfold runs_to, ret. destruct st. simpl. now rewrite app_nil_r. Qed.

Lemma runs_to_emit e st : runs_to (emit e) st tt (rcvihc st) [e].
Proof. reflexivity. Qed.

Lemma runs_to_print msg st : runs_to (print msg) st tt (rcvihc st) [EvPrint msg].
Proof. reflexivity. Qed.

Lemma runs_to_publish t p r st : runs_to (publish t p r) st tt (rcvihc st) [EvPublish t p r].
Proof. reflexivity. Qed.

Lemma runs_to_subscribe t st : runs_to (subscribe t) st tt (rcvihc st) [EvSubscribe t].
Proof. reflexivity. Qed.

Lemma runs_to_set hc st : runs_to (set_rcvihc hc) st tt hc [].
Proof. unfold runs_to. simpl. now rewrite app_nil_r. Qed.

Lemma runs_to_get st : runs_to get_rcvihc st (rcvihc st) (rcvihc st) [].
Proof. unfold runs_to, get_rcvihc. destruct st. simpl. now rewrite app_nil_r. Qed.

Lemma runs_to_bind {A B} (m : PY A) (k : A -> PY B) st x g1 evs1 y g2 evs2 :
  runs_to m st x g1 evs1 ->
  runs_to (k x) {| rcvihc := g1; trace := trace st ++ evs1 |} y g2 evs2 ->
  runs_to (bind m k) st y g2 (evs1 ++ evs2).
Proof.
  unfold runs_to, bind. intros H1 H2. rewrite H1, H2. simpl. now rewrite app_assoc.
Qed.

(** [runs_to_bind] with the split of the events as an equation. *)
Lemma runs_to_bind_eq {A B} (m : PY A) (k : A -> PY B) st x g1 evs1 y g2 evs2 evs :
  runs_to m st x g1 evs1 ->
  runs_to (k x) {| rcvihc := g1; trace := trace st ++ evs1 |} y g2 evs2 ->
  evs = evs1 ++ evs2 ->
  runs_to (bind m k) st y g2 evs.
Proof. intros H1 H2 ->. exact (runs_to_bind m k st x g1 evs1 y g2 evs2 H1 H2). Qed.

(** A step that keeps the global, followed by one that works from any state. *)
Lemma runs_to_seq_keep {A B} (m : PY A) (k : A -> PY B) st x evs1 y evs2 :
  runs_to m st x (rcvihc st) evs1 ->
  (forall st', runs_to (k x) st' y (rcvihc st') evs2) ->
  runs_to (bind m k) st y (rcvihc st) (evs1 ++ evs2).
Proof.
  intros H1 H2. eapply runs_to_bind; [exact H1|].
  exact (H2 {| rcvihc := rcvihc st; trace := trace st ++ evs1 |}).
Qed.

Lemma runs_to_run argv rc st : runs_to (run argv rc) st rc (rcvihc st) [EvRun argv rc].
Proof. reflexivity. Qed.

Lemma runs_to_for_each {A} (f : A -> PY unit) (ev : A -> list event) (l : list A) st :
  (forall x st, runs_to (f x) st tt (rcvihc st) (ev x)) ->
  runs_to (for_each f l) st tt (rcvihc st) (flat_map ev l).
Proof.
  intros Hf. revert st. induction l as [|x l IH]; intros st; simpl; [apply runs_to_ret|].
  eapply runs_to_bind; [apply Hf | exact (IH {| rcvihc := rcvihc st; trace := trace st ++ ev x |})].
Qed.

Lemma runs_to_for_each_eq {A} (f : A -> PY unit) (ev : A -> list event) (l : list A) st g :
  (forall x st, runs_to (f x) st tt (rcvihc st) (ev x)) -> g = rcvihc st ->
  runs_to (for_each f l) st tt g (flat_map ev l).
Proof. intros Hf ->. now apply runs_to_for_each. Qed.

(** The publishes of a trace: topic, payload and retain flag. *)
Definition published (evs : list event) : list (string * string * bool) :=
  flat_map (fun e => match e with EvPublish t p r => [(t, p, r)] | _ => [] end) evs.

Lemma published_app evs1 evs2 : published (evs1 ++ evs2) = published evs1 ++ published evs2.
Proof. apply flat_map_app. Qed.

#[export] Hint Rewrite published_app : pystr.

Lemma published_Forall (P : string * string * bool -> Prop) evs :
  (forall t p r, In (EvPublish t p r) evs -> P (t, p, r)) -> Forall P (published evs).
Proof.
  induction evs as [|e evs IH]; intros H; [constructor|].
  destruct e; simpl; auto using in_cons.
  constructor; [apply H; left; reflexivity | apply IH; auto using in_cons].
Qed.

(** [runs_to] is functional: a run has one result, one final global and
    one list of events. *)
Lemma runs_to_det {A} (m : PY A) st x g evs x' g' evs' :
  runs_to m st x g evs -> runs_to m st x' g' evs' -> x = x' /\ g = g' /\ evs = evs'.
Proof.
  unfold runs_to. intros H H'. rewrite H in H'. injection H' as -> -> E.
  repeat split. exact (app_inv_head _ _ _ E).
Qed.

(** The state a run leaves. *)
Lemma runs_to_state {A} (m : PY A) st x g evs :
  runs_to m st x g evs -> m st = (x, {| rcvihc := g; trace := trace st ++ evs |}).
Proof. easy. Qed.

(** ** Locality

    A computation is local when its result, the global it leaves and the
    events it appends depend on the global only, never on the trace so
    far.  Every operation of the script is. *)
Definition local {A} (m : PY A) : Prop :=
  forall g, exists x g' evs, forall tr, runs_to m {| rcvihc := g; trace := tr |} x g' evs.

Lemma local_ret {A} (x : A) : local (ret x).
Proof. intros g. exists x, g, []. intros tr. apply runs_to_ret. Qed.

Lemma local_emit e : local (emit e).
Proof. intros g. exists tt, g, [e]. intros tr. apply runs_to_emit. Qed.

Lemma local_get : local get_rcvihc.
Proof. intros g. exists g, g, []. intros tr. apply runs_to_get. Qed.

Lemma local_set hc : local (set_rcvihc hc).
Proof. intros g. exists tt, hc, []. intros tr. apply runs_to_set. Qed.

Lemma local_bind {A B} (m : PY A) (k : A -> PY B) :
  local m -> (forall x, local (k x)) -> local (bind m k).
Proof.
  intros Hm Hk g. destruct (Hm g) as (x & g1 & evs1 & H1). destruct (Hk x g1) as (y & g2 & evs2 & H2).
  exists y, g2, (evs1 ++ evs2). intros tr. eapply runs_to_bind; [apply H1 | apply H2].
Qed.

Lemma local_for_each {A} (f : A -> PY unit) (l : list A) :
  (forall x, local (f x)) -> local (for_each f l).
Proof.
  intros Hf. induction l as [|x l IH]; simpl; [apply local_ret|]. apply local_bind; auto.
Qed.

(** A local run can be replayed from any state with the same global. *)
Lemma local_runs {A} (m : PY A) st st' x g evs :
  local m -> rcvihc st = rcvihc st' -> runs_to m st x g evs -> runs_to m st' x g evs.
Proof.
  intros Hm Hg H. destruct st as [g0 tr], st' as [g0' tr']. simpl in Hg. subst g0'.
  destruct (Hm g0) as (x1 & g1 & evs1 & H1).
  destruct (runs_to_det _ _ _ _ _ _ _ _ H (H1 tr)) as (-> & -> & ->). apply H1.
Qed.

Lemma local_exists {A} (m : PY A) st : local m -> exists x g evs, runs_to m st x g evs.
Proof. intros Hm. destruct st as [g tr]. destruct (Hm g) as (x & g' & evs & H). eauto. Qed.

#[export] Hint Resolve local_ret local_emit local_get local_set local_bind local_for_each : x10.

Lemma local_print msg : local (print msg).
Proof. apply local_emit. Qed.

Lemma local_publish t p r : local (publish t p r).
Proof. apply local_emit. Qed.

Lemma local_subscribe t : local (subscribe t).
Proof. apply local_emit. Qed.

Lemma local_run argv rc : local (run argv rc).
Proof. apply local_bind; [apply local_emit | intros; apply local_ret]. Qed.

#[export] Hint Resolve local_print local_publish local_subscribe local_run : x10.

(** Execute the monadic operations of a goal symbolically and normalise
    the trace. *)
Ltac py_exec :=
  cbv [bind ret emit print publish subscribe run get_rcvihc set_rcvihc runs_to] in *;
  simpl in *; rewrite <- ?app_assoc; simpl.

#[export] Hint Resolve runs_to_print runs_to_publish runs_to_subscribe : x10.
#[export] Hint Resolve runs_to_ret runs_to_emit runs_to_set runs_to_get runs_to_run : x10.

End Effects.
