(* ===== verification/Command.v ===== *)
(** * Command: the command path, [on_message] and [execute]

    [on_message] (src/x10mqtt.py lines 199-219) is the paho callback for a
    message on [cmdtopic/+]; it validates the payload and the housecode
    (the design's CommandValidator) and calls [execute] (lines 110-124,
    the BusCommandExecutor), which runs [heyu] and publishes the commanded
    state.

    The theorems give the effects of both on every branch: a valid command
    produces exactly one [heyu] run with the mode's action and exactly one
    retained state publish, whatever exit code [heyu] returns (a non-zero
    one is also logged); an invalid one produces two log lines and nothing
    else; and the validation accepts exactly the upper-cased payloads
    [ON]/[OFF] with a last topic segment that, upper-cased, is a housecode
    of the grammar or a housecode followed by a newline. *)

From S2P Require Import Prelude PyStr Regex Patterns Effects.
Open Scope string_scope.
Open Scope list_scope.
Open Scope py_scope.

Module Command.
Import Regex Patterns Effects.
Open Scope monad_scope.

Section Handlers.
Context (cfg : config).

(** The action word [execute] passes to [heyu]: [cmd] itself, replaced by
    [fon]/[foff] for the CM17 (lines 113-118); [heyu] gets it lower-cased. *)
Definition heyu_action (cmd : string) : string :=
  let heyucmd := cmd in
  let heyucmd := if cm17 cfg && String.eqb (py_lower cmd) "on" then "fon" else heyucmd in
  let heyucmd := if cm17 cfg && String.eqb (py_lower cmd) "off" then "foff" else heyucmd in
  py_lower heyucmd.

(** [stattopic+"/"+housecode.lower()] *)
Definition stat_topic (housecode : string) : string :=
  stattopic cfg +++ "/" +++ py_lower housecode.

(** [execute(client, cmd, housecode)]; [rc] is the exit code of [heyu]. *)
Definition execute (cmd housecode : string) (rc : Z) : PY Z :=
  result <- run ["heyu"; heyu_action cmd; py_lower housecode] rc ;;
  (if negb (Z.eqb result 0)
   then print ("Error running heyu, return code: " +++ py_str_Z result)
   else ret tt) ;;
  print ("Device Status Update: " +++ stat_topic housecode) ;;
  publish (stat_topic housecode) (py_upper cmd) true ;;
  ret result.

(** [command in ["ON", "OFF"]] *)
Definition valid_command (command : string) : bool :=
  existsb (String.eqb command) ["ON"; "OFF"].

(** [hc = topiclist[len(topiclist)-1].upper()] with
    [topiclist = topic.split("/")]. *)
Definition topic_housecode (topic : string) : string :=
  py_upper (py_last (py_split "/" topic)).

(** [on_message(client, userdata, message)]; the payload is the decoded
    [message.payload]; [rc] is the exit code [heyu] returns if it is run. *)
Definition on_message (topic payload : string) (rc : Z) : PY unit :=
  let command := py_upper payload in
  print ("Received: " +++ topic +++ " " +++ command) ;;
  let hc := topic_housecode topic in
  if valid_command command && hc_matches hc then
    print ("Sending X10 command to homecode " +++ hc) ;;
    _ <- execute command hc rc ;;
    ret tt
  else print "Invalid command or home code".

End Handlers.

(** ** Effects of [execute] *)

Section ExecuteSpec.
Context (cfg : config).

(** The log line [execute] prints for a non-zero exit code. *)
Definition error_log (rc : Z) : list event :=
  if Z.eqb rc 0 then [] else [EvPrint ("Error running heyu, return code: " +++ py_str_Z rc)].

(** The effects of [execute cmd hc] when [heyu] exits with [rc]. *)
Definition execute_events (cmd hc : string) (rc : Z) : list event :=
  EvRun ["heyu"; heyu_action cfg cmd; py_lower hc] rc :: error_log rc ++
  [EvPrint ("Device Status Update: " +++ stat_topic cfg hc);
   EvPublish (stat_topic cfg hc) (py_upper cmd) true].

(** [execute] runs [heyu] once, logs a non-zero exit code, publishes the
    commanded state, retained, whatever the exit code, returns the exit
    code and leaves [rcvihc] alone. *)
Theorem execute_runs cmd hc rc st :
  runs_to (execute cfg cmd hc rc) st rc (rcvihc st) (execute_events cmd hc rc).
Proof.
  unfold runs_to, execute_events, error_log, execute, bind, run, print, publish, emit, ret.
  destruct st as [g tr]. simpl.
  destruct (Z.eqb rc 0); simpl; now rewrite <- !app_assoc.
Qed.

(** C3: [execute cmd hc] runs [heyu] once with the mode's action and [hc]
    lower-cased, logs an error line when the exit code is not 0, then
    publishes the commanded state, retained, whatever the exit code, and
    returns the exit code (spec section 8, item 6). *)
Theorem execute_spec cmd hc rc st :
  runs_to (execute cfg cmd hc rc) st rc (rcvihc st) (execute_events cmd hc rc).
Proof. apply execute_runs. Qed.

(** The mode table: the action [heyu] receives for [ON] and [OFF]. *)
Lemma heyu_action_table :
  heyu_action cfg "ON" = (if cm17 cfg then "fon" else "on") /\
  heyu_action cfg "OFF" = (if cm17 cfg then "foff" else "off").
Proof. unfold heyu_action. destruct (cm17 cfg); split; reflexivity. Qed.

End ExecuteSpec.

(** ** Effects of [on_message] *)

Section OnMessageSpec.
Context (cfg : config).

Lemma valid_command_iff (command : string) :
  valid_command command = true <-> command = "ON" \/ command = "OFF".
Proof.
  unfold valid_command. simpl. rewrite orb_false_r.
  split; [intros H; apply orb_prop in H as [H|H] | intros [->| ->]; reflexivity];
    apply String.eqb_eq in H; auto.
Qed.

Lemma valid_command_upper (command : string) :
  valid_command command = true -> py_upper command = command.
Proof. intros H. apply valid_command_iff in H as [-> | ->]; reflexivity. Qed.

(** The housecode [on_message] extracts from [prefix + "/" + h]. *)
Lemma topic_housecode_suffix (prefix h : string) :
  all_chars (fun c => negb (Ascii.eqb c "/")) h = true ->
  topic_housecode (prefix +++ "/" +++ h) = py_upper h.
Proof.
  intros Hh. unfold topic_housecode. change ("/" +++ h) with (String "/" h).
  now rewrite py_last_split_suffix.
Qed.

(** A command message is handled when its payload, upper-cased, is [ON] or
    [OFF] and the last segment [h] of its topic, upper-cased, passes
    [hcpattern]: it is logged, [heyu] runs once with the mode's action on
    [h] lower-cased, and the commanded state is published once, retained,
    on [stattopic/h] lower-cased, whatever [heyu]'s exit code [rc]. *)
Lemma handle_command topic payload rc st prefix h :
  topic = prefix +++ "/" +++ h ->
  all_chars (fun c => negb (Ascii.eqb c "/")) h = true ->
  valid_command (py_upper payload) = true ->
  hc_matches (py_upper h) = true ->
  runs_to (on_message cfg topic payload rc) st tt (rcvihc st)
    ([EvPrint ("Received: " +++ topic +++ " " +++ py_upper payload);
      EvPrint ("Sending X10 command to homecode " +++ py_upper h);
      EvRun ["heyu"; heyu_action cfg (py_upper payload); py_lower (py_upper h)] rc] ++
     error_log rc ++
     [EvPrint ("Device Status Update: " +++ stat_topic cfg (py_upper h));
      EvPublish (stattopic cfg +++ "/" +++ py_lower (py_upper h)) (py_upper payload) true]).
Proof.
  intros -> Hh Hc Hm. unfold on_message.
  rewrite topic_housecode_suffix, Hc, Hm by exact Hh. simpl andb. cbv iota.
  pose proof (execute_runs cfg (py_upper payload) (py_upper h) rc) as He.
  unfold runs_to in *. destruct st as [g tr].
  unfold bind at 1. unfold print at 1, emit at 1. simpl rcvihc; simpl trace.
  unfold bind at 1. unfold print at 1, emit at 1. simpl rcvihc; simpl trace.
  unfold bind at 1. rewrite He. simpl. unfold ret. f_equal. f_equal.
  unfold execute_events. rewrite py_upper_idem. rewrite <- !app_assoc. reflexivity.
Qed.

(** C1: A command message on [prefix/h] whose payload, upper-cased, is [ON] or
    [OFF] and whose [h], upper-cased, passes [hcpattern] is logged, runs
    [heyu] exactly once with the mode's action on [h] lower-cased, and
    publishes the commanded state exactly once, retained, on [stattopic/h]
    lower-cased, whatever exit code [rc] [heyu] returns (spec section 8,
    item 1). *)
Theorem on_message_handles topic payload rc st prefix h :
  topic = prefix +++ "/" +++ h ->
  all_chars (fun c => negb (Ascii.eqb c "/")) h = true ->
  valid_command (py_upper payload) = true ->
  hc_matches (py_upper h) = true ->
  runs_to (on_message cfg topic payload rc) st tt (rcvihc st)
    ([EvPrint ("Received: " +++ topic +++ " " +++ py_upper payload);
      EvPrint ("Sending X10 command to homecode " +++ py_upper h);
      EvRun ["heyu"; heyu_action cfg (py_upper payload); py_lower (py_upper h)] rc] ++
     error_log rc ++
     [EvPrint ("Device Status Update: " +++ stat_topic cfg (py_upper h));
      EvPublish (stattopic cfg +++ "/" +++ py_lower (py_upper h)) (py_upper payload) true]).
Proof. apply handle_command. Qed.

(** C5: A command topic whose last segment is a housecode followed by a
    newline passes the validation: [heyu] is run on the housecode with the
    newline, and the state is published on a topic that ends in a newline. *)
Theorem on_message_newline_housecode topic payload rc st prefix h :
  topic = prefix +++ "/" +++ h +++ String Regex.newline "" ->
  all_chars (fun c => negb (Ascii.eqb c "/")) h = true ->
  valid_command (py_upper payload) = true ->
  is_hc (py_upper h) = true ->
  exists evs, runs_to (on_message cfg topic payload rc) st tt (rcvihc st) evs /\
    In (EvRun ["heyu"; heyu_action cfg (py_upper payload);
               py_lower (py_upper h) +++ String Regex.newline ""] rc) evs /\
    In (EvPublish (stattopic cfg +++ "/" +++ py_lower (py_upper h) +++ String Regex.newline "")
                  (py_upper payload) true) evs.
Proof.
  intros -> Hh Hc Hhc.
  assert (Hn : all_chars (fun c => negb (Ascii.eqb c "/")) (h +++ String Regex.newline "") = true)
    by (rewrite all_chars_append, Hh; reflexivity).
  assert (Hu : py_upper (h +++ String Regex.newline "") = py_upper h +++ String Regex.newline "")
    by (rewrite py_upper_append; reflexivity).
  assert (Hm : hc_matches (py_upper (h +++ String Regex.newline "")) = true)
    by (rewrite Hu; apply hcpattern_accepts; right; eauto).
  eexists. split; [exact (handle_command _ _ _ _ _ _ eq_refl Hn Hc Hm)|].
  rewrite Hu, py_lower_append. split; apply in_or_app.
  - left. right. right. left. reflexivity.
  - right. apply in_or_app. right. right. left. unfold stat_topic.
    reflexivity.
Qed.


(** C2: A message whose payload is not [ON]/[OFF] in any case, or whose
    housecode fails [hcpattern], is logged and dropped: two log lines, no
    [heyu] run, no publish, [rcvihc] unchanged (spec section 8, item 2). *)
Theorem on_message_rejects topic payload rc st :
  valid_command (py_upper payload) && hc_matches (topic_housecode topic) = false ->
  runs_to (on_message cfg topic payload rc) st tt (rcvihc st)
    [EvPrint ("Received: " +++ topic +++ " " +++ py_upper payload);
     EvPrint "Invalid command or home code"].
Proof.
  intros Hv. unfold on_message. rewrite Hv. destruct st as [g tr]. py_exec. reflexivity.
Qed.

(** A valid command reaches [heyu] as one of its four actions. *)
Lemma heyu_action_valid command :
  valid_command command = true -> In (heyu_action cfg command) ["on"; "off"; "fon"; "foff"].
Proof.
  intros H. destruct (heyu_action_table cfg) as [E1 E2].
  apply valid_command_iff in H as [-> | ->]; rewrite ?E1, ?E2; destruct (cm17 cfg); simpl; tauto.
Qed.

(** The effects of [on_message] on any message, valid or not. *)
Definition message_events (topic payload : string) (rc : Z) : list event :=
  let command := py_upper payload in
  let hc := topic_housecode topic in
  EvPrint ("Received: " +++ topic +++ " " +++ command) ::
  (if valid_command command && hc_matches hc
   then EvPrint ("Sending X10 command to homecode " +++ hc) :: execute_events cfg command hc rc
   else [EvPrint "Invalid command or home code"]).

(** [on_message] always returns, leaves [rcvihc] alone, and its effects
    depend on the message and [heyu]'s exit code only. *)
Lemma on_message_runs topic payload rc st :
  runs_to (on_message cfg topic payload rc) st tt (rcvihc st) (message_events topic payload rc).
Proof.
  unfold on_message, message_events.
  destruct (valid_command (py_upper payload) && hc_matches (topic_housecode topic)).
  - change (EvPrint ?a :: EvPrint ?b :: ?l) with ([EvPrint a] ++ [EvPrint b] ++ l).
    apply (runs_to_seq_keep _ _ _ tt); [apply runs_to_print|]. intros st1.
    apply (runs_to_seq_keep _ _ _ tt); [apply runs_to_print|]. intros st2.
    rewrite <- (app_nil_r (execute_events _ _ _ _)).
    apply (runs_to_seq_keep _ _ _ rc); [apply execute_runs | intros; apply runs_to_ret].
  - destruct st; py_exec; reflexivity.
Qed.

Lemma published_message_events topic payload rc :
  published (message_events topic payload rc) =
  if valid_command (py_upper payload) && hc_matches (topic_housecode topic)
  then [(stat_topic cfg (topic_housecode topic), py_upper (py_upper payload), true)] else [].
Proof.
  unfold message_events, execute_events, error_log.
  destruct (valid_command (py_upper payload) && hc_matches (topic_housecode topic)); [|reflexivity].
  destruct (Z.eqb rc 0); reflexivity.
Qed.

End OnMessageSpec.

(** ** The handlers on sample messages *)

Lemma on_message_handles_witness :
  exists g evs, runs_to (on_message sample_config "x10/cmd/a1" "on" 0) init_state tt g evs /\
    published evs = [("x10/stat/a1", "ON", true)].
Proof.
  do 2 eexists. split.
  - apply (on_message_handles sample_config _ _ _ _ "x10/cmd" "a1"); vm_compute; reflexivity.
  - vm_compute. reflexivity.
Defined.

Lemma on_message_rejects_witness :
  exists g evs, runs_to (on_message sample_config "x10/cmd/a1" "dim" 0) init_state tt g evs /\
    published evs = [].
Proof.
  do 2 eexists. split.
  - apply on_message_rejects. vm_compute. reflexivity.
  - reflexivity.
Defined.

Lemma on_message_newline_housecode_witness :
  exists evs, runs_to (on_message sample_config ("x10/cmd/a1" +++ String Regex.newline "") "on" 0)
                init_state tt "" evs /\
    In (EvRun ["heyu"; "on"; "a1" +++ String Regex.newline ""] 0) evs.
Proof.
  destruct (on_message_newline_housecode sample_config ("x10/cmd/a1" +++ String Regex.newline "")
              "on" 0 init_state "x10/cmd" "a1") as (evs & H1 & H2 & _);
    [vm_compute; reflexivity ..|].
  exists evs. split; [exact H1 | exact H2].
Defined.

End Command.
