(* ===== verification/Payload.v ===== *)
(** * Payload: [on_message] on the bytes paho delivers

    paho hands [on_message] (src/x10mqtt.py lines 199-219) a message whose
    [payload] is a [bytes] object and whose [topic] property decodes the
    topic's bytes as UTF-8.  Line 205 decodes the payload with
    [decode('utf-8')] and upper-cases the text, line 206 reads the topic;
    [Command.on_message] starts after both decodings, on text whose code
    points are below 256, with ASCII case maps.  This file runs the
    handler from the bytes: decoding, Python's [str.upper] on any code
    point, the split of the topic, the checks, and [execute] on the
    accepted command and housecode.  [str.upper] applies Unicode's full
    upper-case mapping code point by code point; the mapping is a table of
    the Unicode database, taken here as the Section variable [upper_cp],
    so every theorem holds for any table that maps the ASCII letters as
    ASCII does (checked over the 128 ASCII code points by [ascii_upper_ok]).

    The theorems: a payload or topic that is not well-formed UTF-8 makes
    the callback raise [UnicodeDecodeError] before it prints anything, so
    such a message is neither logged as invalid nor acted upon; whatever
    the bytes and the table, the handler only runs [heyu] with one of its
    four actions on a housecode that passes [hcpattern] and only publishes
    retained [ON]/[OFF] on such a housecode's state topic; when [heyu]
    cannot be started, [subprocess.run] raises [OSError] and the callback
    raises it after its two log lines, with nothing published; on ASCII
    bytes, when [heyu] runs, the handler is [Command.on_message]; and, by
    the table's entries
    for U+FB00 (the ligature ﬀ, upper-cased to [FF]) and U+0131 (dotless
    i, upper-cased to [I]), the payload [oﬀ] on a topic ending in [ı1] is
    accepted as [OFF] for housecode [I1]. *)

From S2P Require Import Prelude PyStr Regex Patterns Effects Utf8 Command.
From Stdlib Require Import Strings.Byte.
Open Scope string_scope.
Open Scope list_scope.
Open Scope py_scope.

Module Payload.
Import Patterns Effects Utf8 Command.
Open Scope monad_scope.

(** ** Text *)

(** A [str] after decoding: its code points. *)
Definition text := list Z.

(** A [string] of the string-level model as text: each character is the
    code point of its value. *)
Definition text_of_string (s : string) : text := map byte_val (list_byte_of_string s).

(** Text whose code points are below 256 as a [string]. *)
Definition string_of_text (t : text) : string := string_of_list_byte (map byte_of_val t).

(** What [print] and [client.publish] write for a text: its UTF-8 bytes. *)
Definition render (t : text) : string := string_of_text (encode t).

Definition text_eqb (a b : text) : bool := if list_eq_dec Z.eq_dec a b then true else false.

(** [t.split(chr(sep))]: as [PyStr.py_split], on code points. *)
Fixpoint text_split (sep : Z) (t : text) : list text :=
  match t with
  | [] => [[]]
  | c :: t' =>
      let r := text_split sep t' in
      if c =? sep then [] :: r
      else match r with
           | [] => [[c]]
           | h :: tl => (c :: h) :: tl
           end
  end.

(** [l[len(l)-1]] *)
Definition text_last (l : list text) : text := nth (length l - 1) l [].

(** [command in ["ON", "OFF"]] *)
Definition text_valid_command (command : text) : bool :=
  existsb (text_eqb command) [text_of_string "ON"; text_of_string "OFF"].

(** [hcpattern.match(hc)] on text.  The pattern [^[A-P][0-9]+$] is
    anchored at the start, its classes hold ASCII code points only, and
    its [$] matches only at the end or before a final newline: every code
    point of a matching text is ASCII, and on ASCII text the matcher of
    [Regex] decides. *)
Definition text_hc_matches (hc : text) : bool :=
  forallb (fun c => c <=? 0x7F) hc && hc_matches (string_of_text hc).

(** The exceptions a callback raises: a payload or topic that is not
    UTF-8 (line 205), or [subprocess.run] unable to start [heyu] (line
    119: [FileNotFoundError] when it is not installed, [PermissionError]
    when it is not executable, both [OSError]s). *)
Inductive exn := UnicodeDecodeError | OSError.

(** What [subprocess.run(["heyu", ...])] does: the process completes with
    its exit code, or the call raises [OSError]. *)
Inductive run_answer := Completed (rc : Z) | RunRaised.

(** How a callback ends: it returns, or it raises into paho's loop. *)
Inductive outcome := Returned | Raised (e : exn).

(** [upper_cp] maps each ASCII code point as [PyStr.char_upper] does. *)
Definition ascii_upper_ok (upper_cp : Z -> text) : bool :=
  forallb (fun n => text_eqb (upper_cp (Z.of_nat n))
                             (text_of_string (String (char_upper (ascii_of_nat n)) "")))
          (seq 0 128).

Section Handler.
Context (cfg : config).
(** [upper_cp c]: the code points of [chr(c).upper()]. *)
Context (upper_cp : Z -> text).

(** [s.upper()] on text. *)
Definition text_upper (t : text) : text := flat_map upper_cp t.

(** [result = execute(client, command, hc)] (line 217): [execute] when
    [subprocess.run] completes; when it raises, the exception leaves
    [execute] at line 119, before [execute] has had any effect (lines
    113-118 only compute [heyucmd]), and leaves [on_message] with it. *)
Definition call_execute (command hc : string) (ans : run_answer) : PY outcome :=
  match ans with
  | Completed rc => _ <- execute cfg command hc rc ;; ret Returned
  | RunRaised => ret (Raised OSError)
  end.

(** [on_message(client, userdata, message)] from the message's bytes;
    [ans] is what [subprocess.run] does if [heyu] is run. *)
Definition on_message_bytes (topic payload : list byte) (ans : run_answer) : PY outcome :=
  match utf8_decode payload with
  | None => ret (Raised UnicodeDecodeError)
  | Some ptext =>
      let command := text_upper ptext in
      match utf8_decode topic with
      | None => ret (Raised UnicodeDecodeError)
      | Some ttext =>
          print ("Received: " +++ render ttext +++ " " +++ render command) ;;
          let hc := text_upper (text_last (text_split 47 ttext)) in
          if text_valid_command command && text_hc_matches hc then
            print ("Sending X10 command to homecode " +++ render hc) ;;
            call_execute (string_of_text command) (string_of_text hc) ans
          else print "Invalid command or home code" ;; ret Returned
      end
  end.

End Handler.

(** ** Text of a string *)

(** A character of the string-level model is ASCII. *)
Definition is_ascii : ascii -> bool := in_range 0 127.

Definition code (a : ascii) : Z := byte_val (byte_of_ascii a).

Lemma code_nat a : code a = Z.of_nat (nat_of_ascii a).
Proof.
  unfold code, byte_val. pose proof (byte_of_ascii_via_nat a) as H.
  symmetry in H. apply Byte.to_of_nat in H. now rewrite Byte.to_N_via_nat, H, nat_N_Z.
Qed.

Lemma code_inj a b : code a = code b -> a = b.
Proof.
  rewrite !code_nat. intros H. apply Nat2Z.inj in H.
  now rewrite <- (ascii_nat_embedding a), H, ascii_nat_embedding.
Qed.

Lemma text_of_string_cons a s : text_of_string (String a s) = code a :: text_of_string s.
Proof. reflexivity. Qed.

Lemma string_of_text_of_string s : string_of_text (text_of_string s) = s.
Proof.
  unfold string_of_text, text_of_string. rewrite map_map, (map_ext _ id), map_id
    by exact byte_of_val_val.
  apply string_of_list_byte_of_string.
Qed.

Lemma text_eqb_string a b : text_eqb (text_of_string a) (text_of_string b) = String.eqb a b.
Proof.
  unfold text_eqb. destruct (list_eq_dec Z.eq_dec _ _) as [E|E], (String.eqb_spec a b);
    subst; try reflexivity.
  - apply (f_equal string_of_text) in E. rewrite !string_of_text_of_string in E. contradiction.
  - contradiction.
Qed.

Lemma text_ascii s :
  all_chars is_ascii s = true -> Forall (fun z => 0 <= z <= 0x7F)%Z (text_of_string s).
Proof.
  induction s as [|a s IH]; [constructor|]. simpl all_chars. intros H.
  apply andb_prop in H as [Ha Hs]. rewrite text_of_string_cons. constructor; auto.
  unfold is_ascii, in_range in Ha. apply andb_prop in Ha as [_ Ha].
  apply Nat.leb_le in Ha. rewrite code_nat. lia.
Qed.

Lemma encode_ascii t : Forall (fun z => 0 <= z <= 0x7F)%Z t -> encode t = t.
Proof.
  induction 1 as [|c t Hc _ IH]; [reflexivity|].
  unfold encode. cbn [flat_map]. fold (encode t). rewrite IH. unfold encode_char. now zdecide.
Qed.

Lemma render_ascii s : all_chars is_ascii s = true -> render (text_of_string s) = s.
Proof.
  intros H. unfold render. rewrite encode_ascii by now apply text_ascii.
  apply string_of_text_of_string.
Qed.

Lemma text_valid_command_string c : text_valid_command (text_of_string c) = valid_command c.
Proof. unfold text_valid_command, valid_command. simpl. now rewrite !text_eqb_string. Qed.

Lemma text_hc_matches_string hc :
  all_chars is_ascii hc = true -> text_hc_matches (text_of_string hc) = hc_matches hc.
Proof.
  intros H. unfold text_hc_matches. rewrite string_of_text_of_string.
  replace (forallb _ _) with true; [reflexivity|]. symmetry. apply forallb_forall.
  intros z Hz. apply (proj1 (Forall_forall _ _) (text_ascii hc H)) in Hz. apply Z.leb_le. lia.
Qed.

(** The pieces of a string's text are the texts of its pieces. *)
Lemma text_split_string s : text_split 47 (text_of_string s) = map text_of_string (py_split "/" s).
Proof.
  induction s as [|a s IH]; [reflexivity|]. rewrite text_of_string_cons. cbn [text_split py_split].
  rewrite IH. destruct (Ascii.eqb_spec a "/") as [->|Hne]; [reflexivity|].
  rewrite (proj2 (Z.eqb_neq _ _)) by (intros E; apply Hne, code_inj, E).
  now destruct (py_split "/" s).
Qed.

Lemma text_last_string l : text_last (map text_of_string l) = text_of_string (py_last l).
Proof.
  unfold text_last, py_last. rewrite length_map. change [] with (text_of_string "").
  apply map_nth.
Qed.

Lemma py_split_all_chars p sep s :
  all_chars p s = true -> Forall (fun x => all_chars p x = true) (py_split sep s).
Proof.
  induction s as [|a s IH]; simpl; [now repeat constructor|].
  intros H. apply andb_prop in H as [Ha Hs]. specialize (IH Hs).
  destruct (Ascii.eqb a sep); [now constructor|].
  destruct (py_split sep s) as [|h t]; inversion IH; subst; constructor; simpl;
    rewrite ?Ha; auto.
Qed.

Lemma py_last_all_chars p l :
  Forall (fun x => all_chars p x = true) l -> all_chars p (py_last l) = true.
Proof.
  intros H. unfold py_last. destruct (Nat.lt_ge_cases (length l - 1) (length l)).
  - exact (proj1 (Forall_forall _ _) H _ (nth_In _ _ H0)).
  - now rewrite nth_overflow.
Qed.

Lemma py_upper_ascii s : all_chars is_ascii s = true -> all_chars is_ascii (py_upper s) = true.
Proof.
  unfold py_upper. rewrite <- all_chars_smap. apply all_chars_impl.
  apply (ascii_forall_impl is_ascii (fun c => is_ascii (char_upper c))). vm_compute. reflexivity.
Qed.

Section AsciiTable.
Context (upper_cp : Z -> text) (Hup : ascii_upper_ok upper_cp = true).

Lemma upper_cp_ascii a : is_ascii a = true -> upper_cp (code a) = [code (char_upper a)].
Proof.
  intros Ha. unfold ascii_upper_ok in Hup. rewrite forallb_forall in Hup.
  assert (Hin : In (nat_of_ascii a) (seq 0 128)).
  { apply in_seq. unfold is_ascii, in_range in Ha. apply andb_prop in Ha as [_ Ha].
    apply Nat.leb_le in Ha. lia. }
  specialize (Hup _ Hin). unfold text_eqb in Hup.
  destruct (list_eq_dec Z.eq_dec _ _) as [E|]; [|discriminate].
  rewrite code_nat, E, ascii_nat_embedding. reflexivity.
Qed.

Lemma text_upper_string s :
  all_chars is_ascii s = true -> text_upper upper_cp (text_of_string s) = text_of_string (py_upper s).
Proof.
  induction s as [|a s IH]; [reflexivity|]. simpl all_chars. intros H.
  apply andb_prop in H as [Ha Hs]. rewrite text_of_string_cons. unfold text_upper in *.
  cbn [flat_map]. rewrite upper_cp_ascii, IH by assumption. reflexivity.
Qed.

End AsciiTable.

(** ** The last segment of a topic *)

Lemma text_split_nonempty sep t : text_split sep t <> [].
Proof.
  destruct t as [|c t]; cbn [text_split]; [discriminate|].
  destruct (c =? sep); [discriminate|]. destruct (text_split sep t); discriminate.
Qed.

Lemma text_split_sep sep p h :
  text_split sep (p ++ sep :: h) = text_split sep p ++ text_split sep h.
Proof.
  induction p as [|c p IH]; cbn [app text_split]; [now rewrite Z.eqb_refl|].
  rewrite IH. destruct (c =? sep); [reflexivity|].
  destruct (text_split sep p) eqn:E; [now destruct (text_split_nonempty sep p) | reflexivity].
Qed.

Lemma text_split_no_sep sep h : ~ In sep h -> text_split sep h = [h].
Proof.
  induction h as [|c h IH]; cbn [text_split In]; [reflexivity|].
  intros Hn. rewrite IH by tauto. now rewrite (proj2 (Z.eqb_neq c sep)) by (intros ->; tauto).
Qed.

(** The last segment of [p + "/" + h], for [h] without a slash, is [h]. *)
Lemma text_last_suffix p h : ~ In 47%Z h -> text_last (text_split 47 (p ++ 47%Z :: h)) = h.
Proof.
  intros Hh. rewrite text_split_sep, (text_split_no_sep _ h Hh). unfold text_last.
  rewrite length_app, app_nth2 by (simpl; lia). simpl. now replace (_ - _)%nat with 0%nat by lia.
Qed.

(** ** The effects a command message may have *)

(** The effects the code gives a command message: log lines, [heyu] runs
    with one of the four actions on a lower-cased housecode that passes
    [hcpattern], and retained [ON]/[OFF] publishes on the state topic of
    such a housecode. *)
Definition command_effect_ok (cfg : config) (e : event) : Prop :=
  match e with
  | EvPrint _ => True
  | EvRun argv _ =>
      exists a hc, argv = ["heyu"; a; py_lower hc] /\ In a ["on"; "off"; "fon"; "foff"] /\
                   hc_matches hc = true
  | EvPublish t p r =>
      exists hc, t = stat_topic cfg hc /\ (p = "ON" \/ p = "OFF") /\ r = true /\ hc_matches hc = true
  | _ => False
  end.

Lemma execute_events_ok cfg cmd hc rc :
  valid_command cmd = true -> hc_matches hc = true ->
  Forall (command_effect_ok cfg) (execute_events cfg cmd hc rc).
Proof.
  intros Hc Hh. unfold execute_events. constructor.
  - exists (heyu_action cfg cmd), hc. auto using heyu_action_valid.
  - apply Forall_app. split; [unfold error_log; destruct (rc =? 0)%Z; repeat constructor|].
    repeat constructor. exists hc. rewrite valid_command_upper by exact Hc.
    apply valid_command_iff in Hc. auto.
Qed.

Lemma text_valid_command_string_of t :
  text_valid_command t = true -> valid_command (string_of_text t) = true.
Proof.
  unfold text_valid_command. simpl. unfold text_eqb.
  destruct (list_eq_dec Z.eq_dec t _) as [->|_]; [reflexivity|].
  destruct (list_eq_dec Z.eq_dec t _) as [->|_]; [reflexivity | discriminate].
Qed.

Lemma text_hc_matches_string_of t : text_hc_matches t = true -> hc_matches (string_of_text t) = true.
Proof. unfold text_hc_matches. intros H. now apply andb_prop in H as [_ H]. Qed.

(** ** The handler on every kind of message *)

Section HandlerSpec.
Context (cfg : config) (upper_cp : Z -> text).

Lemma decode_raises topic payload ans st :
  utf8_decode payload = None \/ utf8_decode topic = None ->
  runs_to (on_message_bytes cfg upper_cp topic payload ans) st
    (Raised UnicodeDecodeError) (rcvihc st) [].
Proof.
  intros H. unfold on_message_bytes, runs_to, ret. destruct st as [g tr].
  rewrite app_nil_r. destruct H as [-> | ->]; [reflexivity|].
  now destruct (utf8_decode payload).
Qed.

(** C6: A message whose payload or topic is not well-formed UTF-8 makes
    [on_message] raise [UnicodeDecodeError] before it does anything: no
    log line, not even [Invalid command or home code], no [heyu] run, no
    publish, [rcvihc] unchanged. *)
Theorem on_message_bytes_undecodable topic payload ans st :
  utf8_decode payload = None \/ utf8_decode topic = None ->
  runs_to (on_message_bytes cfg upper_cp topic payload ans) st
    (Raised UnicodeDecodeError) (rcvihc st) [].
Proof. apply decode_raises. Qed.

Lemma ascii_message topic payload rc st :
  ascii_upper_ok upper_cp = true ->
  all_chars is_ascii topic = true -> all_chars is_ascii payload = true ->
  on_message_bytes cfg upper_cp (list_byte_of_string topic) (list_byte_of_string payload) (Completed rc) st
  = (Returned, snd (on_message cfg topic payload rc st)).
Proof.
  intros Hup Ht Hp. unfold on_message_bytes, utf8_decode.
  change (map byte_val (list_byte_of_string payload)) with (text_of_string payload).
  change (map byte_val (list_byte_of_string topic)) with (text_of_string topic).
  rewrite !decode_ascii by (apply text_ascii; assumption).
  pose proof (py_last_all_chars _ _ (py_split_all_chars _ "/" _ Ht)) as Hh.
  rewrite text_split_string, text_last_string, !text_upper_string by assumption.
  rewrite text_valid_command_string, text_hc_matches_string by (apply py_upper_ascii; assumption).
  rewrite !render_ascii by (try apply py_upper_ascii; assumption).
  rewrite !string_of_text_of_string.
  unfold on_message, topic_housecode, call_execute. cbv zeta. unfold bind, print, emit, ret.
  destruct (_ && _); [destruct (execute _ _ _ _ _)|]; reflexivity.
Qed.

Lemma unicode_case_accepted prefix rc st :
  Forall (fun c => scalar c = true) prefix ->
  upper_cp 111 = [79] -> upper_cp 0xFB00 = [70; 70] ->
  upper_cp 0x131 = [73] -> upper_cp 49 = [49] ->
  exists evs,
    runs_to (on_message_bytes cfg upper_cp (utf8_encode (prefix ++ [47; 0x131; 49]))
                              (utf8_encode [111; 0xFB00]) (Completed rc))
      st Returned (rcvihc st) evs /\
    In (EvRun ["heyu"; heyu_action cfg "OFF"; "i1"] rc) evs /\
    In (EvPublish (stattopic cfg +++ "/i1") "OFF" true) evs.
Proof.
  intros Hp Ho Hff Hi H1. unfold on_message_bytes.
  rewrite !decode_utf8_encode by (try apply Forall_app; repeat constructor; assumption).
  rewrite text_last_suffix by (simpl; lia).
  unfold text_upper. cbn [flat_map app]. rewrite Ho, Hff, Hi, H1. cbn [app].
  replace (text_valid_command _ && text_hc_matches _) with true by (vm_compute; reflexivity).
  replace (string_of_text [79; 70; 70]) with "OFF" by reflexivity.
  replace (string_of_text [73; 49]) with "I1" by reflexivity.
  unfold call_execute. pose proof (execute_runs cfg "OFF" "I1" rc) as He. unfold runs_to in *.
  destruct st as [g tr]. unfold bind at 1, print at 1, emit at 1. simpl rcvihc; simpl trace.
  unfold bind at 1, print at 1, emit at 1. simpl rcvihc; simpl trace.
  unfold bind at 1. rewrite He. unfold ret. simpl. eexists. split.
  - rewrite <- !app_assoc. reflexivity.
  - split; do 2 (apply in_or_app; right); unfold execute_events; [left; reflexivity|].
    right. apply in_or_app. right. right. left. reflexivity.
Qed.

(** C7: Python's [str.upper] is Unicode's: by its entries for U+FB00 (the
    ligature ﬀ, upper-cased to [FF]) and U+0131 (dotless i, upper-cased to
    [I]), the payload [oﬀ] on a topic whose last segment is [ı1] passes
    the validation as [OFF] for housecode [I1]: [heyu] switches [i1] off
    and [OFF] is published, retained, on [stattopic/i1], though neither
    the payload nor the segment is [ON]/[OFF] or a housecode in ASCII. *)
Theorem on_message_bytes_unicode_case prefix rc st :
  Forall (fun c => scalar c = true) prefix ->
  upper_cp 111 = [79] -> upper_cp 0xFB00 = [70; 70] ->
  upper_cp 0x131 = [73] -> upper_cp 49 = [49] ->
  exists evs,
    runs_to (on_message_bytes cfg upper_cp (utf8_encode (prefix ++ [47; 0x131; 49]))
                              (utf8_encode [111; 0xFB00]) (Completed rc))
      st Returned (rcvihc st) evs /\
    In (EvRun ["heyu"; heyu_action cfg "OFF"; "i1"] rc) evs /\
    In (EvPublish (stattopic cfg +++ "/i1") "OFF" true) evs.
Proof. apply unicode_case_accepted. Qed.

Lemma message_bytes_safe topic payload ans st :
  exists o evs, runs_to (on_message_bytes cfg upper_cp topic payload ans) st o (rcvihc st) evs /\
    Forall (command_effect_ok cfg) evs.
Proof.
  unfold on_message_bytes, call_execute. cbv zeta.
  destruct (utf8_decode payload) as [ptext|];
    [|exists (Raised UnicodeDecodeError), []; split; [apply runs_to_ret | constructor]].
  destruct (utf8_decode topic) as [ttext|];
    [|exists (Raised UnicodeDecodeError), []; split; [apply runs_to_ret | constructor]].
  destruct (_ && _) eqn:E; [destruct ans as [rc|]|]; eexists; eexists; split.
  - apply (runs_to_seq_keep _ _ _ tt); [apply runs_to_print|]. intros st1.
    apply (runs_to_seq_keep _ _ _ tt); [apply runs_to_print|]. intros st2.
    apply (runs_to_seq_keep _ _ _ rc); [apply execute_runs | intros; apply runs_to_ret].
  - apply andb_prop in E as [Ec Eh]. rewrite !Forall_app.
    split; [repeat constructor|]. split; [repeat constructor|]. split; [|constructor].
    apply execute_events_ok; [apply text_valid_command_string_of | apply text_hc_matches_string_of];
      assumption.
  - apply (runs_to_seq_keep _ _ _ tt); [apply runs_to_print|]. intros st1.
    apply (runs_to_seq_keep _ _ _ tt); [apply runs_to_print | intros; apply runs_to_ret].
  - repeat constructor.
  - apply (runs_to_seq_keep _ _ _ tt); [apply runs_to_print|]. intros st1.
    apply (runs_to_seq_keep _ _ _ tt); [apply runs_to_print | intros; apply runs_to_ret].
  - repeat constructor.
Qed.

(** C8: Whatever bytes a message carries, whatever Unicode's case table says
    and whether [subprocess.run] completes or raises, [on_message] leaves
    [rcvihc] alone and has only the effects the code intends: log lines,
    [heyu] runs with [on], [off], [fon] or [foff] on a lower-cased
    housecode that passes [hcpattern], and retained [ON]/[OFF] publishes
    on the state topic of such a housecode. *)
Theorem on_message_bytes_safe topic payload ans st :
  exists o evs, runs_to (on_message_bytes cfg upper_cp topic payload ans) st o (rcvihc st) evs /\
    Forall (command_effect_ok cfg) evs.
Proof. apply message_bytes_safe. Qed.

(** The outcome and the effects of [on_message] on a message, as a
    function of the message and of what [subprocess.run] does. *)
Definition message_bytes_result (topic payload : list byte) (ans : run_answer)
  : outcome * list event :=
  match utf8_decode payload with
  | None => (Raised UnicodeDecodeError, [])
  | Some ptext =>
      let command := text_upper upper_cp ptext in
      match utf8_decode topic with
      | None => (Raised UnicodeDecodeError, [])
      | Some ttext =>
          let hc := text_upper upper_cp (text_last (text_split 47 ttext)) in
          let received := EvPrint ("Received: " +++ render ttext +++ " " +++ render command) in
          if text_valid_command command && text_hc_matches hc then
            let sending := EvPrint ("Sending X10 command to homecode " +++ render hc) in
            match ans with
            | Completed rc =>
                (Returned, received :: sending ::
                           execute_events cfg (string_of_text command) (string_of_text hc) rc)
            | RunRaised => (Raised OSError, [received; sending])
            end
          else (Returned, [received; EvPrint "Invalid command or home code"])
      end
  end.

(** [on_message] never touches [rcvihc], and its outcome and effects
    depend on the message and [subprocess.run]'s answer only. *)
Lemma on_message_bytes_runs topic payload ans st :
  runs_to (on_message_bytes cfg upper_cp topic payload ans) st
    (fst (message_bytes_result topic payload ans)) (rcvihc st)
    (snd (message_bytes_result topic payload ans)).
Proof.
  unfold on_message_bytes, message_bytes_result, call_execute. cbv zeta.
  destruct (utf8_decode payload); [|apply runs_to_ret].
  destruct (utf8_decode topic); [|apply runs_to_ret].
  destruct (_ && _); [destruct ans as [rc|]|]; cbn [fst snd];
    change (EvPrint ?a :: ?l) with ([EvPrint a] ++ l);
    apply (runs_to_seq_keep _ _ _ tt); try apply runs_to_print; intros st1;
    change (EvPrint ?a :: ?l) with ([EvPrint a] ++ l);
    apply (runs_to_seq_keep _ _ _ tt); try apply runs_to_print; intros st2;
    try apply runs_to_ret.
  rewrite <- (app_nil_r (execute_events _ _ _ _)).
  apply (runs_to_seq_keep _ _ _ rc); [apply execute_runs | intros; apply runs_to_ret].
Qed.

Lemma message_bytes_result_ok topic payload ans :
  Forall (command_effect_ok cfg) (snd (message_bytes_result topic payload ans)).
Proof.
  unfold message_bytes_result. cbv zeta.
  destruct (utf8_decode payload); [|constructor]. destruct (utf8_decode topic); [|constructor].
  destruct (_ && _) eqn:E; [destruct ans as [rc|]|]; cbn [snd]; try (repeat constructor; fail).
  apply andb_prop in E as [Ec Eh]. do 2 (constructor; [exact I|]).
  apply execute_events_ok; [apply text_valid_command_string_of | apply text_hc_matches_string_of];
    assumption.
Qed.

(** A command that passes the checks when [heyu] cannot be started. *)
Lemma run_raised_events topic payload ptext ttext st :
  utf8_decode payload = Some ptext -> utf8_decode topic = Some ttext ->
  text_valid_command (text_upper upper_cp ptext) &&
  text_hc_matches (text_upper upper_cp (text_last (text_split 47 ttext))) = true ->
  runs_to (on_message_bytes cfg upper_cp topic payload RunRaised) st (Raised OSError) (rcvihc st)
    [EvPrint ("Received: " +++ render ttext +++ " " +++ render (text_upper upper_cp ptext));
     EvPrint ("Sending X10 command to homecode " +++
              render (text_upper upper_cp (text_last (text_split 47 ttext))))].
Proof.
  intros Hp Ht Hv. pose proof (on_message_bytes_runs topic payload RunRaised st) as H.
  unfold message_bytes_result in H. rewrite Hp, Ht in H. cbv zeta in H. now rewrite Hv in H.
Qed.

(** C14: When [heyu] cannot be started ([subprocess.run] raises [OSError]),
    a command that passes the checks is logged as received and as sent,
    and then the callback raises [OSError]: no [heyu] run is recorded and
    no state is published, where a [heyu] that runs and fails still has
    its state published. *)
Theorem on_message_bytes_heyu_missing topic payload ptext ttext st :
  utf8_decode payload = Some ptext -> utf8_decode topic = Some ttext ->
  text_valid_command (text_upper upper_cp ptext) &&
  text_hc_matches (text_upper upper_cp (text_last (text_split 47 ttext))) = true ->
  runs_to (on_message_bytes cfg upper_cp topic payload RunRaised) st (Raised OSError) (rcvihc st)
    [EvPrint ("Received: " +++ render ttext +++ " " +++ render (text_upper upper_cp ptext));
     EvPrint ("Sending X10 command to homecode " +++
              render (text_upper upper_cp (text_last (text_split 47 ttext))))].
Proof. apply run_raised_events. Qed.

End HandlerSpec.

(** ** Examples *)

(** A case table with the two entries the examples use, as Unicode has
    them, and the ASCII letters. *)
Definition sample_upper (c : Z) : text :=
  if c =? 0x131 then [73] else if c =? 0xFB00 then [70; 70]
  else if (97 <=? c) && (c <=? 122) then [c - 32] else [c].

Lemma on_message_bytes_undecodable_witness :
  (utf8_decode [xc0; xaf] = None \/ utf8_decode (list_byte_of_string "x10/cmd/A1") = None) /\
  runs_to (on_message_bytes sample_config sample_upper (list_byte_of_string "x10/cmd/A1")
                            [xc0; xaf] (Completed 0))
    init_state (Raised UnicodeDecodeError) (rcvihc init_state) [].
Proof. split; [left; reflexivity | apply on_message_bytes_undecodable; left; reflexivity]. Defined.

Lemma on_message_bytes_unicode_case_witness :
  exists evs,
    runs_to (on_message_bytes sample_config sample_upper
               (utf8_encode (text_of_string "x10/cmd" ++ [47; 0x131; 49]))
               (utf8_encode [111; 0xFB00]) (Completed 0))
      init_state Returned (rcvihc init_state) evs /\
    In (EvRun ["heyu"; heyu_action sample_config "OFF"; "i1"] 0) evs /\
    In (EvPublish (stattopic sample_config +++ "/i1") "OFF" true) evs.
Proof.
  apply (on_message_bytes_unicode_case sample_config sample_upper (text_of_string "x10/cmd"));
    [simpl; repeat constructor | reflexivity ..].
Defined.

Lemma on_message_bytes_heyu_missing_witness :
  runs_to (on_message_bytes sample_config sample_upper (list_byte_of_string "x10/cmd/A1")
                            (list_byte_of_string "on") RunRaised)
    init_state (Raised OSError) (rcvihc init_state)
    [EvPrint ("Received: " +++ render (text_of_string "x10/cmd/A1") +++ " " +++
              render (text_upper sample_upper (text_of_string "on")));
     EvPrint ("Sending X10 command to homecode " +++
              render (text_upper sample_upper (text_last (text_split 47 (text_of_string "x10/cmd/A1")))))].
Proof.
  apply (on_message_bytes_heyu_missing sample_config sample_upper _ _
           (text_of_string "on") (text_of_string "x10/cmd/A1")); reflexivity.
Defined.

End Payload.
