(* ===== verification/Monitor.v ===== *)
(** * Monitor: the bus-monitor flow, [rcviaddr], [rcvifunc] and the main loop

    The main thread of src/x10mqtt.py runs [heyu monitor] through the
    generator [monitor] (lines 133-141) and, for every line, searches it
    with [rercviaddr] and [rercvifunc] (lines 281-287): an address line
    stores its housecode in the global [rcvihc] ([rcviaddr], lines
    158-161), a function line publishes the function for the stored
    housecode and clears it ([rcvifunc], lines 171-176).

    - [LineRecognizer] is the interface the loop needs from the patterns:
      the text of [group(1)] of each search, with the guarantee that an
      address is a housecode of the grammar and a function is [On]/[Off].
      The loop's theorems are proved against it; [heyu_lines] is the
      instance built from [Patterns.rercviaddr] and [Patterns.rercvifunc].
    - [phase] and [spec_step] are the design's two-state automaton
      (WAIT_ADDRESS / HAVE_ADDRESS, spec section 4.2).  [step_simulation]
      and [loop_simulation] show that the code implements it: [rcvihc]
      empty is WAIT_ADDRESS, [rcvihc = h] is HAVE_ADDRESS [h], and the
      trace receives exactly the publications of the automaton's events.
    - the invariant: [rcvihc] is always empty or a housecode of the
      grammar; [main_step_ok] is its one-line form, and [local_main_step]
      shows that a step depends on [rcvihc] only, which [System] uses to
      interleave the monitor with the network callbacks.
    - [monitor_loop] adds the generator's start ([monitor_spawn]) and end
      ([monitor_end]): the [heyu monitor] process is spawned, every line
      is processed, and at the end
      a zero exit code ends the loop normally while a non-zero one raises
      [NameError] (line 140 names [cmd], which is not defined there). *)

From S2P Require Import Prelude PyStr Regex Patterns Effects.
Open Scope string_scope.
Open Scope list_scope.
Open Scope py_scope.

Module Monitor.
Import Regex Patterns Effects.
Open Scope monad_scope.

(** ** The interface between the patterns and the loop *)

Class LineRecognizer := {
  addr_of : string -> option string;   (** [str(rercviaddr.search(line).group(1))] *)
  func_of : string -> option string;   (** [str(rercvifunc.search(line).group(1))] *)
  addr_of_hc : forall line h, addr_of line = Some h -> is_hc h = true;
  func_of_word : forall line f, func_of line = Some f -> is_func_word f
}.

(** ** The code *)

Section Loop.
Context `{LR : LineRecognizer} (cfg : config).

(** [rcviaddr(housecode)] *)
Definition rcviaddr (housecode : string) : PY unit := set_rcvihc housecode.

(** [rcvifunc(client, func)] *)
Definition rcvifunc (func : string) : PY unit :=
  hc <- get_rcvihc ;;
  if negb (String.eqb hc "") then
    print ("Remote status change, publishing stat update: " +++ stattopic cfg +++ "/" +++
           py_lower hc +++ " is now " +++ py_upper func) ;;
    publish (stattopic cfg +++ "/" +++ py_lower hc) (py_upper func) true ;;
    set_rcvihc ""
  else ret tt.

(** The body of [for line in monitor(): ...] (lines 282-287). *)
Definition main_step (line : string) : PY unit :=
  (match addr_of line with Some h => rcviaddr h | None => ret tt end) ;;
  (match func_of line with Some f => rcvifunc f | None => ret tt end).

Definition main_loop (lines : list string) : PY unit := for_each main_step lines.

End Loop.

(** ** The design's automaton (spec section 4.2) *)

Inductive phase := WAIT_ADDRESS | HAVE_ADDRESS (hc : string).

(** One line, given what the two recognizers report: an address line
    moves to HAVE_ADDRESS (overwriting a pending address); then a function
    line in HAVE_ADDRESS emits (housecode, FUNCTION) and returns to
    WAIT_ADDRESS; in WAIT_ADDRESS a function line is dropped. *)
Definition spec_step (p : phase) (a f : option string) : phase * option (string * string) :=
  let p1 := match a with Some h => HAVE_ADDRESS h | None => p end in
  match f, p1 with
  | Some fn, HAVE_ADDRESS h => (WAIT_ADDRESS, Some (h, py_upper fn))
  | _, _ => (p1, None)
  end.

Section Spec.
Context `{LR : LineRecognizer} (cfg : config).

Fixpoint spec_run (p : phase) (lines : list string) : phase * list (string * string) :=
  match lines with
  | [] => (p, [])
  | l :: ls =>
      let '(p1, ev) := spec_step p (addr_of l) (func_of l) in
      let '(p2, evs) := spec_run p1 ls in
      (p2, match ev with Some e => e :: evs | None => evs end)
  end.

(** The effects of publishing one event of the automaton (lines 172-173). *)
Definition publication (e : string * string) : list event :=
  let '(h, c) := e in
  [EvPrint ("Remote status change, publishing stat update: " +++ stattopic cfg +++ "/" +++
            py_lower h +++ " is now " +++ c);
   EvPublish (stattopic cfg +++ "/" +++ py_lower h) c true].

(** The abstraction of the global: empty is WAIT_ADDRESS. *)
Definition phase_of (g : string) : phase :=
  if String.eqb g "" then WAIT_ADDRESS else HAVE_ADDRESS g.

Lemma phase_of_hc h : is_hc h = true -> phase_of h = HAVE_ADDRESS h.
Proof. destruct h as [|c h]; [discriminate | reflexivity]. Qed.

Lemma addr_of_phase line h : addr_of line = Some h -> phase_of h = HAVE_ADDRESS h.
Proof. intros Ha. apply phase_of_hc, (addr_of_hc line h Ha). Qed.

Lemma rcvifunc_spec f st :
  runs_to (rcvifunc cfg f) st tt
    (if String.eqb (rcvihc st) "" then rcvihc st else "")
    (if String.eqb (rcvihc st) "" then [] else publication (rcvihc st, py_upper f)).
Proof.
  destruct st as [g tr]. unfold rcvifunc. simpl.
  destruct (String.eqb g "") eqn:E; py_exec; rewrite ?E; simpl;
    rewrite <- ?app_assoc, ?app_nil_r; reflexivity.
Qed.

(** One line: the code's effect is the publication of the automaton's
    event, and its new [rcvihc] abstracts to the automaton's new phase. *)
Theorem step_simulation line st :
  let '(p', ev) := spec_step (phase_of (rcvihc st)) (addr_of line) (func_of line) in
  exists g', runs_to (main_step cfg line) st tt g'
               (match ev with Some e => publication e | None => [] end) /\
             phase_of g' = p'.
Proof.
  destruct st as [g tr]. unfold main_step, spec_step.
  destruct (addr_of line) as [h|] eqn:Ea; destruct (func_of line) as [f|] eqn:Ef.
  - pose proof (addr_of_hc line h Ea) as Hh. exists "". split; [|reflexivity].
    eapply (runs_to_bind _ _ _ tt h []); [apply runs_to_set|].
    pose proof (rcvifunc_spec f {| rcvihc := h; trace := tr ++ [] |}) as Hf. simpl in Hf.
    destruct h as [|c h]; [discriminate|]. exact Hf.
  - exists h. rewrite (addr_of_phase line h Ea). split; [|reflexivity].
    rewrite <- (app_nil_r []). eapply runs_to_bind; [apply runs_to_set | apply runs_to_ret].
  - pose proof (rcvifunc_spec f {| rcvihc := g; trace := tr |}) as Hf. simpl in Hf.
    cbn [rcvihc]. unfold phase_of at 1. destruct (String.eqb g "") eqn:E; simpl.
    + exists g. split; [exact Hf | unfold phase_of; now rewrite E].
    + exists "". split; [exact Hf | reflexivity].
  - exists g. split; [|reflexivity].
    rewrite <- (app_nil_r []). eapply runs_to_bind; apply runs_to_ret.
Qed.

Lemma flat_map_publication (ev : option (string * string)) evs :
  flat_map publication (match ev with Some e => e :: evs | None => evs end) =
  (match ev with Some e => publication e | None => [] end) ++ flat_map publication evs.
Proof. now destruct ev. Qed.

(** Any sequence of monitor lines: the code publishes exactly the events
    of the automaton run on the same lines, and ends in the phase the
    automaton ends in. *)
Theorem loop_simulation lines st :
  let '(p', evs) := spec_run (phase_of (rcvihc st)) lines in
  exists g', runs_to (main_loop cfg lines) st tt g' (flat_map publication evs) /\
             phase_of g' = p'.
Proof.
  revert st. induction lines as [|l ls IH]; intros st; simpl.
  - exists (rcvihc st). split; [apply runs_to_ret | reflexivity].
  - pose proof (step_simulation l st) as Hs.
    destruct (spec_step (phase_of (rcvihc st)) (addr_of l) (func_of l)) as [p1 ev].
    destruct Hs as (g1 & H1 & Hp1).
    specialize (IH {| rcvihc := g1; trace := trace st ++ (match ev with Some e => publication e | None => [] end) |}).
    simpl in IH. rewrite Hp1 in IH.
    destruct (spec_run p1 ls) as [p2 evs]. destruct IH as (g2 & H2 & Hp2).
    exists g2. split; [|exact Hp2].
    rewrite flat_map_publication. exact (runs_to_bind _ _ _ _ _ _ _ _ _ H1 H2).
Qed.

(** C9: The monitor loop refines the design's two-state automaton: on any
    sequence of lines it publishes exactly the events the automaton emits
    on them, in order, and its [rcvihc] abstracts to the automaton's final
    phase. *)
Theorem main_loop_refines lines st :
  let '(p', evs) := spec_run (phase_of (rcvihc st)) lines in
  exists g', runs_to (main_loop cfg lines) st tt g' (flat_map publication evs) /\
             phase_of g' = p'.
Proof. apply loop_simulation. Qed.

(** ** The automaton's invariant, transferred to [rcvihc] *)

Definition phase_ok (p : phase) : Prop :=
  match p with WAIT_ADDRESS => True | HAVE_ADDRESS h => is_hc h = true end.

(** An emitted event names a housecode of the grammar and [ON] or [OFF]. *)
Definition event_ok (e : string * string) : Prop :=
  is_hc (fst e) = true /\ (snd e = "ON" \/ snd e = "OFF").

Lemma spec_step_ok p line :
  phase_ok p ->
  phase_ok (fst (spec_step p (addr_of line) (func_of line))) /\
  (forall e, snd (spec_step p (addr_of line) (func_of line)) = Some e -> event_ok e).
Proof.
  intros Hp. unfold spec_step.
  destruct (addr_of line) as [h|] eqn:Ea;
    [assert (Hh : phase_ok (HAVE_ADDRESS h)) by exact (addr_of_hc line h Ea)|];
    destruct (func_of line) as [f|] eqn:Ef;
    try (destruct p as [|h']); simpl; split; auto; try discriminate;
    intros e [= <-]; split; auto;
    destruct (func_of_word line f Ef) as [-> | ->]; simpl; auto.
Qed.

Lemma spec_run_ok p lines :
  phase_ok p -> phase_ok (fst (spec_run p lines)) /\ Forall event_ok (snd (spec_run p lines)).
Proof.
  revert p. induction lines as [|l ls IH]; intros p Hp; simpl; [auto|].
  destruct (spec_step_ok p l Hp) as [Hp1 He].
  destruct (spec_step p (addr_of l) (func_of l)) as [p1 ev]. simpl in *.
  destruct (IH p1 Hp1) as [Hp2 Hevs]. destruct (spec_run p1 ls) as [p2 evs]. simpl in *.
  split; [exact Hp2|]. destruct ev as [e|]; [constructor; auto | exact Hevs].
Qed.

(** The global [rcvihc] holds either nothing or a housecode of the grammar. *)
Definition rcvihc_ok (g : string) : Prop := g = "" \/ is_hc g = true.

Lemma phase_of_ok g : rcvihc_ok g <-> phase_ok (phase_of g).
Proof.
  unfold rcvihc_ok, phase_of. destruct (String.eqb_spec g ""); simpl; [tauto|].
  split; [intros [H|H]; [contradiction | exact H] | auto].
Qed.

(** C10: The invariant of the monitor flow: from a state whose [rcvihc] is
    empty or a housecode of the grammar, every sequence of lines leads to
    such a state, and every publish it makes is a retained [ON]/[OFF] on
    [stattopic/h] lower-cased for a housecode [h] of the grammar. *)
Theorem main_loop_invariant lines st :
  rcvihc_ok (rcvihc st) ->
  exists g' evs, runs_to (main_loop cfg lines) st tt g' evs /\ rcvihc_ok g' /\
    forall t p r, In (EvPublish t p r) evs ->
      exists h, is_hc h = true /\ t = stattopic cfg +++ "/" +++ py_lower h /\
                (p = "ON" \/ p = "OFF") /\ r = true.
Proof.
  intros Hg. apply phase_of_ok in Hg.
  pose proof (loop_simulation lines st) as Hr. pose proof (spec_run_ok _ lines Hg) as Hok.
  destruct (spec_run (phase_of (rcvihc st)) lines) as [p' evs]. simpl in Hok.
  destruct Hr as (g' & Hrun & Hp'). destruct Hok as [Hp Hevs].
  exists g', (flat_map publication evs). split; [exact Hrun|]. split.
  - apply phase_of_ok. now rewrite Hp'.
  - intros t p r Hin. apply in_flat_map in Hin as ([h c] & Hin & Hpub).
    rewrite Forall_forall in Hevs. destruct (Hevs _ Hin) as [Hh Hc]. simpl in *.
    destruct Hpub as [H|[H|[]]]; [discriminate|]. injection H as <- <- <-. eauto.
Qed.

(** ** The scenarios of the design (spec section 8, items 3 and 4) *)

(** C16: An address line then a function line: exactly one publication, for
    the address's housecode and the function upper-cased, and [rcvihc] is
    cleared (spec section 8, item 3). *)
Theorem address_then_function l1 l2 h f st :
  addr_of l1 = Some h -> func_of l1 = None -> addr_of l2 = None -> func_of l2 = Some f ->
  runs_to (main_loop cfg [l1; l2]) st tt "" (publication (h, py_upper f)).
Proof.
  intros A1 F1 A2 F2. pose proof (loop_simulation [l1; l2] st) as Hr.
  pose proof (addr_of_phase l1 h A1) as Hh. simpl in Hr. rewrite A1, F1, A2, F2 in Hr. simpl in Hr.
  destruct Hr as (g' & Hrun & Hp).
  unfold phase_of in Hp. destruct (String.eqb_spec g' "") as [->|]; [exact Hrun | discriminate].
Qed.

(** C18: A function line with no pending address has no effect: no log line,
    no publish, [rcvihc] stays empty (spec section 8, item 3). *)
Theorem function_without_address l st :
  rcvihc st = "" -> addr_of l = None ->
  runs_to (main_step cfg l) st tt "" [].
Proof.
  intros Hg A. destruct st as [g tr]. simpl in Hg. subst g. unfold main_step. rewrite A.
  destruct (func_of l) as [f|]; py_exec; now rewrite app_nil_r.
Qed.

(** C17: Two address lines before a function line: the second address wins and
    the first is lost (spec section 8, item 4). *)
Theorem address_overwritten l1 l2 l3 h1 h2 f st :
  addr_of l1 = Some h1 -> func_of l1 = None ->
  addr_of l2 = Some h2 -> func_of l2 = None ->
  addr_of l3 = None -> func_of l3 = Some f ->
  runs_to (main_loop cfg [l1; l2; l3]) st tt "" (publication (h2, py_upper f)).
Proof.
  intros A1 F1 A2 F2 A3 F3. pose proof (loop_simulation [l1; l2; l3] st) as Hr.
  pose proof (addr_of_phase l2 h2 A2) as Hh.
  simpl in Hr. rewrite A1, F1, A2, F2, A3, F3 in Hr. simpl in Hr.
  destruct Hr as (g' & Hrun & Hp).
  unfold phase_of in Hp. destruct (String.eqb_spec g' "") as [->|]; [exact Hrun | discriminate].
Qed.

(** ** One line at a time *)

Lemma local_rcvifunc f : local (rcvifunc cfg f).
Proof.
  unfold rcvifunc. apply local_bind; [apply local_get|]. intros hc.
  match goal with |- local (if ?b then _ else _) => destruct b end; auto 6 with x10.
Qed.

(** The monitor's step reads and writes the global only: it does not
    depend on the trace so far. *)
Lemma local_main_step line : local (main_step cfg line).
Proof.
  unfold main_step, rcviaddr. apply local_bind; [destruct (addr_of line) | intros; destruct (func_of line)];
    auto using local_rcvifunc with x10.
Qed.

(** What one step of the monitor may emit: log lines, and retained
    [ON]/[OFF] updates on [stattopic/h] for a housecode [h]. *)
Definition monitor_event_ok (e : event) : Prop :=
  match e with
  | EvPrint _ => True
  | EvPublish t p r =>
      exists h, is_hc h = true /\ t = stattopic cfg +++ "/" +++ py_lower h /\
                (p = "ON" \/ p = "OFF") /\ r = true
  | _ => False
  end.

(** The invariant of [main_loop] for one line. *)
Lemma main_step_ok line st :
  rcvihc_ok (rcvihc st) ->
  exists g evs, runs_to (main_step cfg line) st tt g evs /\ rcvihc_ok g /\ Forall monitor_event_ok evs.
Proof.
  intros Hg. apply phase_of_ok in Hg.
  pose proof (step_simulation line st) as Hr. destruct (spec_step_ok _ line Hg) as [Hp Hev].
  destruct (spec_step (phase_of (rcvihc st)) (addr_of line) (func_of line)) as [p' ev]. simpl in Hp, Hev.
  destruct Hr as (g' & Hrun & Hp').
  exists g', (match ev with Some e => publication e | None => [] end). split; [exact Hrun|]. split.
  - apply phase_of_ok. now rewrite Hp'.
  - destruct ev as [[h c]|]; [|constructor].
    destruct (Hev _ eq_refl) as [Hh Hc]. simpl in *.
    constructor; [exact I|]. constructor; [|constructor]. exists h. auto.
Qed.

End Spec.

(** How the generator ends: its lines exhausted, or an exception. *)
Inductive outcome := Exhausted | Raised (exn : string).

(** The end of [monitor()] (lines 138-140) once [popen.wait()] has
    returned [return_code]: [if return_code: raise
    subprocess.CalledProcessError(return_code, cmd)], where no [cmd] is
    defined, so the expression raises [NameError] before the intended
    exception is built. *)
Definition monitor_end (return_code : Z) : PY outcome :=
  if negb (Z.eqb return_code 0) then ret (Raised "NameError") else ret Exhausted.

Lemma runs_to_monitor_end rc st :
  runs_to (monitor_end rc) st (if Z.eqb rc 0 then Exhausted else Raised "NameError") (rcvihc st) [].
Proof. unfold monitor_end. destruct (Z.eqb rc 0); apply runs_to_ret. Qed.

(** [Popen(["heyu","monitor"])] (line 134). *)
Definition monitor_spawn : PY unit := emit (EvSpawn ["heyu"; "monitor"]).

(** [monitor()] consumed by the main loop: [Popen(["heyu","monitor"])],
    the lines it prints, then [popen.wait()] returning [return_code]. *)
Definition monitor_loop `{LineRecognizer} (cfg : config) (lines : list string)
    (return_code : Z) : PY outcome :=
  monitor_spawn ;;
  main_loop cfg lines ;;
  monitor_end return_code.

(** ** The patterns as a line recognizer (lines 274-275, 282-285) *)

(** [str(m.group(1))]: [None] prints as ["None"]. *)
Definition py_str_group (g : option string) : string :=
  match g with Some s => s | None => "None" end.

Definition search_text (r : regex) (line : string) : option string :=
  match py_search r line with
  | Some (_, _, g) => Some (py_str_group g)
  | None => None
  end.

Lemma search_text_capture (P : string -> Prop) r line h :
  (forall i e g, py_search r line = Some (i, e, g) -> exists x, g = Some x /\ P x) ->
  search_text r line = Some h -> P h.
Proof.
  unfold search_text. destruct (py_search r line) as [[[i e] g]|] eqn:E; [|discriminate].
  intros Hc [= <-]. destruct (Hc i e g eq_refl) as (x & -> & Hx). exact Hx.
Qed.

#[export] Instance heyu_lines : LineRecognizer := {
  addr_of := search_text rercviaddr;
  func_of := search_text rercvifunc;
  addr_of_hc line h := search_text_capture (fun h => is_hc h = true) rercviaddr line h
                         (addr_capture_hc line);
  func_of_word line f := search_text_capture is_func_word rercvifunc line f
                           (func_capture_word line)
}.

(** ** The scenarios on real [heyu monitor] lines *)

Definition second_addr_line : string :=
  "01/12 15:16:53  rcvi addr unit       2 : hu B2  (_no_alias_)" +++ String Regex.newline "".
Definition off_func_line : string :=
  "01/12 15:16:54  rcvi func         Off : hc B" +++ String Regex.newline "".

Lemma address_then_function_witness :
  runs_to (main_loop sample_config [sample_addr_line; sample_func_line]) init_state tt ""
    (publication sample_config ("A1", "ON")).
Proof.
  apply (address_then_function sample_config _ _ "A1" "On"); vm_compute; reflexivity.
Defined.

Lemma function_without_address_witness :
  runs_to (main_step sample_config sample_func_line) init_state tt "" [].
Proof. apply function_without_address; vm_compute; reflexivity. Defined.

Lemma address_overwritten_witness :
  runs_to (main_loop sample_config [sample_addr_line; second_addr_line; off_func_line])
    init_state tt "" (publication sample_config ("B2", "OFF")).
Proof.
  apply (address_overwritten sample_config _ _ _ "A1" "B2" "Off"); vm_compute; reflexivity.
Defined.

Lemma main_loop_invariant_witness :
  rcvihc_ok (rcvihc init_state) /\
  exists g' evs, runs_to (main_loop sample_config [sample_addr_line]) init_state tt g' evs /\
    rcvihc_ok g' /\
    forall t p r, In (EvPublish t p r) evs ->
      exists h, is_hc h = true /\ t = stattopic sample_config +++ "/" +++ py_lower h /\
                (p = "ON" \/ p = "OFF") /\ r = true.
Proof.
  split; [left; reflexivity|]. apply main_loop_invariant. left. reflexivity.
Defined.

(** ** How the monitor flow ends *)

(** The monitor flow simulates the automaton on its lines, between the
    spawn of the process and its end. *)
Lemma monitor_loop_sim `{LineRecognizer} cfg lines rc st :
  let '(p', evs) := spec_run (phase_of (rcvihc st)) lines in
  exists g', runs_to (monitor_loop cfg lines rc) st
               (if Z.eqb rc 0 then Exhausted else Raised "NameError") g'
               (EvSpawn ["heyu"; "monitor"] :: flat_map (publication cfg) evs) /\
             phase_of g' = p'.
Proof.
  pose proof (loop_simulation cfg lines
                {| rcvihc := rcvihc st; trace := trace st ++ [EvSpawn ["heyu"; "monitor"]] |}) as Hr.
  simpl in Hr. destruct (spec_run (phase_of (rcvihc st)) lines) as [p evs].
  destruct Hr as (g1 & H1 & Hp). exists g1. split; [|exact Hp].
  rewrite <- (app_nil_r (flat_map _ evs)). change (EvSpawn _ :: ?l) with ([EvSpawn ["heyu"; "monitor"]] ++ l).
  apply (runs_to_bind _ _ _ tt (rcvihc st) [EvSpawn ["heyu"; "monitor"]]); [apply runs_to_emit|].
  apply (runs_to_bind _ _ _ tt g1); [exact H1|].
  apply runs_to_monitor_end.
Qed.

(** C19: The monitor flow spawns [heyu monitor], publishes the automaton's
    events for its lines, then ends normally when [heyu] exits with 0 and
    raises [NameError], not [CalledProcessError], on any other code. *)
Theorem monitor_loop_outcome `{LineRecognizer} cfg lines rc st :
  exists g', runs_to (monitor_loop cfg lines rc) st
               (if Z.eqb rc 0 then Exhausted else Raised "NameError") g'
               (EvSpawn ["heyu"; "monitor"] ::
                flat_map (publication cfg) (snd (spec_run (phase_of (rcvihc st)) lines))).
Proof.
  pose proof (monitor_loop_sim cfg lines rc st) as Hr.
  destruct (spec_run (phase_of (rcvihc st)) lines) as [p evs].
  destruct Hr as (g & Hrun & _). exists g. exact Hrun.
Qed.

End Monitor.
