(* ===== verification/Stream.v ===== *)
(** * Stream: the lines of [heyu monitor] as the generator reads them

    [monitor()] (src/x10mqtt.py lines 133-141) starts [heyu monitor] with
    [stdout=subprocess.PIPE, universal_newlines=True] and yields
    [for stdout_line in iter(popen.stdout.readline, "")].  In text mode
    with universal newlines, [\r\n] and a lone [\r] in the output are
    read as [\n]; [readline] returns the text up to and including the next
    [\n], or the rest of the text at its end, and [""] only at the end of
    the output, which stops [iter].

    - [translate_newlines] is the newline translation on the whole output
      (the decoder keeps a trailing [\r] back until it sees the next
      character, so reading in chunks gives the same text);
    - [readline] is one call, [iter_readline] the [iter] loop with explicit
      fuel, [stdout_lines] the lines of a whole output, with one more unit
      of fuel than the output has characters, which is enough: each call
      but the last consumes at least one character ([iter_readline_enough]).

    The theorems: the lines put back together are the translated output,
    and an output written as lines ending in [\n], [\r\n] or [\r] is read
    back as exactly those lines, each ending in [\n].  The bytes are taken
    as already decoded: one character per byte. *)

From S2P Require Import Prelude PyStr Regex.
Open Scope string_scope.
Open Scope list_scope.
Open Scope py_scope.

Module Stream.
Import Regex.

(** ** The code *)

Definition cr : ascii := "013"%char.

(** Universal newlines: [\r\n] and [\r] are read as [\n]. *)
Fixpoint translate_newlines (s : string) : string :=
  match s with
  | EmptyString => EmptyString
  | String c s' =>
      if Ascii.eqb c cr then
        match s' with
        | String d s'' =>
            if Ascii.eqb d newline then String newline (translate_newlines s'')
            else String newline (translate_newlines s')
        | EmptyString => String newline EmptyString
        end
      else String c (translate_newlines s')
  end.

(** [popen.stdout.readline()]: the next line and the text after it. *)
Fixpoint readline (s : string) : string * string :=
  match s with
  | EmptyString => (EmptyString, EmptyString)
  | String c s' =>
      if Ascii.eqb c newline then (String c EmptyString, s')
      else let '(l, r) := readline s' in (String c l, r)
  end.

(** [iter(popen.stdout.readline, "")]: call [readline] until it returns
    [""]; [None] when the fuel runs out first. *)
Fixpoint iter_readline (fuel : nat) (s : string) : option (list string) :=
  match fuel with
  | 0 => None
  | S fuel' =>
      let '(line, rest) := readline s in
      if String.eqb line "" then Some []
      else option_map (cons line) (iter_readline fuel' rest)
  end.

(** The lines the generator yields for the whole output [out]. *)
Definition stdout_lines (out : string) : list string :=
  let text := translate_newlines out in
  match iter_readline (S (String.length text)) text with Some ls => ls | None => [] end.

(** ** [readline] *)

Lemma readline_split s : fst (readline s) +++ snd (readline s) = s.
Proof.
  induction s as [|c s IH]; simpl; [reflexivity|].
  destruct (Ascii.eqb c newline); [reflexivity|].
  destruct (readline s) as [l r]. simpl in *. now rewrite IH.
Qed.

Lemma readline_nil s : fst (readline s) = "" -> s = "".
Proof.
  destruct s as [|c s]; simpl; [auto|].
  destruct (Ascii.eqb c newline); [discriminate|]. destruct (readline s); discriminate.
Qed.

Lemma readline_shorter s :
  fst (readline s) <> "" -> String.length (snd (readline s)) < String.length s.
Proof.
  intros H. rewrite <- (readline_split s) at 2. rewrite length_append.
  destruct (fst (readline s)); [contradiction | simpl; lia].
Qed.

(** A line without a newline, then a newline: [readline] returns both. *)
Lemma readline_line l rest :
  all_chars (fun c => negb (Ascii.eqb c newline)) l = true ->
  readline (l +++ String newline rest) = (l +++ String newline "", rest).
Proof.
  induction l as [|c l IH]; simpl; [reflexivity|].
  intros H. apply andb_prop in H as [Hc Hl]. apply negb_true_iff in Hc. rewrite Hc, IH by exact Hl.
  reflexivity.
Qed.

Lemma concat_empty_cons l ls : String.concat "" (l :: ls) = l +++ String.concat "" ls.
Proof. destruct ls; simpl; [now rewrite append_empty_r | reflexivity]. Qed.

(** ** The [iter] loop *)

Lemma iter_readline_enough fuel s :
  String.length s < fuel -> exists ls, iter_readline fuel s = Some ls /\ length ls <= String.length s.
Proof.
  revert s. induction fuel as [|fuel IH]; intros s Hs; [lia|]. simpl.
  pose proof (readline_shorter s) as Hsh. destruct (readline s) as [l r]. simpl in Hsh.
  destruct (String.eqb_spec l "") as [->|Hl]; [exists []; simpl; split; [reflexivity | lia]|].
  destruct (IH r) as (ls & -> & Hlen); [specialize (Hsh Hl); lia|].
  exists (l :: ls). simpl. split; [reflexivity|]. specialize (Hsh Hl). lia.
Qed.

(** Putting the lines back together gives the text read. *)
Lemma iter_readline_concat fuel s ls : iter_readline fuel s = Some ls -> String.concat "" ls = s.
Proof.
  revert s ls. induction fuel as [|fuel IH]; intros s ls H; [discriminate|]. simpl in H.
  pose proof (readline_split s) as Hs. pose proof (readline_nil s) as Hn.
  destruct (readline s) as [l r]. simpl in Hs, Hn.
  destruct (String.eqb_spec l "") as [->|Hl]; [injection H as <-; symmetry; auto|].
  destruct (iter_readline fuel r) as [ls'|] eqn:E; [|discriminate]. injection H as <-.
  rewrite concat_empty_cons, (IH r ls' E). exact Hs.
Qed.

(** ** Universal newlines *)

(** No newline and no carriage return. *)
Definition eol_free (s : string) : Prop :=
  all_chars (fun c => negb (Ascii.eqb c newline) && negb (Ascii.eqb c cr)) s = true.

Definition lf : string := String newline "".
Definition crlf : string := String cr lf.
Definition cr_only : string := String cr "".

Lemma translate_eol_free l rest :
  eol_free l -> translate_newlines (l +++ rest) = l +++ translate_newlines rest.
Proof.
  unfold eol_free. induction l as [|c l IH]; simpl; [reflexivity|]. intros H.
  apply andb_prop in H as [Hc Hl]. apply andb_prop in Hc as [_ Hc]. apply negb_true_iff in Hc.
  rewrite Hc, IH by exact Hl. reflexivity.
Qed.

Lemma eol_free_nl l : eol_free l -> all_chars (fun c => negb (Ascii.eqb c newline)) l = true.
Proof.
  intros H. apply (all_chars_impl (fun c => negb (Ascii.eqb c newline) && negb (Ascii.eqb c cr))); [|exact H].
  intros c Hc. now apply andb_prop in Hc as [Hc _].
Qed.

(** The lines of [ls], each followed by [eol]. *)
Definition written (eol : string) (ls : list string) : string :=
  String.concat "" (map (fun l => l +++ eol) ls).

Lemma written_cons eol l ls : written eol (l :: ls) = l +++ eol +++ written eol ls.
Proof. unfold written. cbn [map]. now rewrite concat_empty_cons, append_assoc. Qed.

(** Lines written with a lone [\r] never start with a newline. *)
Lemma written_cr_head ls : Forall eol_free ls -> forall r, written cr_only ls <> String newline r.
Proof.
  intros Hls r. destruct Hls as [|l ls Hl _]; [discriminate|]. rewrite written_cons.
  destruct l as [|c l]; [intros H; cbv in H; discriminate|].
  unfold eol_free in Hl. simpl in Hl. apply andb_prop in Hl as [Hc _]. apply andb_prop in Hc as [Hc _].
  intros [= Hcn _]. subst c. now rewrite Ascii.eqb_refl in Hc.
Qed.

(** Each of the three line endings is read as one newline. *)
Lemma translate_eol eol rest :
  In eol [lf; crlf; cr_only] -> (eol = cr_only -> forall r, rest <> String newline r) ->
  translate_newlines (eol +++ rest) = String newline (translate_newlines rest).
Proof.
  intros [<-|[<-|[<-|[]]]] H; [reflexivity | reflexivity|].
  destruct rest as [|d r]; [reflexivity|]. cbn [append cr_only translate_newlines].
  destruct (Ascii.eqb_spec d newline) as [->|]; [exfalso; exact (H eq_refl r eq_refl)|].
  change (Ascii.eqb cr cr) with true. cbv iota.
  destruct (Ascii.eqb d newline) eqn:E; [apply Ascii.eqb_eq in E; contradiction | reflexivity].
Qed.

Lemma translate_written eol ls :
  In eol [lf; crlf; cr_only] -> Forall eol_free ls -> translate_newlines (written eol ls) = written lf ls.
Proof.
  intros Heol Hls. induction Hls as [|l ls Hl Hls IH]; [reflexivity|].
  rewrite !written_cons, translate_eol_free, translate_eol, IH by
    (assumption || (intros ->; apply written_cr_head; exact Hls)).
  reflexivity.
Qed.

Lemma iter_written fuel ls :
  Forall eol_free ls -> length ls < fuel ->
  iter_readline fuel (written lf ls) = Some (map (fun l => l +++ lf) ls).
Proof.
  intros Hls. revert fuel. induction Hls as [|l ls Hl Hls IH]; intros [|fuel] Hf; simpl in Hf; try lia.
  - reflexivity.
  - rewrite written_cons. cbn [iter_readline]. unfold lf at 1. change (String newline "" +++ ?x) with (String newline x).
    rewrite readline_line by exact (eol_free_nl l Hl).
    replace (String.eqb (l +++ String newline "") "") with false by (destruct l; reflexivity).
    rewrite IH by lia. reflexivity.
Qed.

Lemma written_length ls : length ls <= String.length (written lf ls).
Proof.
  induction ls as [|l ls IH]; [simpl; lia|]. rewrite written_cons, !length_append. simpl. lia.
Qed.

(** ** What the generator yields *)

(** C21: The lines the generator yields, put back together, are the output
    with its line endings read as newlines: nothing is lost or added. *)
Theorem stdout_lines_concat out : String.concat "" (stdout_lines out) = translate_newlines out.
Proof.
  unfold stdout_lines.
  destruct (iter_readline_enough (S (String.length (translate_newlines out))) (translate_newlines out))
    as (ls & H & _); [lia|].
  rewrite H. exact (iter_readline_concat _ _ _ H).
Qed.

(** C20: An output written as lines ending in [\n], [\r\n] or [\r] is read
    back as exactly those lines, each ending in [\n]. *)
Theorem stdout_lines_written eol ls :
  In eol [lf; crlf; cr_only] -> Forall eol_free ls ->
  stdout_lines (written eol ls) = map (fun l => l +++ lf) ls.
Proof.
  intros Heol Hls. unfold stdout_lines. rewrite translate_written by assumption.
  pose proof (written_length ls). rewrite iter_written by (assumption || lia). reflexivity.
Qed.

(** ** A real output, with Windows line endings *)

Definition sample_output : string :=
  written crlf ["01/12 15:16:52  rcvi addr unit       1 : hu A1  (_no_alias_)";
                "01/12 15:16:52  rcvi func          On : hc A"].

Example sample_output_lines :
  stdout_lines sample_output =
  ["01/12 15:16:52  rcvi addr unit       1 : hu A1  (_no_alias_)" +++ lf;
   "01/12 15:16:52  rcvi func          On : hc A" +++ lf].
Proof. vm_compute. reflexivity. Defined.

Lemma stdout_lines_written_witness :
  stdout_lines sample_output =
  map (fun l => l +++ lf) ["01/12 15:16:52  rcvi addr unit       1 : hu A1  (_no_alias_)";
                           "01/12 15:16:52  rcvi func          On : hc A"].
Proof. apply stdout_lines_written; [right; left; reflexivity | repeat constructor]. Defined.

End Stream.
