(* ===== verification/Json.v ===== *)
(** * Json: [json.dumps] of a flat dictionary of strings

    [ha_discovery_announce] (src/x10mqtt.py line 234) publishes
    [json.dumps(config)] for a dictionary whose keys and values are
    strings.  With the defaults of [json.dumps] ([ensure_ascii=True],
    separators [", "] and [": "]) a string is written between double
    quotes with [\\], the double quote, backspace, form feed, newline,
    carriage return and tab escaped by their two-character forms, and
    every other character outside [' '..'~'] as [\u00XX] (lower-case
    hexadecimal).  [json_dumps] writes the dictionary in insertion order.
    The discovery records of [Discovery] are published through it. *)

From S2P Require Import Prelude PyStr.
Open Scope string_scope.
Open Scope list_scope.
Open Scope py_scope.

Module Json.

Definition dquote : ascii := "034"%char.
Definition bslash : ascii := "092"%char.

Definition hex_digits : string := "0123456789abcdef".

Definition hexdig (n : nat) : ascii :=
  match String.get n hex_digits with Some c => c | None => "0"%char end.

(** The escape of one character ([py_encode_basestring_ascii]). *)
Definition escape_char (c : ascii) : string :=
  let n := nat_of_ascii c in
  if Ascii.eqb c bslash then String bslash (String bslash "")
  else if Ascii.eqb c dquote then String bslash (String dquote "")
  else if Nat.eqb n 8 then String bslash "b"
  else if Nat.eqb n 12 then String bslash "f"
  else if Nat.eqb n 10 then String bslash "n"
  else if Nat.eqb n 13 then String bslash "r"
  else if Nat.eqb n 9 then String bslash "t"
  else if in_range 32 126 c then String c ""
  else String bslash ("u00" +++ String (hexdig (n / 16)) (String (hexdig (n mod 16)) "")).

Fixpoint json_escape (s : string) : string :=
  match s with
  | EmptyString => ""
  | String c s' => escape_char c +++ json_escape s'
  end.

(** A JSON string literal. *)
Definition json_string (s : string) : string := String dquote (json_escape s +++ String dquote "").

(** [json.dumps(d)] for a dictionary of strings, in insertion order. *)
Definition json_dumps (d : list (string * string)) : string :=
  "{" +++ String.concat ", " (map (fun '(k, v) => json_string k +++ ": " +++ json_string v) d) +++ "}".

End Json.
