(* ===== verification/Discovery.v ===== *)
(** * Discovery: [on_connect] and the Home Assistant discovery records

    [on_connect] (src/x10mqtt.py lines 180-193) is the paho callback run on
    every (re)connection: it logs the result code, subscribes to
    [cmdtopic/+] and, for every letter of [discoveryhouses] and every unit
    1..16, calls [ha_discovery_announce] (lines 225-234), which logs the
    record with Python's [str] of a dictionary and publishes it, retained,
    as [json.dumps] on [discoverytopic/switch/x10mqtt/x10_<h><u>/config].

    The theorems: the effects of [on_connect] on every branch; for a list
    of distinct house letters it publishes 16 records per letter, all
    retained, on pairwise distinct topics (the design's DiscoveryAnnouncer,
    spec section 8 item 5); two runs of [on_connect] (a reconnection)
    publish the same records (spec section 4.5); and each record reads
    back (JSON) as the dictionary with the unit's name, state and command
    topics and unique identifier. *)

From S2P Require Import Prelude PyStr Effects Json.
Open Scope string_scope.
Open Scope list_scope.
Open Scope py_scope.

Module Discovery.
Import Effects Json.
Open Scope monad_scope.

(** ** Python's [repr] of a string and [str] of a dictionary *)

Definition squote : ascii := "039"%char.

Definition hex2 (n : nat) : string := String (hexdig (n / 16)) (String (hexdig (n mod 16)) "").

(** One character of [repr(s)] for the quote [q] chosen; a character is
    read as the code point of its value (U+0000..U+00FF). *)
Definition repr_char (q c : ascii) : string :=
  let n := nat_of_ascii c in
  if Ascii.eqb c q || Ascii.eqb c bslash then String bslash (String c "")
  else if Nat.eqb n 9 then String bslash "t"
  else if Nat.eqb n 10 then String bslash "n"
  else if Nat.eqb n 13 then String bslash "r"
  else if Nat.ltb n 32 || Nat.eqb n 127 then String bslash ("x" +++ hex2 n)
  else if Nat.ltb n 127 then String c ""
  else if Nat.leb n 160 || Nat.eqb n 173 then String bslash ("x" +++ hex2 n)
  else String c "".

Fixpoint repr_body (q : ascii) (s : string) : string :=
  match s with
  | EmptyString => ""
  | String c s' => repr_char q c +++ repr_body q s'
  end.

(** [repr(s)]: single quotes, unless [s] has a single quote and no double one. *)
Definition py_repr (s : string) : string :=
  let q := if py_char_in squote s && negb (py_char_in dquote s) then dquote else squote in
  String q (repr_body q s +++ String q "").

(** [str(d)] for a dictionary of strings. *)
Definition py_str_dict (d : list (string * string)) : string :=
  "{" +++ String.concat ", " (map (fun '(k, v) => py_repr k +++ ": " +++ py_repr v) d) +++ "}".

(** ** The code *)

Section Announce.
Context (cfg : config).

(** [house.lower()+str(unit)] *)
Definition device (house : string) (unit : nat) : string := py_lower house +++ py_str_nat unit.

(** The dictionary [config] of lines 226-231. *)
Definition discovery_record (house : string) (unit : nat) : list (string * string) :=
  [("name", "X10 Module " +++ py_upper house +++ py_str_nat unit);
   ("state_topic", stattopic cfg +++ "/" +++ device house unit);
   ("command_topic", cmdtopic cfg +++ "/" +++ device house unit);
   ("unique_id", "x10mqtt_x10_" +++ device house unit)].

(** The topic of line 232. *)
Definition discovery_topic (house : string) (unit : nat) : string :=
  discoverytopic cfg +++ "/switch/x10mqtt/x10_" +++ device house unit +++ "/config".

(** [ha_discovery_announce(client, house, unit)] *)
Definition ha_discovery_announce (house : string) (unit : nat) : PY Datatypes.unit :=
  let config := discovery_record house unit in
  let topic := discovery_topic house unit in
  print ("Publishing at " +++ topic +++ ": " +++ py_str_dict config) ;;
  publish topic (json_dumps config) true.

(** [for unit in range(1, 17)] *)
Definition units : list nat := seq 1 16.

(** [on_connect(client, userdata, flags, rc)] *)
Definition on_connect (rc : Z) : PY unit :=
  (if negb (Z.eqb rc 0) then print ("Error connecting to MQTT broker rc " +++ py_str_Z rc)
   else ret tt) ;;
  print ("Connected to MQTT broker, result code " +++ py_str_Z rc) ;;
  subscribe (cmdtopic cfg +++ "/+") ;;
  for_each (fun h =>
              let house := String h "" in
              print ("Announcing housecode " +++ house +++ " for HomeAssistant discovery") ;;
              for_each (fun unit => ha_discovery_announce house unit) units)
           (discoveryhouses cfg).

End Announce.

(** ** Effects of [on_connect] *)

Section Spec.
Context (cfg : config).

Definition announce_events (house : string) (unit : nat) : list event :=
  [EvPrint ("Publishing at " +++ discovery_topic cfg house unit +++ ": " +++
            py_str_dict (discovery_record cfg house unit));
   EvPublish (discovery_topic cfg house unit) (json_dumps (discovery_record cfg house unit)) true].

Definition house_events (h : ascii) : list event :=
  EvPrint ("Announcing housecode " +++ String h "" +++ " for HomeAssistant discovery") ::
  flat_map (announce_events (String h "")) units.

Definition connect_log (rc : Z) : list event :=
  (if Z.eqb rc 0 then [] else [EvPrint ("Error connecting to MQTT broker rc " +++ py_str_Z rc)]) ++
  [EvPrint ("Connected to MQTT broker, result code " +++ py_str_Z rc)].

Lemma announce_spec house unit st :
  runs_to (ha_discovery_announce cfg house unit) st tt (rcvihc st) (announce_events house unit).
Proof. destruct st. unfold ha_discovery_announce. py_exec. reflexivity. Qed.

(** [on_connect] logs the result code (an error line first when it is not
    0, and carries on), subscribes to [cmdtopic/+], then announces every
    configured house letter and its 16 units, in order. *)
Theorem on_connect_runs rc st :
  runs_to (on_connect cfg rc) st tt (rcvihc st)
    (connect_log rc ++ [EvSubscribe (cmdtopic cfg +++ "/+")] ++
     flat_map house_events (discoveryhouses cfg)).
Proof.
  assert (Hann : forall h st', runs_to (for_each (fun unit => ha_discovery_announce cfg (String h "") unit) units)
                                  st' tt (rcvihc st') (flat_map (announce_events (String h "")) units))
    by (intros h st'; apply runs_to_for_each; intros u st''; apply announce_spec).
  assert (Hhouses : forall st', runs_to (for_each (fun h =>
              print ("Announcing housecode " +++ String h "" +++ " for HomeAssistant discovery") ;;
              for_each (fun unit => ha_discovery_announce cfg (String h "") unit) units)
           (discoveryhouses cfg)) st' tt (rcvihc st') (flat_map house_events (discoveryhouses cfg)))
    by (intros st'; apply runs_to_for_each; intros h st''; unfold house_events;
        change (EvPrint ?x :: ?l) with ([EvPrint x] ++ l);
        apply (runs_to_seq_keep _ _ _ tt); [apply runs_to_print | intros; apply Hann]).
  unfold on_connect, connect_log. rewrite <- !app_assoc.
  apply (runs_to_seq_keep _ _ _ tt); [destruct (Z.eqb rc 0); [apply runs_to_ret | apply runs_to_print]|].
  intros st1. apply (runs_to_seq_keep _ _ _ tt); [apply runs_to_print|].
  intros st2. apply (runs_to_seq_keep _ _ _ tt); [apply runs_to_subscribe | apply Hhouses].
Qed.

(** C27: [on_connect] logs the result code, with an error line first when it
    is not 0, and carries on: it subscribes to [cmdtopic/+] and announces
    every configured house letter and its 16 units, in order, whatever the
    result code. *)
Theorem on_connect_spec rc st :
  runs_to (on_connect cfg rc) st tt (rcvihc st)
    (connect_log rc ++ [EvSubscribe (cmdtopic cfg +++ "/+")] ++
     flat_map house_events (discoveryhouses cfg)).
Proof. apply on_connect_runs. Qed.

(** The records [on_connect] publishes: one per house letter and unit. *)
Definition discovery_messages (houses : list ascii) : list (string * string * bool) :=
  map (fun '(h, u) => (discovery_topic cfg (String h "") u,
                       json_dumps (discovery_record cfg (String h "") u), true))
      (list_prod houses units).

Lemma published_house_events h :
  published (house_events h) =
  map (fun u => (discovery_topic cfg (String h "") u,
                 json_dumps (discovery_record cfg (String h "") u), true)) units.
Proof. reflexivity. Qed.

Lemma published_houses hs : published (flat_map house_events hs) = discovery_messages hs.
Proof.
  induction hs as [|h hs IH]; [reflexivity|].
  cbn [flat_map list_prod]. rewrite published_app, IH, published_house_events.
  unfold discovery_messages. cbn [list_prod]. rewrite map_app, map_map. reflexivity.
Qed.

(** Whatever the result code, [on_connect] publishes the discovery records. *)
Lemma published_connect rc :
  published (connect_log rc ++ [EvSubscribe (cmdtopic cfg +++ "/+")] ++
             flat_map house_events (discoveryhouses cfg)) =
  discovery_messages (discoveryhouses cfg).
Proof. rewrite !published_app, published_houses. unfold connect_log. destruct (Z.eqb rc 0); reflexivity. Qed.

(** The records of [discovery_messages]: one per letter and unit 1..16. *)
Lemma in_discovery_messages hs t p r :
  In (t, p, r) (discovery_messages hs) <->
  exists h u, In h hs /\ 1 <= u <= 16 /\ t = discovery_topic cfg (String h "") u /\
              p = json_dumps (discovery_record cfg (String h "") u) /\ r = true.
Proof.
  unfold discovery_messages, units. rewrite in_map_iff. split.
  - intros ([h u] & [= <- <- <-] & Hin). apply in_prod_iff in Hin as [Hh Hu]. apply in_seq in Hu.
    exists h, u. repeat split; auto; lia.
  - intros (h & u & Hh & Hu & -> & -> & ->). exists (h, u). split; [reflexivity|].
    apply in_prod_iff. split; [exact Hh|]. apply in_seq. lia.
Qed.

Lemma discovery_topic_inj h h' u u' :
  is_house h = true -> is_house h' = true ->
  discovery_topic cfg (String h "") u = discovery_topic cfg (String h' "") u' -> h = h' /\ u = u'.
Proof.
  intros Hh Hh' E. unfold discovery_topic, device in E.
  apply append_cancel_l in E. rewrite !append_assoc in E. apply append_cancel_l in E.
  simpl in E. injection E as Hc Hu.
  split; [exact (char_lower_house_inj h h' Hh Hh' Hc)|].
  apply py_str_nat_inj. exact (append_cancel_r _ _ _ Hu).
Qed.

(** C26: For distinct house letters, [on_connect] publishes exactly 16 retained
    discovery records per letter, one per (letter, unit 1..16), on
    pairwise distinct topics: a record is published exactly when it is
    the one of a configured letter and a unit from 1 to 16 (spec section
    8, item 5). *)
Theorem on_connect_discovery rc st :
  NoDup (discoveryhouses cfg) -> Forall (fun h => is_house h = true) (discoveryhouses cfg) ->
  exists evs, runs_to (on_connect cfg rc) st tt (rcvihc st) evs /\
    published evs = discovery_messages (discoveryhouses cfg) /\
    (forall t p r, In (t, p, r) (published evs) <->
       exists h u, In h (discoveryhouses cfg) /\ 1 <= u <= 16 /\ t = discovery_topic cfg (String h "") u /\
                   p = json_dumps (discovery_record cfg (String h "") u) /\ r = true) /\
    length (published evs) = 16 * length (discoveryhouses cfg) /\
    NoDup (map (fun '(t, _, _) => t) (published evs)) /\
    Forall (fun '(_, _, r) => r = true) (published evs).
Proof.
  intros Hnd Hh. exists (connect_log rc ++ [EvSubscribe (cmdtopic cfg +++ "/+")] ++
                         flat_map house_events (discoveryhouses cfg)).
  pose proof (published_connect rc) as Hp.
  rewrite Hp. split; [apply on_connect_runs|]. split; [reflexivity|].
  split; [intros t p r; apply in_discovery_messages|].
  unfold discovery_messages. rewrite length_map, length_prod. split; [simpl; lia|]. split.
  - rewrite map_map. apply NoDup_map_NoDup_ForallPairs; [|apply NoDup_list_prod; [exact Hnd | apply seq_NoDup]].
    intros [h u] [h' u'] Hin Hin' E. apply in_prod_iff in Hin as [Hin _]. apply in_prod_iff in Hin' as [Hin' _].
    rewrite Forall_forall in Hh.
    destruct (discovery_topic_inj h h' u u' (Hh h Hin) (Hh h' Hin') E) as [-> ->]. reflexivity.
  - apply Forall_forall. intros [[t p] r] Hin. apply in_map_iff in Hin as ([h u] & [= _ _ <-] & _). reflexivity.
Qed.

(** The announcer is idempotent (spec section 4.5): two runs of
    [on_connect], from any states and with any result codes, publish the
    same records on the same topics, in the same order. *)
Theorem on_connect_republishes rc1 rc2 st1 st2 g1 g2 evs1 evs2 :
  runs_to (on_connect cfg rc1) st1 tt g1 evs1 -> runs_to (on_connect cfg rc2) st2 tt g2 evs2 ->
  published evs1 = published evs2.
Proof.
  intros H1 H2.
  destruct (runs_to_det _ _ _ _ _ _ _ _ H1 (on_connect_runs rc1 st1)) as (_ & _ & ->).
  destruct (runs_to_det _ _ _ _ _ _ _ _ H2 (on_connect_runs rc2 st2)) as (_ & _ & ->).
  now rewrite !published_connect.
Qed.

End Spec.

(** ** Two house letters *)

(** The defaults with [DISCOVERY_HOUSECODES=AB]. *)
Definition ab_config : config :=
  mkConfig "localhost" 1883 "" "" "x10/cmd" "x10/stat" ["A"%char; "B"%char] "homeassistant" false.

Lemma on_connect_discovery_witness :
  exists evs, runs_to (on_connect ab_config 0) init_state tt "" evs /\ length (published evs) = 32.
Proof.
  destruct (on_connect_discovery ab_config 0 init_state) as (evs & H1 & _ & _ & H3 & _).
  - constructor; [intros [H|[]]; discriminate | constructor; [intros [] | constructor]].
  - repeat constructor.
  - exists evs. split; [exact H1 | rewrite H3; reflexivity].
Defined.

Lemma on_connect_republishes_witness :
  exists g1 g2 evs1 evs2,
    runs_to (on_connect ab_config 0) init_state tt g1 evs1 /\
    runs_to (on_connect ab_config 5) init_state tt g2 evs2 /\
    published evs1 = published evs2.
Proof.
  do 4 eexists. split; [apply on_connect_runs|]. split; [apply on_connect_runs|].
  eapply (on_connect_republishes ab_config 0 5 init_state init_state); apply on_connect_runs.
Defined.

End Discovery.
