(* ===== verification/Config.v ===== *)
(** * Config: reading the environment at start-up (lines 28-101)

    The script reads its settings from [os.environ] once, at import time.
    [MQTT_HOST] and [MQTT_PORT] are required: when one is missing (or the
    port is not an integer for [int()]) the script prints a message and
    calls [exit(1)].  The others have defaults; [DISCOVERY_HOUSECODES] is
    upper-cased and filtered to the letters A..P, and [USE_CM17] selects
    the CM17 mode when it is exactly ["true"].

    [py_int] is Python's [int(s)] on the characters of the model: blanks
    stripped at both ends, an optional sign, decimal digits with single
    underscores between them.  The theorems: [int(str(z)) == z]; a missing
    required setting ends the start-up with exit code 1 and its message;
    a loaded configuration announces house letters of A..P only;
    [MQTT_PORT] may spell any integer, which becomes the port unchecked;
    and [DISCOVERY_HOUSECODES] is read as a sequence: a house letter is
    announced as many times as it is given, in either case. *)

From S2P Require Import Prelude PyStr Effects.
From Stdlib Require Import DecimalString DecimalZ.
Open Scope string_scope.
Open Scope list_scope.
Open Scope py_scope.

Module Config.
Import Effects.

(** ** Python's [int()] in base 10 *)

(** The blanks [int()] strips: ASCII whitespace, the separators
    U+001C..U+001F, U+0085 and U+00A0. *)
Definition is_py_space (c : ascii) : bool :=
  in_range 9 13 c || in_range 28 32 c || Nat.eqb (nat_of_ascii c) 133 || Nat.eqb (nat_of_ascii c) 160.

Fixpoint lstrip (s : string) : string :=
  match s with
  | String c s' => if is_py_space c then lstrip s' else s
  | EmptyString => EmptyString
  end.

Fixpoint rstrip (s : string) : string :=
  match s with
  | String c s' =>
      let r := rstrip s' in
      if String.eqb r "" && is_py_space c then "" else String c r
  | EmptyString => EmptyString
  end.

Definition digit_value (c : ascii) : Z := Z.of_nat (nat_of_ascii c - 48).

(** Digits with single underscores between them; [prev] says whether the
    last character read was a digit. *)
Fixpoint parse_digits (s : string) (acc : Z) (prev : bool) : option Z :=
  match s with
  | EmptyString => if prev then Some acc else None
  | String c s' =>
      if is_digit c then parse_digits s' (10 * acc + digit_value c) true
      else if Ascii.eqb c "_" && prev then parse_digits s' acc false
      else None
  end.

(** [int(s)]; [None] is the [ValueError]. *)
Definition py_int (s : string) : option Z :=
  match rstrip (lstrip s) with
  | String "-" r => option_map Z.opp (parse_digits r 0 false)
  | String "+" r => parse_digits r 0 false
  | t => parse_digits t 0 false
  end.

(** ** The start-up *)

(** [os.environ] as a partial map. *)
Definition environ : Type := string -> option string.

(** How the configuration code ends: the globals set, or a printed message
    and [exit(code)]. *)
Inductive startup :=
| Configured (cfg : config)
| Exited (message : string) (code : Z).

Definition env_or (env : environ) (key default : string) : string :=
  match env key with Some v => v | None => default end.

(** [[h for h in discoveryhouses.upper() if h in "ABCDEFGHIJKLMNOP"]] *)
Definition house_letters (s : string) : list ascii :=
  filter (fun h => py_char_in h "ABCDEFGHIJKLMNOP") (list_ascii_of_string (py_upper s)).

(** Lines 28-101. *)
Definition load_config (env : environ) : startup :=
  match env "MQTT_HOST" with
  | None => Exited "Must define MQTT Host in configuration!" 1
  | Some broker =>
      match match env "MQTT_PORT" with Some p => py_int p | None => None end with
      | None => Exited "Must define MQTT port in configuration!" 1
      | Some port =>
          Configured
            {| broker := broker;
               port := port;
               mqttuser := env_or env "MQTT_USER" "";
               mqttpass := env_or env "MQTT_PASSWORD" "";
               cmdtopic := env_or env "CMD_TOPIC" "x10/cmd";
               stattopic := env_or env "STAT_TOPIC" "x10/stat";
               discoveryhouses := house_letters (env_or env "DISCOVERY_HOUSECODES" "");
               discoverytopic := env_or env "DISCOVERY_TOPIC" "homeassistant";
               cm17 := match env "USE_CM17" with Some v => String.eqb v "true" | None => false end |}
      end
  end.

(** ** [int(str(z)) == z] *)

(** The value of a decimal numeral read from the left, as [parse_digits]
    accumulates it. *)
Fixpoint dec_fold (d : Decimal.uint) (acc : Z) : Z :=
  match d with
  | Decimal.Nil => acc
  | Decimal.D0 l => dec_fold l (10 * acc)
  | Decimal.D1 l => dec_fold l (10 * acc + 1)
  | Decimal.D2 l => dec_fold l (10 * acc + 2)
  | Decimal.D3 l => dec_fold l (10 * acc + 3)
  | Decimal.D4 l => dec_fold l (10 * acc + 4)
  | Decimal.D5 l => dec_fold l (10 * acc + 5)
  | Decimal.D6 l => dec_fold l (10 * acc + 6)
  | Decimal.D7 l => dec_fold l (10 * acc + 7)
  | Decimal.D8 l => dec_fold l (10 * acc + 8)
  | Decimal.D9 l => dec_fold l (10 * acc + 9)
  end.

Lemma of_uint_acc_fold l acc : Z.pos (Pos.of_uint_acc l acc) = dec_fold l (Z.pos acc).
Proof. revert acc. induction l; intros acc; cbn [Pos.of_uint_acc dec_fold]; rewrite ?IHl; f_equal; lia. Qed.

Lemma of_uint_fold d : Z.of_uint d = dec_fold d 0.
Proof.
  unfold Z.of_uint. induction d; simpl; try exact (of_uint_acc_fold _ _); [reflexivity | exact IHd].
Qed.

Lemma parse_digits_uint d acc :
  parse_digits (NilEmpty.string_of_uint d) acc true = Some (dec_fold d acc).
Proof.
  revert acc. induction d; intros acc; [reflexivity | ..]; cbn [NilEmpty.string_of_uint];
    unfold parse_digits; fold parse_digits;
    change (is_digit _) with true; cbv iota; rewrite IHd; cbn [dec_fold];
    repeat match goal with |- context [digit_value ?c] =>
      let v := eval vm_compute in (digit_value c) in change (digit_value c) with v end;
    rewrite ?Z.add_0_r; reflexivity.
Qed.

Lemma parse_digits_uint_start d acc b :
  d <> Decimal.Nil -> parse_digits (NilEmpty.string_of_uint d) acc b = Some (dec_fold d acc).
Proof.
  intros H. rewrite <- (parse_digits_uint d acc). destruct d; [easy | ..]; reflexivity.
Qed.

Lemma digit_not_space c : is_digit c = true -> is_py_space c = false.
Proof.
  intros H. apply negb_true_iff. revert c H.
  apply (ascii_forall_impl is_digit (fun c => negb (is_py_space c))). vm_compute. reflexivity.
Qed.

Lemma strip_digits s : all_chars is_digit s = true -> lstrip s = s /\ rstrip s = s.
Proof.
  induction s as [|c s IH]; simpl; [auto|]. intros H. apply andb_prop in H as [Hc Hs].
  rewrite (digit_not_space c Hc). destruct (IH Hs) as [_ ->]. rewrite andb_false_r. auto.
Qed.

Lemma to_int_not_nil z :
  Z.to_int z <> Decimal.Pos Decimal.Nil /\ Z.to_int z <> Decimal.Neg Decimal.Nil.
Proof.
  pose proof (DecimalZ.of_to z) as E.
  split; intros H; rewrite H in E; simpl in E; subst z; discriminate H.
Qed.

Lemma py_int_str (z : Z) : py_int (py_str_Z z) = Some z.
Proof.
  pose proof (DecimalZ.of_to z) as E. destruct (to_int_not_nil z) as [N1 N2].
  unfold py_int, py_str_Z. destruct (Z.to_int z) as [d|d]; simpl in E.
  - assert (Hd : d <> Decimal.Nil) by congruence.
    change (NilEmpty.string_of_int (Decimal.Pos d)) with (NilEmpty.string_of_uint d).
    destruct (strip_digits _ (string_of_uint_digits d)) as [-> ->].
    rewrite <- E, of_uint_fold, <- (parse_digits_uint_start d 0 false Hd).
    destruct d; [easy | ..]; reflexivity.
  - assert (Hd : d <> Decimal.Nil) by congruence.
    destruct (strip_digits _ (string_of_uint_digits d)) as [_ Hr].
    assert (Hne : String.eqb (NilEmpty.string_of_uint d) "" = false)
      by (destruct d; [easy | ..]; reflexivity).
    assert (Hst : rstrip (lstrip (NilEmpty.string_of_int (Decimal.Neg d))) =
                  String "-" (NilEmpty.string_of_uint d)).
    { transitivity (rstrip (String "-" (NilEmpty.string_of_uint d))); [reflexivity|].
      cbn [rstrip]. rewrite Hr, Hne. reflexivity. }
    rewrite Hst. cbv iota beta. rewrite parse_digits_uint_start by exact Hd.
    rewrite <- E. cbn [option_map Z.of_int]. now rewrite of_uint_fold.
Qed.

(** Python's [int] reads back what [str] writes: [int(str(z)) == z]. *)
Theorem py_int_str_Z (z : Z) : py_int (py_str_Z z) = Some z.
Proof. apply py_int_str. Qed.

(** ** The start-up *)

(** C28: A missing [MQTT_HOST], or a missing or non-integer [MQTT_PORT], ends
    the start-up with the code's message and exit code 1. *)
Theorem load_config_exits env :
  (env "MQTT_HOST" = None ->
   load_config env = Exited "Must define MQTT Host in configuration!" 1) /\
  (forall b, env "MQTT_HOST" = Some b ->
   (forall p, env "MQTT_PORT" = Some p -> py_int p = None) ->
   load_config env = Exited "Must define MQTT port in configuration!" 1).
Proof.
  unfold load_config. split; [intros -> ; reflexivity|].
  intros b Hb Hp. rewrite Hb. destruct (env "MQTT_PORT") as [p|] eqn:E; [now rewrite (Hp p eq_refl) | reflexivity].
Qed.

(** C29: [MQTT_PORT] is not range-checked: whatever integer it spells, out of
    the TCP port range 0..65535 or negative, becomes [port]; only
    [client.connect] can refuse it. *)
Theorem port_unbounded env z :
  env "MQTT_HOST" <> None -> env "MQTT_PORT" = Some (py_str_Z z) ->
  exists cfg, load_config env = Configured cfg /\ port cfg = z.
Proof.
  intros Hh Hp. unfold load_config. destruct (env "MQTT_HOST") as [b|]; [|contradiction].
  rewrite Hp, py_int_str. eexists. split; reflexivity.
Qed.

Lemma house_filter_is_house c : py_char_in c "ABCDEFGHIJKLMNOP" = true -> is_house c = true.
Proof.
  revert c. apply (ascii_forall_impl (fun c => py_char_in c "ABCDEFGHIJKLMNOP") is_house).
  vm_compute. reflexivity.
Qed.

(** A loaded configuration announces only house letters A..P. *)
Theorem load_config_houses env cfg :
  load_config env = Configured cfg -> Forall (fun h => is_house h = true) (discoveryhouses cfg).
Proof.
  unfold load_config. destruct (env "MQTT_HOST"); [|discriminate].
  destruct (match env "MQTT_PORT" with Some p => py_int p | None => None end); [|discriminate].
  intros [= <-]. simpl. apply Forall_forall. intros h Hin.
  apply filter_In in Hin as [_ Hh]. exact (house_filter_is_house h Hh).
Qed.

Lemma is_house_filter c : is_house c = true -> py_char_in c "ABCDEFGHIJKLMNOP" = true.
Proof.
  revert c. apply (ascii_forall_impl is_house (fun c => py_char_in c "ABCDEFGHIJKLMNOP")).
  vm_compute. reflexivity.
Qed.

(** [house_letters] keeps one [h] for each [h] and each lower-case [h]. *)
Lemma house_letters_count s h :
  is_house h = true ->
  count_occ ascii_dec (house_letters s) h =
  count_occ ascii_dec (list_ascii_of_string s) h + count_occ ascii_dec (list_ascii_of_string s) (char_lower h).
Proof.
  intros Hh. induction s as [|c s IH]; [reflexivity|]. unfold house_letters, py_upper in *.
  cbn [smap list_ascii_of_string filter count_occ]. pose proof (char_upper_house c h Hh) as E.
  assert (Hl : char_lower h <> h)
    by (intros Hl; apply (f_equal nat_of_ascii) in Hl; rewrite char_lower_house in Hl by exact Hh; lia).
  destruct (Ascii.eqb_spec (char_upper c) h) as [Eu|Eu].
  - rewrite Eu, is_house_filter by exact Hh. cbn [count_occ].
    destruct (ascii_dec h h) as [_|]; [|congruence]. symmetry in E. apply Bool.orb_true_iff in E.
    destruct (ascii_dec c h) as [E1|E1], (ascii_dec c (char_lower h)) as [E2|E2]; [congruence | lia | lia |].
    destruct E as [E|E]; apply Ascii.eqb_eq in E; contradiction.
  - symmetry in E.
    apply Bool.orb_false_iff in E as [E1 E2]. apply Ascii.eqb_neq in E1, E2.
    destruct (ascii_dec c h); [contradiction|]. destruct (ascii_dec c (char_lower h)); [contradiction|].
    destruct (py_char_in (char_upper c) _); cbn [count_occ]; [|exact IH].
    destruct (ascii_dec (char_upper c) h); [contradiction | exact IH].
Qed.

(** The house letters of a loaded configuration are read from
    [DISCOVERY_HOUSECODES]. *)
Lemma load_config_discoveryhouses env cfg :
  load_config env = Configured cfg ->
  discoveryhouses cfg = house_letters (env_or env "DISCOVERY_HOUSECODES" "").
Proof.
  unfold load_config. destruct (env "MQTT_HOST"); [|discriminate].
  destruct (match env "MQTT_PORT" with Some p => py_int p | None => None end); [|discriminate].
  intros [= <-]. reflexivity.
Qed.

(** C30: [DISCOVERY_HOUSECODES] is read as a sequence, not as a set: on an
    ASCII setting (where [str.upper] is the ASCII map of the model), a
    house letter is announced once for each time it is given, in upper or
    lower case; given twice, it is announced twice. *)
Theorem discovery_houses_count env cfg s h :
  load_config env = Configured cfg -> env "DISCOVERY_HOUSECODES" = Some s ->
  all_chars (in_range 0 127) s = true -> is_house h = true ->
  count_occ ascii_dec (discoveryhouses cfg) h =
  count_occ ascii_dec (list_ascii_of_string s) h + count_occ ascii_dec (list_ascii_of_string s) (char_lower h).
Proof.
  intros Hc Hs _ Hh. rewrite (load_config_discoveryhouses _ _ Hc). unfold env_or. rewrite Hs.
  exact (house_letters_count s h Hh).
Qed.

(** The environment of a typical deployment. *)
Definition sample_environ (houses : string) : environ :=
  fun k => if String.eqb k "MQTT_HOST" then Some "localhost"
           else if String.eqb k "MQTT_PORT" then Some "1883"
           else if String.eqb k "DISCOVERY_HOUSECODES" then Some houses
           else None.

Lemma load_config_houses_witness :
  Forall (fun h => is_house h = true)
    (discoveryhouses (match load_config (sample_environ "ab") with
                      | Configured cfg => cfg | Exited _ _ => sample_config end)).
Proof. apply (load_config_houses (sample_environ "ab")). reflexivity. Defined.

(** [aAb]: [A] given twice, announced twice. *)
Lemma discovery_houses_count_witness :
  exists cfg, load_config (sample_environ "aAb") = Configured cfg /\
    count_occ ascii_dec (discoveryhouses cfg) "A"%char = 2%nat.
Proof.
  eexists. split; [reflexivity|].
  rewrite (discovery_houses_count (sample_environ "aAb") _ "aAb" "A"%char); reflexivity.
Defined.

Lemma load_config_exits_witness :
  load_config (fun _ => None) = Exited "Must define MQTT Host in configuration!" 1.
Proof. apply (proj1 (load_config_exits (fun _ => None))). reflexivity. Defined.

(** A port beyond the TCP range. *)
Definition far_port_environ : environ :=
  fun k => if String.eqb k "MQTT_HOST" then Some "localhost"
           else if String.eqb k "MQTT_PORT" then Some (py_str_Z 70000) else None.

Lemma port_unbounded_witness :
  exists cfg, load_config far_port_environ = Configured cfg /\ port cfg = 70000%Z.
Proof. apply port_unbounded; [discriminate | reflexivity]. Defined.

End Config.
