(* ===== verification/System.v ===== *)
(** * System: the main program and the two flows of the running bridge

    The main program (src/x10mqtt.py lines 243-287) prints where it
    connects, gives the client the credentials when both [MQTT_USER] and
    [MQTT_PASSWORD] are set, connects ([exit(1)] when [client.connect]
    raises), notes the CM17 mode, starts paho's network thread
    ([client.loop_start()]) and then runs the monitor loop on the main
    thread.  From then on two flows run concurrently: the network thread
    calls [on_connect] and [on_message], the main thread runs one
    [main_step] per line of [heyu monitor] until the process ends.

    [main_setup] is lines 243-267 and [start] its state: the program
    stopped by [exit(1)], or paho's thread started and the main thread
    about to ask [monitor()] for its first line ([Starting]).  [sys_step]
    is the running system as a step relation: a callback of the network
    thread, in every phase from [client.loop_start()] on (before the
    spawn, during the loop, and after the main thread has ended, until
    the interpreter stops the daemon thread: the model lets it run
    indefinitely); the [Popen] of [heyu monitor], which starts the
    process or raises [FileNotFoundError] and ends the main thread; a
    monitor line; the end of the monitor process.  The environment
    chooses which step and with what data.  A message reaches
    [on_message] as paho delivers it, as bytes,
    and runs through [Payload.on_message_bytes] with Unicode's case table
    [upper_cp] as a parameter, so the theorems hold for every message and
    every table.  A callback that raises keeps the effects it had before
    the raise (none for [UnicodeDecodeError], the two log lines for
    [OSError]); the relation
    lets later callbacks run whether paho then logs the exception or its
    network thread ends, so it covers both behaviours of paho's versions.
    The callbacks are atomic steps: they neither read nor write [rcvihc]
    ([net_handler_local]), so running one in the middle of a monitor step
    changes the order of the trace and nothing else.  Any line may come
    at any time: [sys_step] does not tie the lines to an output of [heyu
    monitor] ([Stream] reads those), which only makes the invariants
    stronger.

    The theorems: every state reachable from the start-up keeps [rcvihc]
    empty or a housecode, and every publish in its trace is retained and
    either an [ON]/[OFF] state update on [stattopic/h] for a housecode [h]
    that passes [hcpattern] or a discovery record of a configured letter;
    any interleaving of callbacks with monitor lines leaves [rcvihc] and
    the monitor's own effects as the monitor alone would, the trace being
    an interleaving of the two flows' effects that keeps each flow's
    order; a failed connection exits
    with code 1 before anything is published or started; the
    credentials are set only when both settings are non-empty, although
    the code's comment says either one is enough; a [heyu monitor] that
    cannot be started ends the main thread with only the callbacks'
    effects after the start-up's, before and after the failure; and every
    effect of every reachable trace has the shape the code gives it
    ([wf_event]). *)

From S2P Require Import Prelude PyStr Regex Patterns Effects Utf8 Command Payload Monitor Stream Json Discovery Config.
From Stdlib Require Import Strings.Byte.
Open Scope string_scope.
Open Scope list_scope.
Open Scope py_scope.

Module System.
Import Patterns Effects Command Monitor Stream Json Discovery Config.
Open Scope monad_scope.

(** ** The code *)

Section Main.
Context (cfg : config).
(** Unicode's upper-case table, which [str.upper] applies in
    [on_message] ([Payload]). *)
Context (upper_cp : Z -> list Z).

(** Lines 243-267; [connected] says whether [client.connect(broker,port)]
    returned ([true]) or raised ([false]).  [Some code] is [exit(code)]. *)
Definition main_setup (connected : bool) : PY (option Z) :=
  print ("Establishing MQTT to " +++ broker cfg +++ " port " +++ py_str_Z (port cfg) +++ "...") ;;
  (if negb (String.eqb (mqttuser cfg) "") && negb (String.eqb (mqttpass cfg) "")
   then print ("(Using MQTT username " +++ mqttuser cfg +++ ")") ;;
        emit (EvCredentials (mqttuser cfg) (mqttpass cfg))
   else ret tt) ;;
  emit (EvConnect (broker cfg) (port cfg)) ;;
  if negb connected then
    print "Connection failed. Make sure broker, port, and user is defined correctly" ;;
    ret (Some 1%Z)
  else
    (if cm17 cfg then print "CM17 is in use" else ret tt) ;;
    print "Waiting for MQTT messages and monitoring for remote changes" ;;
    emit EvLoopStart ;;
    ret None.

(** What the network thread runs: paho's callbacks, [client.on_connect]
    and [client.on_message] (lines 245-246), with the environment's data. *)
Inductive net_event :=
| NetConnect (rc : Z)                              (** the CONNACK result code *)
| NetMessage (topic payload : list byte) (ans : Payload.run_answer).
    (** a message's bytes and what [subprocess.run] does if [heyu] is run *)

(** A callback that raises ([UnicodeDecodeError] or [OSError] from
    [on_message]) ends with its effects so far; what paho does next depends on its
    version (it logs the exception, or re-raises it and its network
    thread ends).  The steps of [sys_step] let further callbacks run
    either way, so the theorems hold for both. *)
Definition net_handler (e : net_event) : PY unit :=
  match e with
  | NetConnect rc => on_connect cfg rc
  | NetMessage topic payload ans => _ <- Payload.on_message_bytes cfg upper_cp topic payload ans ;; ret tt
  end.

End Main.

(** ** The running system *)

(** Where the main thread is: between [client.loop_start()] (line 267)
    and the [Popen] of [heyu monitor] (line 134, run when the [for] of
    line 281 asks the generator for its first line), in the monitor loop,
    past the loop's end, or stopped by [exit(code)]. *)
Inductive run_phase :=
| Starting
| Running
| MonitorEnded (o : outcome)
| ExitCalled (code : Z).

(** paho's network thread runs from [client.loop_start()] on; an
    [exit(code)] comes before it (lines 31-38, 255-258).  Once the main
    thread has ended, the thread is a daemon thread that the interpreter
    stops when it shuts down; callbacks may still run in between, and the
    model lets them run for as long as they like. *)
Definition net_live (ph : run_phase) : bool :=
  match ph with ExitCalled _ => false | _ => true end.

Record sys := mkSys { sys_state : state; sys_phase : run_phase }.

Section Steps.
Context (cfg : config) (upper_cp : Z -> list Z).

(** Lines 243-267: [main_setup], with [client.loop_start()] its last
    effect when the connection succeeds. *)
Definition start (connected : bool) : sys :=
  let '(r, st) := main_setup cfg connected init_state in
  mkSys st (match r with Some code => ExitCalled code | None => Starting end).

(** One step of the running bridge: a callback of the network thread,
    in any phase where that thread exists; the first [next()] of
    [monitor()], whose [Popen] starts [heyu monitor] or raises
    [FileNotFoundError] before any effect, an exception the [for] of line
    281 does not catch, so the main thread ends; a line of the monitor;
    the end of the monitor process. *)
Inductive sys_step : sys -> sys -> Prop :=
| StepNet e st ph :
    net_live ph = true ->
    sys_step (mkSys st ph) (mkSys (snd (net_handler cfg upper_cp e st)) ph)
| StepSpawn st :
    sys_step (mkSys st Starting) (mkSys (snd (monitor_spawn st)) Running)
| StepSpawnFail st :
    sys_step (mkSys st Starting) (mkSys st (MonitorEnded (Raised "FileNotFoundError")))
| StepLine line st :
    sys_step (mkSys st Running) (mkSys (snd (main_step cfg line st)) Running)
| StepEnd rc st :
    sys_step (mkSys st Running) (mkSys (snd (monitor_end rc st)) (MonitorEnded (fst (monitor_end rc st)))).

Inductive reachable (s0 : sys) : sys -> Prop :=
| reach_start : reachable s0 s0
| reach_step s s' : reachable s0 s -> sys_step s s' -> reachable s0 s'.

(** An explicit interleaving of the two flows. *)
Inductive action :=
| ANet (e : net_event)
| ALine (line : string).

Definition act (a : action) : PY unit :=
  match a with ANet e => net_handler cfg upper_cp e | ALine line => main_step cfg line end.

Definition run_schedule (sched : list action) : PY unit := for_each act sched.

Definition lines_of (sched : list action) : list string :=
  flat_map (fun a => match a with ALine l => [l] | ANet _ => [] end) sched.

Definition nets_of (sched : list action) : list net_event :=
  flat_map (fun a => match a with ANet e => [e] | ALine _ => [] end) sched.

End Steps.

(** The whole program from its environment: the configuration, or the
    message and exit code of a missing setting. *)
Definition program_start (env : environ) (connected : bool) : option config * sys :=
  match load_config env with
  | Exited msg code => (None, mkSys {| rcvihc := ""; trace := [EvPrint msg] |} (ExitCalled code))
  | Configured cfg => (Some cfg, start cfg connected)
  end.

(** ** The network callbacks do not touch the monitor's state *)

Section Callbacks.
Context (cfg : config) (upper_cp : Z -> list Z).

(** The effects of one callback. *)
Definition net_events (e : net_event) : list event :=
  match e with
  | NetConnect rc =>
      connect_log rc ++ [EvSubscribe (cmdtopic cfg +++ "/+")] ++
      flat_map (house_events cfg) (discoveryhouses cfg)
  | NetMessage topic payload ans => snd (Payload.message_bytes_result cfg upper_cp topic payload ans)
  end.

Lemma net_handler_runs e st : runs_to (net_handler cfg upper_cp e) st tt (rcvihc st) (net_events e).
Proof.
  destruct e; [apply on_connect_runs|]. cbn [net_handler net_events].
  rewrite <- (app_nil_r (snd _)).
  eapply runs_to_seq_keep; [apply Payload.on_message_bytes_runs | intros; apply runs_to_ret].
Qed.

Lemma net_handler_local e : local (net_handler cfg upper_cp e).
Proof. intros g. exists tt, g, (net_events e). intros tr. apply net_handler_runs. Qed.

Lemma local_main_loop lines : local (main_loop cfg lines).
Proof. apply local_for_each. apply local_main_step. Qed.

Lemma lines_of_net e sched : lines_of (ANet e :: sched) = lines_of sched.
Proof. reflexivity. Qed.

Lemma lines_of_line l sched : lines_of (ALine l :: sched) = l :: lines_of sched.
Proof. reflexivity. Qed.

Lemma nets_of_net e sched : nets_of (ANet e :: sched) = e :: nets_of sched.
Proof. reflexivity. Qed.

Lemma nets_of_line l sched : nets_of (ALine l :: sched) = nets_of sched.
Proof. reflexivity. Qed.

#[local] Hint Rewrite lines_of_net lines_of_line nets_of_net nets_of_line : pystr.

(** C12: Any interleaving of the network thread's callbacks with the monitor's
    lines ends with the [rcvihc] the monitor lines alone give, and its
    trace is a permutation of the monitor's own effects followed by the
    callbacks' effects (spec section 5). *)
Theorem interleaving_serializable sched st :
  exists g evs_mon evs,
    runs_to (main_loop cfg (lines_of sched)) st tt g evs_mon /\
    runs_to (run_schedule cfg upper_cp sched) st tt g evs /\
    shuffle evs_mon (flat_map net_events (nets_of sched)) evs.
Proof.
  revert st. induction sched as [|[e|line] sched IH]; intros st; autorewrite with pystr.
  - exists (rcvihc st), [], []. split; [apply runs_to_ret|]. split; [apply runs_to_ret | constructor].
  - destruct (IH {| rcvihc := rcvihc st; trace := trace st ++ net_events e |}) as (g & em & ev & Hm & Hs & Hp).
    exists g, em, (net_events e ++ ev). split; [|split].
    + exact (local_runs _ {| rcvihc := rcvihc st; trace := trace st ++ net_events e |} st _ _ _
               (local_main_loop _) eq_refl Hm).
    + eapply runs_to_bind; [apply net_handler_runs | exact Hs].
    + cbn [flat_map]. apply shuffle_app_right. exact Hp.
  - destruct (local_exists _ st (local_main_step cfg line)) as ([] & g1 & e1 & H1).
    destruct (IH {| rcvihc := g1; trace := trace st ++ e1 |}) as (g & em & ev & Hm & Hs & Hp).
    exists g, (e1 ++ em), (e1 ++ ev). split; [|split].
    + exact (runs_to_bind _ _ _ _ _ _ _ _ _ H1 Hm).
    + exact (runs_to_bind _ _ _ _ _ _ _ _ _ H1 Hs).
    + apply shuffle_app_left. exact Hp.
Qed.

End Callbacks.

(** ** The start-up *)

Section Startup.
Context (cfg : config).

(** The effects of the start-up, in order. *)
Definition setup_events (connected : bool) : list event :=
  EvPrint ("Establishing MQTT to " +++ broker cfg +++ " port " +++ py_str_Z (port cfg) +++ "...") ::
  (if negb (String.eqb (mqttuser cfg) "") && negb (String.eqb (mqttpass cfg) "")
   then [EvPrint ("(Using MQTT username " +++ mqttuser cfg +++ ")");
         EvCredentials (mqttuser cfg) (mqttpass cfg)]
   else []) ++
  EvConnect (broker cfg) (port cfg) ::
  (if connected
   then (if cm17 cfg then [EvPrint "CM17 is in use"] else []) ++
        [EvPrint "Waiting for MQTT messages and monitoring for remote changes"; EvLoopStart]
   else [EvPrint "Connection failed. Make sure broker, port, and user is defined correctly"]).

Lemma start_state connected :
  start cfg connected =
  mkSys {| rcvihc := ""; trace := setup_events connected |} (if connected then Starting else ExitCalled 1).
Proof.
  unfold start, main_setup, setup_events.
  destruct (negb _ && negb _), connected, (cm17 cfg); reflexivity.
Qed.

(** C22: A connection that fails ends the program with [exit(1)]: the system
    takes no step, and before the failure message it has only printed,
    set the credentials and tried to connect: nothing published, nothing
    subscribed, no network thread, no monitor process (spec section
    4.6). *)
Theorem connect_failure_exits :
  sys_phase (start cfg false) = ExitCalled 1 /\
  (forall upper_cp s', ~ sys_step cfg upper_cp (start cfg false) s') /\
  exists pre, trace (sys_state (start cfg false)) =
              pre ++ [EvPrint "Connection failed. Make sure broker, port, and user is defined correctly"] /\
    Forall (fun e => match e with EvPrint _ | EvCredentials _ _ | EvConnect _ _ => True | _ => False end) pre.
Proof.
  rewrite start_state. split; [reflexivity|]. split; [intros u s' H; inversion H; discriminate|].
  exists (EvPrint ("Establishing MQTT to " +++ broker cfg +++ " port " +++ py_str_Z (port cfg) +++ "...") ::
          (if negb (String.eqb (mqttuser cfg) "") && negb (String.eqb (mqttpass cfg) "")
           then [EvPrint ("(Using MQTT username " +++ mqttuser cfg +++ ")");
                 EvCredentials (mqttuser cfg) (mqttpass cfg)]
           else []) ++ [EvConnect (broker cfg) (port cfg)]).
  split; [cbn [sys_state trace setup_events app]; rewrite <- app_assoc; reflexivity|].
  constructor; [exact I|]. apply Forall_app.
  split; [destruct (negb _ && negb _) | ]; repeat constructor.
Qed.

(** C23: [client.username_pw_set] is called exactly when both [MQTT_USER] and
    [MQTT_PASSWORD] are non-empty (line 250), although the comment of
    lines 248-249 says either one is enough. *)
Theorem credentials_need_both connected :
  (exists u p, In (EvCredentials u p) (trace (sys_state (start cfg connected)))) <->
  mqttuser cfg <> "" /\ mqttpass cfg <> "".
Proof.
  rewrite start_state. cbn [sys_state trace]. unfold setup_events.
  destruct (String.eqb_spec (mqttuser cfg) "") as [Hu|Hu], (String.eqb_spec (mqttpass cfg) "") as [Hp|Hp];
    cbn [negb andb app In]; split; try tauto;
    try (intros _; exists (mqttuser cfg), (mqttpass cfg); right; right; left; reflexivity);
    intros (u & p & H); rewrite ?in_app_iff in H; cbn [In] in H;
    destruct connected, (cm17 cfg); simpl in H; intuition discriminate.
Qed.

End Startup.

(** ** A [heyu monitor] that cannot be started *)

Section SpawnFailure.
Context (cfg : config) (upper_cp : Z -> list Z).

(** The main thread has not run the monitor: it has not reached the
    [Popen] yet, or the [Popen] raised. *)
Definition monitor_not_run (s : sys) : Prop :=
  sys_phase s = Starting \/ sys_phase s = MonitorEnded (Raised "FileNotFoundError").

(** Only the network thread has acted since the start-up. *)
Definition callbacks_only (s : sys) : Prop :=
  rcvihc (sys_state s) = "" /\
  exists es, trace (sys_state s) = setup_events cfg true ++ flat_map (net_events cfg upper_cp) es.

Lemma callbacks_only_net e st ph :
  callbacks_only (mkSys st ph) -> callbacks_only (mkSys (snd (net_handler cfg upper_cp e st)) ph).
Proof.
  intros [Hg [es Hes]]. rewrite (runs_to_state _ _ _ _ _ (net_handler_runs cfg upper_cp e st)).
  split; [exact Hg|]. exists (es ++ [e]). cbn [sys_state trace] in *.
  rewrite Hes, flat_map_app, <- app_assoc. cbn [flat_map]. now rewrite app_nil_r.
Qed.

Lemma monitor_end_not_spawn rc st : fst (monitor_end rc st) <> Raised "FileNotFoundError".
Proof. unfold monitor_end. destruct (negb _); discriminate. Qed.

Lemma monitor_not_run_reach s :
  reachable cfg upper_cp (start cfg true) s -> monitor_not_run s -> callbacks_only s.
Proof.
  induction 1 as [|s s' _ IH Hs]; intros Hn.
  - rewrite start_state. split; [reflexivity|]. exists []. symmetry. apply app_nil_r.
  - unfold monitor_not_run in Hn.
    destruct Hs as [e st ph _ | st | st | line st | rc st]; cbn [sys_phase] in Hn.
    + exact (callbacks_only_net e st ph (IH Hn)).
    + destruct Hn; discriminate.
    + exact (IH (or_introl eq_refl)).
    + destruct Hn; discriminate.
    + destruct Hn as [Hn|Hn]; [discriminate|]. injection Hn as Hn. exact (False_ind _ (monitor_end_not_spawn rc st Hn)).
Qed.

End SpawnFailure.

(** C15: When [heyu monitor] cannot be started ([Popen] raises
    [FileNotFoundError], line 134, on the first iteration of the [for]
    of line 281), the main thread ends without running the monitor: in
    every state the bridge reaches with that outcome, [rcvihc] is still
    empty and the trace is the start-up's effects followed by the network
    thread's callbacks only.  Those callbacks may have run before the
    [Popen] and may keep running after it: no monitor process, no monitor
    line, no state change from the monitor. *)
Theorem spawn_failure_ends cfg upper_cp s :
  reachable cfg upper_cp (start cfg true) s ->
  sys_phase s = MonitorEnded (Raised "FileNotFoundError") ->
  rcvihc (sys_state s) = "" /\
  exists es, trace (sys_state s) = setup_events cfg true ++ flat_map (net_events cfg upper_cp) es.
Proof. intros Hr Hp. apply (monitor_not_run_reach cfg upper_cp s Hr). right. exact Hp. Qed.

(** ** The invariant of the running bridge *)

Section Invariant.
Context (cfg : config) (upper_cp : Z -> list Z).

(** A state update: [ON]/[OFF] on [stattopic/h] lower-cased, for an [h]
    that passes [hcpattern]. *)
Definition state_publish (t p : string) : Prop :=
  exists h, hc_matches h = true /\ t = stat_topic cfg h /\ (p = "ON" \/ p = "OFF").

(** A discovery record of a configured letter and a unit 1..16. *)
Definition discovery_publish (t p : string) : Prop :=
  exists h u, In h (discoveryhouses cfg) /\ In u units /\
    t = discovery_topic cfg (String h "") u /\ p = json_dumps (discovery_record cfg (String h "") u).

Definition pub_ok (m : string * string * bool) : Prop :=
  let '(t, p, r) := m in r = true /\ (state_publish t p \/ discovery_publish t p).

Definition sys_ok (s : sys) : Prop :=
  rcvihc_ok (rcvihc (sys_state s)) /\ Forall pub_ok (published (trace (sys_state s))).

(** The publishes a command message may make are state updates. *)
Lemma pub_ok_command evs : Forall (Payload.command_effect_ok cfg) evs -> Forall pub_ok (published evs).
Proof.
  intros H. apply published_Forall. intros t p r Hin. rewrite Forall_forall in H.
  destruct (H _ Hin) as (h & -> & Hp & -> & Hh). split; [reflexivity|]. left. exists h. auto.
Qed.

Lemma pub_ok_connect rc :
  Forall pub_ok (published (connect_log rc ++ [EvSubscribe (cmdtopic cfg +++ "/+")] ++
                            flat_map (house_events cfg) (discoveryhouses cfg))).
Proof.
  rewrite published_connect. apply Forall_forall. intros m Hin.
  apply in_map_iff in Hin as ([h u] & <- & Hin). apply in_prod_iff in Hin as [Hh Hu].
  split; [reflexivity|]. right. exists h, u. auto.
Qed.

Lemma pub_ok_net e : Forall pub_ok (published (net_events cfg upper_cp e)).
Proof. destruct e; [apply pub_ok_connect | apply pub_ok_command, Payload.message_bytes_result_ok]. Qed.

Lemma sys_ok_extend st ph0 g evs :
  sys_ok (mkSys st ph0) -> rcvihc_ok g -> Forall pub_ok (published evs) ->
  forall ph, sys_ok (mkSys {| rcvihc := g; trace := trace st ++ evs |} ph).
Proof.
  intros [_ Hp] Hg Hevs ph. split; [exact Hg|]. simpl. rewrite published_app. apply Forall_app. auto.
Qed.

(** Every step of the running bridge keeps the invariant. *)
Lemma sys_step_ok s s' : sys_step cfg upper_cp s s' -> sys_ok s -> sys_ok s'.
Proof.
  intros Hs Hok. destruct Hs as [e st ph _ | st | st | line st | rc st].
  - rewrite (runs_to_state _ _ _ _ _ (net_handler_runs cfg upper_cp e st)).
    apply sys_ok_extend with ph; [exact Hok | apply Hok | apply pub_ok_net].
  - unfold monitor_spawn. rewrite (runs_to_state _ _ _ _ _ (runs_to_emit _ st)).
    apply sys_ok_extend with Starting; [exact Hok | apply Hok | constructor].
  - exact Hok.
  - destruct (main_step_ok cfg line st (proj1 Hok)) as (g & evs & Hrun & Hg & Hpub).
    rewrite (runs_to_state _ _ _ _ _ Hrun). apply sys_ok_extend with Running; [exact Hok | exact Hg|].
    apply published_Forall. intros t p r Hin.
    rewrite Forall_forall in Hpub. destruct (Hpub _ Hin) as (h & Hh & -> & Hc & ->).
    split; [reflexivity|]. left. exists h. split; [apply hcpattern_accepts; left; exact Hh|].
    split; [reflexivity | exact Hc].
  - rewrite (runs_to_state _ _ _ _ _ (runs_to_monitor_end rc st)).
    rewrite <- (app_nil_r (trace st)) at 2. apply sys_ok_extend with Running; [exact Hok | apply Hok | constructor].
Qed.

Lemma start_ok connected : sys_ok (start cfg connected).
Proof.
  rewrite start_state. split; [left; reflexivity|]. unfold setup_events.
  destruct (negb _ && negb _), connected, (cm17 cfg); constructor.
Qed.

End Invariant.

(** C11: The invariant of the whole program: whatever the environment, the
    broker and [heyu] do, every state the bridge reaches after a
    successful configuration keeps [rcvihc] empty or a housecode of the
    grammar, and every publish it has made is retained and is either an
    [ON]/[OFF] update on [stattopic/h] lower-cased for an [h] that passes
    [hcpattern], or the discovery record of a configured letter and a
    unit 1..16. *)
Theorem program_invariant upper_cp env connected cfg s0 s :
  program_start env connected = (Some cfg, s0) -> reachable cfg upper_cp s0 s -> sys_ok cfg s.
Proof.
  unfold program_start. destruct (load_config env) as [c|msg code]; [|discriminate].
  intros [= <- <-] Hr. induction Hr as [|s s' _ IH Hs]; [apply start_ok | exact (sys_step_ok _ _ _ _ Hs IH)].
Qed.

(** ** The shape of every effect *)

Section WellFormed.
Context (cfg : config) (upper_cp : Z -> list Z).

(** The effects the bridge may have: [heyu] run with one of its four
    actions on a lower-cased housecode that passes [hcpattern], [heyu
    monitor] spawned, the command wildcard subscribed, the configured
    credentials (both non-empty) and broker, and the publishes of the
    invariant. *)
Definition wf_event (e : event) : Prop :=
  match e with
  | EvPrint _ | EvLoopStart => True
  | EvRun argv _ =>
      exists a hc, argv = ["heyu"; a; py_lower hc] /\ In a ["on"; "off"; "fon"; "foff"] /\
                   hc_matches hc = true
  | EvSpawn argv => argv = ["heyu"; "monitor"]
  | EvSubscribe t => t = cmdtopic cfg +++ "/+"
  | EvCredentials u p => u = mqttuser cfg /\ p = mqttpass cfg /\ u <> "" /\ p <> ""
  | EvConnect h p => h = broker cfg /\ p = port cfg
  | EvPublish t p r => pub_ok cfg (t, p, r)
  end.

Lemma wf_setup connected : Forall wf_event (setup_events cfg connected).
Proof.
  unfold setup_events. constructor; [exact I|]. apply Forall_app. split.
  - destruct (String.eqb_spec (mqttuser cfg) "") as [Hu|Hu], (String.eqb_spec (mqttpass cfg) "") as [Hp|Hp];
      simpl; repeat constructor; assumption.
  - constructor; [split; reflexivity|].
    destruct connected, (cm17 cfg); simpl; repeat constructor.
Qed.

(** The publishes of a list of effects are checked by [pub_ok]; the rest
    one by one. *)
Lemma wf_split evs :
  (forall e, In e evs -> match e with EvPublish _ _ _ => True | _ => wf_event e end) ->
  Forall (pub_ok cfg) (published evs) -> Forall wf_event evs.
Proof.
  induction evs as [|e evs IH]; intros He Hp; [constructor|].
  assert (Hrest : forall e', In e' evs -> match e' with EvPublish _ _ _ => True | _ => wf_event e' end)
    by (intros e' Hin; apply He; right; exact Hin).
  specialize (He e (or_introl eq_refl)).
  destruct e; simpl in Hp |- *; try (constructor; [exact He | auto]).
  inversion Hp; subst. constructor; auto.
Qed.

(** The effects of a command message have the shapes of [wf_event]. *)
Lemma wf_command e : Payload.command_effect_ok cfg e -> wf_event e.
Proof.
  destruct e; simpl; try tauto. intros (h & -> & Hp & -> & Hh). split; [reflexivity|]. left.
  exists h. auto.
Qed.

Lemma wf_connect rc :
  Forall wf_event (connect_log rc ++ [EvSubscribe (cmdtopic cfg +++ "/+")] ++
                   flat_map (house_events cfg) (discoveryhouses cfg)).
Proof.
  apply wf_split; [|apply pub_ok_connect]. intros e Hin.
  repeat rewrite in_app_iff in Hin. destruct Hin as [Hin|[[<-|[]]|Hin]]; [| reflexivity |].
  - unfold connect_log in Hin. destruct (Z.eqb rc 0); simpl in Hin; intuition (subst; exact I).
  - apply in_flat_map in Hin as (h & _ & Hin). destruct Hin as [<-|Hin]; [exact I|].
    apply in_flat_map in Hin as (u & _ & [<-|[<-|[]]]); exact I.
Qed.

Lemma wf_net e : Forall wf_event (net_events cfg upper_cp e).
Proof.
  destruct e; [apply wf_connect|].
  eapply Forall_impl; [apply wf_command | apply Payload.message_bytes_result_ok].
Qed.

Lemma wf_monitor e : monitor_event_ok cfg e -> wf_event e.
Proof.
  destruct e; simpl; try tauto. intros (h & Hh & -> & Hc & ->). split; [reflexivity|]. left.
  exists h. split; [apply hcpattern_accepts; left; exact Hh|]. split; [reflexivity | exact Hc].
Qed.

Definition sys_wf (s : sys) : Prop :=
  rcvihc_ok (rcvihc (sys_state s)) /\ Forall wf_event (trace (sys_state s)).

Lemma sys_wf_extend st ph0 g evs :
  sys_wf (mkSys st ph0) -> rcvihc_ok g -> Forall wf_event evs ->
  forall ph, sys_wf (mkSys {| rcvihc := g; trace := trace st ++ evs |} ph).
Proof. intros [_ Ht] Hg Hevs ph. split; [exact Hg|]. apply Forall_app. auto. Qed.

Lemma sys_step_wf s s' : sys_step cfg upper_cp s s' -> sys_wf s -> sys_wf s'.
Proof.
  intros Hs Hok. destruct Hs as [e st ph _ | st | st | line st | rc st].
  - rewrite (runs_to_state _ _ _ _ _ (net_handler_runs cfg upper_cp e st)).
    apply sys_wf_extend with ph; [exact Hok | apply Hok | apply wf_net].
  - unfold monitor_spawn. rewrite (runs_to_state _ _ _ _ _ (runs_to_emit _ st)).
    apply sys_wf_extend with Starting; [exact Hok | apply Hok | repeat constructor].
  - exact Hok.
  - destruct (main_step_ok cfg line st (proj1 Hok)) as (g & evs & Hrun & Hg & Hev).
    rewrite (runs_to_state _ _ _ _ _ Hrun). apply sys_wf_extend with Running; [exact Hok | exact Hg|].
    eapply Forall_impl; [apply wf_monitor | exact Hev].
  - rewrite (runs_to_state _ _ _ _ _ (runs_to_monitor_end rc st)).
    rewrite <- (app_nil_r (trace st)) at 2. apply sys_wf_extend with Running; [exact Hok | apply Hok | constructor].
Qed.

End WellFormed.

(** C13: Every effect in the trace of every state the running bridge reaches
    has the shape the code gives it: [heyu] is only run as [heyu <action>
    <hc>] with [<action>] one of [on], [off], [fon], [foff] and [<hc>] a
    lower-cased housecode that passes [hcpattern]; the only process
    spawned is [heyu monitor]; the only subscription is [cmdtopic/+];
    credentials are the configured, non-empty ones; the only connection
    is to the configured broker and port; every publish is one of the
    invariant's. *)
Theorem trace_well_formed cfg upper_cp connected s :
  reachable cfg upper_cp (start cfg connected) s -> Forall (wf_event cfg) (trace (sys_state s)).
Proof.
  intros Hr. enough (H : sys_wf cfg s) by apply H.
  induction Hr as [|s s' _ IH Hs]; [|exact (sys_step_wf _ _ _ _ Hs IH)].
  rewrite start_state. split; [left; reflexivity | apply wf_setup].
Qed.

(** ** On a typical deployment *)

Lemma program_invariant_witness :
  exists cfg s0, program_start (sample_environ "ab") true = (Some cfg, s0) /\ sys_ok cfg s0.
Proof.
  do 2 eexists. split; [reflexivity|].
  eapply (program_invariant Payload.sample_upper (sample_environ "ab") true);
    [reflexivity | apply reach_start].
Defined.

Lemma trace_well_formed_witness :
  Forall (wf_event sample_config) (trace (sys_state (start sample_config true))).
Proof. apply (trace_well_formed sample_config Payload.sample_upper true). apply reach_start. Defined.

(** The broker's CONNACK comes before the [Popen] fails: [on_connect]
    has subscribed, and the main thread has still done nothing. *)
Lemma spawn_failure_ends_witness :
  exists s, reachable sample_config Payload.sample_upper (start sample_config true) s /\
    sys_phase s = MonitorEnded (Raised "FileNotFoundError") /\
    In (EvSubscribe (cmdtopic sample_config +++ "/+")) (trace (sys_state s)) /\
    rcvihc (sys_state s) = "" /\
    exists es, trace (sys_state s) =
               setup_events sample_config true ++ flat_map (net_events sample_config Payload.sample_upper) es.
Proof.
  set (st1 := snd (net_handler sample_config Payload.sample_upper (NetConnect 0)
                     {| rcvihc := ""; trace := setup_events sample_config true |})).
  assert (Hr : reachable sample_config Payload.sample_upper (start sample_config true)
                 (mkSys st1 (MonitorEnded (Raised "FileNotFoundError")))).
  { eapply reach_step; [|apply StepSpawnFail]. rewrite start_state.
    eapply reach_step; [apply reach_start | apply StepNet; reflexivity]. }
  exists (mkSys st1 (MonitorEnded (Raised "FileNotFoundError"))).
  split; [exact Hr|]. split; [reflexivity|]. split.
  - unfold st1. vm_compute. repeat (first [left; reflexivity | right]).
  - exact (spawn_failure_ends sample_config Payload.sample_upper _ Hr eq_refl).
Defined.

End System.
